(** * cp-mentor backend: sessions, AI fallback and account security

    A shallow embedding of the server side of cp-mentor:
    - [services/aiService.js]  (the [AIService] singleton),
    - [models/Session.js], [models/Analytics.js], [models/User.js],
    - [middleware/auth.js], [routes/ai.js], [routes/auth.js].

    JavaScript strings are byte strings ([string]); dates are integers of
    milliseconds since the epoch ([Z]); [undefined] / an unset path of a
    document is [None]. *)

From Stdlib Require Import ZArith String Ascii List Bool Lia.
From stdpp Require Import base option list strings gmap pretty.

Local Open Scope string_scope.
Local Open Scope Z_scope.

(** ** JavaScript primitives used by the code *)

Module JS.

(** [s.includes(pat)] *)
Fixpoint includes (s pat : string) : bool :=
  String.prefix pat s ||
  match s with
  | EmptyString => false
  | String _ rest => includes rest pat
  end.

(** [s.startsWith(pat)] *)
Definition startsWith (s pat : string) : bool := String.prefix pat s.

Definition upper_char (c : ascii) : ascii :=
  let n := nat_of_ascii c in
  if ((97 <=? n)%nat && (n <=? 122)%nat)%bool then ascii_of_nat (n - 32) else c.

(** [s.toUpperCase()], on the ASCII letters (the only ones the code
    applies it to are the language names of [detectLanguage]). *)
Fixpoint toUpperCase (s : string) : string :=
  match s with
  | EmptyString => EmptyString
  | String c rest => String (upper_char c) (toUpperCase rest)
  end.

Definition is_space (c : ascii) : bool :=
  let n := nat_of_ascii c in
  ((n =? 32) || ((9 <=? n) && (n <=? 13)))%nat.

Fixpoint trimStart (s : string) : string :=
  match s with
  | String c rest => if is_space c then trimStart rest else s
  | EmptyString => EmptyString
  end.

Fixpoint rev_string (s acc : string) : string :=
  match s with
  | EmptyString => acc
  | String c rest => rev_string rest (String c acc)
  end.

(** [s.trim()] (ASCII white space) *)
Definition trim (s : string) : string :=
  rev_string (trimStart (rev_string (trimStart s) "")) "".

(** [s.substring(0, n)] *)
Definition substring0 (n : nat) (s : string) : string := String.substring 0 n s.

Definition lower_char (c : ascii) : ascii :=
  let n := nat_of_ascii c in
  if ((65 <=? n)%nat && (n <=? 90)%nat)%bool then ascii_of_nat (n + 32) else c.

(** [s.toLowerCase()], on the ASCII letters. *)
Fixpoint toLowerCase (s : string) : string :=
  match s with
  | EmptyString => EmptyString
  | String c rest => String (lower_char c) (toLowerCase rest)
  end.

(** A string used as a condition: [undefined] and [''] are falsy. *)
Definition truthy (o : option string) : option string :=
  match o with
  | Some s => if String.eqb s "" then None else Some s
  | None => None
  end.

(** [a || b] on two such strings. *)
Definition or_else (a b : option string) : option string :=
  match truthy a with
  | Some s => Some s
  | None => b
  end.

(** The line feed of a template literal. *)
Definition nl : string := String (ascii_of_nat 10) EmptyString.

(** [Math.ceil(a / b)] for integers [a] and [b > 0]. *)
Definition ceil_div (a b : Z) : Z := - ((- a) / b).

(** [Math.round(a / b)] for integers [a] and [b > 0]: halves go up. *)
Definition round_div (a b : Z) : Z := (2 * a + b) / (2 * b).

(** [parseInt(a / b, 10)]: the quotient truncated towards zero. *)
Definition parseInt_div (a b : Z) : Z := Z.quot a b.

End JS.

(** ** Errors and the result of code that may throw *)

(** [AppError] is the application's operational error (message, HTTP
    status); [JsError] stands for any other thrown value (a provider,
    driver or token error) with its [name] and [message]. *)
Inductive Err : Type :=
| AppError (message : string) (statusCode : Z)
| JsError (name message : string).

Definition err_message (e : Err) : string :=
  match e with
  | AppError m _ => m
  | JsError _ m => m
  end.

Inductive Result (A : Type) : Type :=
| Ok (a : A)
| Raise (e : Err).
Arguments Ok {A} a.
Arguments Raise {A} e.

(** [try { body } catch (error) { handler(error) }] for pure bodies. *)
Definition try_catch {A} (body : Result A) (handler : Err -> Result A) : Result A :=
  match body with
  | Ok a => Ok a
  | Raise e => handler e
  end.

(** ** services/aiService.js *)

Module AIService.

(** What one [model.generateContent] call does: after [latency]
    milliseconds it resolves with a response text or rejects. *)
Inductive ProviderOutcome : Type :=
| Replies (text : string)
| Throws (e : Err).

Record ProviderCall := { latency : Z; outcome : ProviderOutcome }.

(** The fields of the singleton that the methods read and write. *)
Record t := { isHealthy : bool; lastHealthCheck : option Z }.

(** [constructor], before [initialize] has run its first probe. *)
Definition constructed : t := {| isHealthy := false; lastHealthCheck := None |}.

Record HealthReport := {
  healthy : bool;
  provider : option string;
  responseTime : option Z;
  error : option string;
  lastCheck : Z
}.

(** [healthCheck()], called at time [now], the provider answering
    with [call]. *)
Definition healthCheck (now : Z) (call : ProviderCall) (s : t) : t * HealthReport :=
  let done := now + latency call in
  match outcome call with
  | Replies text =>
      let h := JS.includes (JS.trim text) "OK" in
      ({| isHealthy := h; lastHealthCheck := Some done |},
       {| healthy := h; provider := Some "gemini-pro";
          responseTime := Some (done - now); error := None; lastCheck := done |})
  | Throws e =>
      ({| isHealthy := false; lastHealthCheck := Some done |},
       {| healthy := false; provider := None; responseTime := None;
          error := Some (err_message e); lastCheck := done |})
  end.

(** The guard in front of [generateHint] and [analyzeCode]:
    [!this.isHealthy && this.lastHealthCheck &&
     Date.now() - this.lastHealthCheck > 60000]. *)
Definition probe_due (now : Z) (s : t) : bool :=
  negb (isHealthy s) &&
  match lastHealthCheck s with
  | Some last => 60000 <? now - last
  | None => false
  end.

(** The re-probe both entry points start with; returns the state and
    the time after it. *)
Definition maybe_probe (now : Z) (probe : ProviderCall) (s : t) : t * Z :=
  if probe_due now s
  then (fst (healthCheck now probe s), now + latency probe)
  else (s, now).

Definition detectLanguage (code : string) : string :=
  if JS.includes code "def " || JS.includes code "import " || JS.includes code "print(" then "python"
  else if JS.includes code "function" || JS.includes code "const " || JS.includes code "let " then "javascript"
  else if JS.includes code "#include" || JS.includes code "int main" || JS.includes code "cout" then "cpp"
  else if JS.includes code "public class" || JS.includes code "System.out" then "java"
  else if JS.includes code "package main" || JS.includes code "func " then "go"
  else if JS.includes code "use " || JS.includes code "fn " then "rust"
  else "unknown".

Definition fallbackHints (hasCode : bool) : list string :=
  [ "Start by understanding what the problem is asking. What are the inputs and expected outputs?";
    "Think about the constraints. What do they tell you about the expected time complexity?";
    "Consider what data structures would be most helpful for efficient lookups or storage.";
    "Break the problem into smaller steps. What would your algorithm do in each step?";
    "Think about edge cases. What happens with minimum or maximum input values?";
    if hasCode
    then "Review your current approach step by step. Are you handling all the requirements?"
    else "Time to start coding! Implement your approach and test with the examples." ].

(** [getFallbackHint(hintNumber, hasCode, platform, difficulty)];
    [None] is JavaScript's [undefined] for an index outside the array. *)
Definition getFallbackHint (hintNumber : nat) (hasCode : bool)
    (platform difficulty : string) : option string :=
  let index := Nat.min hintNumber (length (fallbackHints hasCode) - 1) in
  fallbackHints hasCode !! index.

Definition nested_loop_warning : string :=
  "**Potential Issue:** I see nested loops which might lead to O(n²) time complexity. Consider if there's a more efficient approach."
  ++ JS.nl ++ JS.nl.

Definition placeholder_warning : string :=
  "**Implementation Status:** You have placeholder return values. Make sure to implement the complete logic."
  ++ JS.nl ++ JS.nl.

Definition hash_map_praise : string :=
  "**Good Choice:** Using hash maps/dictionaries for efficient lookups is often the right approach!"
  ++ JS.nl ++ JS.nl.

Definition getFallbackCodeAnalysis (userCode platform : string) : string :=
  let language := detectLanguage userCode in
  let analysis := "**Code Analysis (" ++ JS.toUpperCase language ++ "):**" ++ JS.nl ++ JS.nl in
  let analysis :=
    if JS.includes userCode "for" && JS.includes userCode "for"
    then analysis ++ nested_loop_warning else analysis in
  let analysis :=
    if JS.includes userCode "return []" || JS.includes userCode "return 0"
       || JS.includes userCode "return None"
    then analysis ++ placeholder_warning else analysis in
  let analysis :=
    if JS.includes userCode "dict" || JS.includes userCode "{}"
       || JS.includes userCode "map" || JS.includes userCode "unordered_map"
    then analysis ++ hash_map_praise else analysis in
  analysis ++ "**Next Steps:** Test your code with the provided examples and consider edge cases. "
           ++ (if String.eqb platform "codeforces"
               then "Remember to check time limits!"
               else "Focus on correctness first, then optimization.").

(** The destructured [options] of [generateHint]. *)
Record HintOptions := {
  problemTitle : string;
  problemStatement : string;
  platform : string;
  difficulty : string;
  previousHints : list string;
  userCode : string;
  userLevel : string
}.

(** [generateHint(options)] at time [now]. [probe] is the answer the
    provider gives to the health probe, if the guard fires; [live] its
    answer to the hint prompt. The [try] body throws exactly when the
    provider call does. *)
Definition generateHint (now : Z) (probe live : ProviderCall) (o : HintOptions) (s : t)
    : t * Result (option string) :=
  let '(s1, _) := maybe_probe now probe s in
  (s1,
   try_catch
     (match outcome live with
      | Replies text => Ok (Some (JS.trim text))
      | Throws e => Raise e
      end)
     (fun _ =>
        Ok (getFallbackHint (length (previousHints o))
              (0 <? String.length (userCode o))%nat (platform o) (difficulty o)))).

Record AnalyzeOptions := {
  a_problemTitle : string;
  a_userCode : string;
  a_problemStatement : string;
  a_platform : string;
  a_userLevel : string
}.

(** [analyzeCode(options)], with the same conventions. *)
Definition analyzeCode (now : Z) (probe live : ProviderCall) (o : AnalyzeOptions) (s : t)
    : t * Result string :=
  let '(s1, _) := maybe_probe now probe s in
  (s1,
   try_catch
     (match outcome live with
      | Replies text => Ok (JS.trim text)
      | Throws e => Raise e
      end)
     (fun _ => Ok (getFallbackCodeAnalysis (a_userCode o) (a_platform o)))).

(** The values [detectLanguage] returns: the [supportedLanguages] of
    [getStats] and ['unknown']. *)
Definition supportedLanguages : list string :=
  ["python"; "javascript"; "cpp"; "java"; "go"; "rust"; "unknown"].

(** [getStats()] *)
Definition getStats (s : t) : bool * option Z := (isHealthy s, lastHealthCheck s).




End AIService.

(** ** models/Session.js *)

Module Session.

Record Problem := {
  title : string;
  platform : string;
  url : option string;
  difficulty : option string;
  category : option string;
  statement : option string
}.

(** An element of [hints]; [timestamp] defaults to the time of the push. *)
Record Hint := {
  content : option string;
  timestamp : Z;
  userCode : string;
  codeLength : nat;
  responseTime : Z;
  helpful : option bool
}.

(** The object the route passes to [addHint]. *)
Record HintData := {
  hd_content : option string;
  hd_userCode : string;
  hd_codeLength : nat;
  hd_responseTime : Z
}.

Record CodeAnalysis := {
  code : string;
  analysis : string;
  ca_timestamp : Z;
  codeLanguage : string;
  issues : list string;
  suggestions : list string;
  ca_helpful : option bool
}.

Record AnalysisData := {
  ad_code : string;
  ad_analysis : string;
  ad_codeLanguage : string;
  ad_issues : list string;
  ad_suggestions : list string
}.

Record Metrics := {
  startTime : Z;
  endTime : option Z;
  duration : option Z;
  hintsRequested : nat;
  analysesRequested : nat;
  codeSubmissions : nat;
  completed : bool
}.

Record FeedbackData := {
  fd_rating : option Z;
  fd_comment : option string;
  fd_helpful : option bool
}.

Record Feedback := {
  rating : option Z;
  comment : option string;
  fb_helpful : option bool;
  submittedAt : Z
}.

Record Metadata := {
  userAgent : option string;
  ipAddress : option string;
  extensionVersion : option string
}.

Inductive Status : Type := Active | Completed | Abandoned | Error.

#[global] Instance Status_eq_dec : EqDecision Status.
Proof. solve_decision. Defined.

(** A session document; [createdAt] and [updatedAt] come from the
    schema option [timestamps: true]. *)
Record t := {
  _id : nat;
  userId : option nat;
  sessionId : string;
  problem : Problem;
  hints : list Hint;
  codeAnalyses : list CodeAnalysis;
  metrics : Metrics;
  feedback : option Feedback;
  metadata : Metadata;
  status : Status;
  isActive : bool;
  createdAt : Z;
  updatedAt : Z
}.

Definition with_hints (hs : list Hint) (s : t) : t :=
  {| _id := _id s; userId := userId s; sessionId := sessionId s; problem := problem s;
     hints := hs; codeAnalyses := codeAnalyses s; metrics := metrics s;
     feedback := feedback s; metadata := metadata s; status := status s;
     isActive := isActive s; createdAt := createdAt s; updatedAt := updatedAt s |}.

Definition with_codeAnalyses (cs : list CodeAnalysis) (s : t) : t :=
  {| _id := _id s; userId := userId s; sessionId := sessionId s; problem := problem s;
     hints := hints s; codeAnalyses := cs; metrics := metrics s;
     feedback := feedback s; metadata := metadata s; status := status s;
     isActive := isActive s; createdAt := createdAt s; updatedAt := updatedAt s |}.

Definition with_metrics (m : Metrics) (s : t) : t :=
  {| _id := _id s; userId := userId s; sessionId := sessionId s; problem := problem s;
     hints := hints s; codeAnalyses := codeAnalyses s; metrics := m;
     feedback := feedback s; metadata := metadata s; status := status s;
     isActive := isActive s; createdAt := createdAt s; updatedAt := updatedAt s |}.

Definition with_feedback (f : option Feedback) (s : t) : t :=
  {| _id := _id s; userId := userId s; sessionId := sessionId s; problem := problem s;
     hints := hints s; codeAnalyses := codeAnalyses s; metrics := metrics s;
     feedback := f; metadata := metadata s; status := status s;
     isActive := isActive s; createdAt := createdAt s; updatedAt := updatedAt s |}.

Definition with_status (st : Status) (act : bool) (s : t) : t :=
  {| _id := _id s; userId := userId s; sessionId := sessionId s; problem := problem s;
     hints := hints s; codeAnalyses := codeAnalyses s; metrics := metrics s;
     feedback := feedback s; metadata := metadata s; status := st;
     isActive := act; createdAt := createdAt s; updatedAt := updatedAt s |}.

Definition with_updatedAt (now : Z) (s : t) : t :=
  {| _id := _id s; userId := userId s; sessionId := sessionId s; problem := problem s;
     hints := hints s; codeAnalyses := codeAnalyses s; metrics := metrics s;
     feedback := feedback s; metadata := metadata s; status := status s;
     isActive := isActive s; createdAt := createdAt s; updatedAt := now |}.

Definition set_hintsRequested (n : nat) (m : Metrics) : Metrics :=
  {| startTime := startTime m; endTime := endTime m; duration := duration m;
     hintsRequested := n; analysesRequested := analysesRequested m;
     codeSubmissions := codeSubmissions m; completed := completed m |}.

Definition set_analysesRequested (n : nat) (m : Metrics) : Metrics :=
  {| startTime := startTime m; endTime := endTime m; duration := duration m;
     hintsRequested := hintsRequested m; analysesRequested := n;
     codeSubmissions := codeSubmissions m; completed := completed m |}.

(** The virtual [sessionDuration], read at time [now]. *)
Definition sessionDuration (now : Z) (s : t) : Z :=
  match endTime (metrics s) with
  | Some e => JS.round_div (e - startTime (metrics s)) 1000
  | None => JS.round_div (now - startTime (metrics s)) 1000
  end.

Definition totalInteractions (s : t) : nat :=
  (length (hints s) + length (codeAnalyses s))%nat.

Definition mkHint (now : Z) (d : HintData) : Hint :=
  {| content := hd_content d; timestamp := now; userCode := hd_userCode d;
     codeLength := hd_codeLength d; responseTime := hd_responseTime d; helpful := None |}.

Definition mkAnalysis (now : Z) (d : AnalysisData) : CodeAnalysis :=
  {| code := ad_code d; analysis := ad_analysis d; ca_timestamp := now;
     codeLanguage := ad_codeLanguage d; issues := ad_issues d;
     suggestions := ad_suggestions d; ca_helpful := None |}.

(** The methods below are the changes each one makes to the document
    [this] before it calls [this.save()]. *)

Definition addHint (now : Z) (hintData : HintData) (this : t) : t :=
  let this := with_hints (hints this ++ [mkHint now hintData]) this in
  with_metrics (set_hintsRequested (length (hints this)) (metrics this)) this.

Definition addCodeAnalysis (now : Z) (analysisData : AnalysisData) (this : t) : t :=
  let this := with_codeAnalyses (codeAnalyses this ++ [mkAnalysis now analysisData]) this in
  with_metrics (set_analysesRequested (length (codeAnalyses this)) (metrics this)) this.

Definition endSession (now : Z) (completed_arg : bool) (this : t) : t :=
  let m := metrics this in
  (* this.metrics.endTime = new Date() *)
  let this := with_metrics
    {| startTime := startTime m; endTime := Some now; duration := duration m;
       hintsRequested := hintsRequested m; analysesRequested := analysesRequested m;
       codeSubmissions := codeSubmissions m; completed := completed m |} this in
  (* this.metrics.duration = this.sessionDuration; this.metrics.completed = completed *)
  let m := metrics this in
  let this := with_metrics
    {| startTime := startTime m; endTime := endTime m;
       duration := Some (sessionDuration now this);
       hintsRequested := hintsRequested m; analysesRequested := analysesRequested m;
       codeSubmissions := codeSubmissions m; completed := completed_arg |} this in
  with_status (if completed_arg then Completed else Abandoned) false this.

Definition addFeedback (now : Z) (feedbackData : FeedbackData) (this : t) : t :=
  with_feedback
    (Some {| rating := fd_rating feedbackData; comment := fd_comment feedbackData;
             fb_helpful := fd_helpful feedbackData; submittedAt := now |}) this.

(** The invariant of the data model: a session that is not active has
    its end time set. *)
Definition ended_has_endTime (s : t) : Prop :=
  status s <> Active -> is_Some (endTime (metrics s)).

(** The schema validation [save()] and [create()] run: required
    strings are non-empty, enumerations and ranges hold. *)
Definition platforms : list string := ["leetcode"; "codeforces"; "codechef"; "hackerrank"].

Definition nonempty (s : string) : bool := negb (String.eqb s "").

Definition required (o : option string) : bool :=
  match o with
  | Some s => nonempty s
  | None => false
  end.

Definition valid_rating (f : option Feedback) : bool :=
  match f with
  | Some fb => match rating fb with Some r => (1 <=? r) && (r <=? 5) | None => true end
  | None => true
  end.

Definition validate (s : t) : bool :=
  nonempty (sessionId s) && nonempty (title (problem s))
  && bool_decide (platform (problem s) ∈ platforms)
  && forallb (fun h => required (content h)) (hints s)
  && forallb (fun c => nonempty (code c) && nonempty (analysis c)) (codeAnalyses s)
  && valid_rating (feedback s).

(** The collection, with its unique index on [sessionId]. *)
Abbreviation Collection := (gmap string t).

(** [Session.findOne({ sessionId, isActive: true })] *)
Definition findOne_active (sid : string) (c : Collection) : option t :=
  match c !! sid with
  | Some s => if isActive s then Some s else None
  | None => None
  end.

(** The document [Session.create] builds from its argument and the
    schema defaults. *)
Definition new_doc (now : Z) (id : nat) (uid : option nat) (sid : string)
    (p : Problem) (md : Metadata) : t :=
  {| _id := id; userId := uid; sessionId := sid; problem := p;
     hints := []; codeAnalyses := [];
     metrics := {| startTime := now; endTime := None; duration := None;
                   hintsRequested := 0; analysesRequested := 0;
                   codeSubmissions := 0; completed := false |};
     feedback := None; metadata := md; status := Active; isActive := true;
     createdAt := now; updatedAt := now |}.

(** [Session.cleanupAbandonedSessions()], run at time [now]:
    [updateMany({status: 'active', createdAt: {$lt: cutoffTime}},
                {status: 'abandoned', isActive: false})]. *)
Definition cleanupAbandonedSessions (now : Z) (c : Collection) : Collection :=
  let cutoffTime := now - 2 * 60 * 60 * 1000 in
  (fun s =>
     if bool_decide (status s = Active) && (createdAt s <? cutoffTime)
     then with_updatedAt now (with_status Abandoned false s)
     else s) <$> c.

(** A call of one of the instance methods. *)
Inductive Method : Type :=
| AddHint (hintData : HintData)
| AddCodeAnalysis (analysisData : AnalysisData)
| EndSession (completed : bool)
| AddFeedback (feedbackData : FeedbackData).

Definition call (this : t) (c : Z * Method) : t :=
  match snd c with
  | AddHint d => addHint (fst c) d this
  | AddCodeAnalysis d => addCodeAnalysis (fst c) d this
  | EndSession b => endSession (fst c) b this
  | AddFeedback d => addFeedback (fst c) d this
  end.

(** Method calls at the given times, one after the other on one
    document. *)
Definition calls (l : list (Z * Method)) (this : t) : t := fold_left call l this.

Definition is_AddHint (c : Z * Method) : bool :=
  match snd c with AddHint _ => true | _ => false end.

Definition is_AddCodeAnalysis (c : Z * Method) : bool :=
  match snd c with AddCodeAnalysis _ => true | _ => false end.

End Session.

(** ** models/Analytics.js *)

Module Analytics.

(** The paths of [data] the routes fill in; paths that are not in the
    schema ([operation], [ip], ...) are dropped by the strict schema. *)
Record Data := {
  platform : option string;
  problemTitle : option string;
  problemDifficulty : option string;
  hintNumber : option nat;
  codeLength : option nat;
  responseTime : option Z;
  aiProvider : option string;
  errorMessage : option string;
  extensionVersion : option string;
  userAgent : option string
}.

Definition no_data : Data :=
  {| platform := None; problemTitle := None; problemDifficulty := None;
     hintNumber := None; codeLength := None; responseTime := None;
     aiProvider := None; errorMessage := None; extensionVersion := None;
     userAgent := None |}.

Record t := {
  eventType : string;
  userId : option nat;
  sessionId : option nat;
  data : Data;
  timestamp : Z
}.

Definition eventTypes : list string :=
  ["hint_requested"; "code_analyzed"; "session_started"; "session_completed";
   "user_registered"; "extension_installed"; "feedback_submitted"; "error_occurred"].

Definition platforms : list string := ["leetcode"; "codeforces"; "codechef"; "hackerrank"].

Definition validate (e : t) : bool :=
  bool_decide (eventType e ∈ eventTypes)
  && match platform (data e) with
     | Some p => bool_decide (p ∈ platforms)
     | None => true
     end.

End Analytics.

(** ** config/config.js *)

Module Config.

Record t := {
  jwt_expiresIn : Z;        (* seconds *)
  maxLoginAttempts : Z;
  lockoutTime : Z           (* milliseconds *)
}.

(** The values used when the environment sets none:
    ['7d'], [5] and [30 * 60 * 1000]. *)
Definition default : t :=
  {| jwt_expiresIn := 7 * 24 * 60 * 60;
     maxLoginAttempts := 5;
     lockoutTime := 30 * 60 * 1000 |}.

End Config.

(** ** models/User.js *)

Module User.

(** A stored password. [bcrypt.hash] is taken as an ideal hash:
    [bcrypt.compare(candidate, hash)] holds exactly for the plain text
    that was hashed. *)
Inductive Hashed : Type := bcrypt_hash (plain : string).

Definition bcrypt_compare (candidate : string) (h : Hashed) : bool :=
  match h with bcrypt_hash plain => String.eqb candidate plain end.

Record Security := {
  loginAttempts : Z;
  lockUntil : option Z;
  passwordChangedAt : option Z
}.

Record Stats := {
  hintsRequested : nat;
  codeAnalyzed : nat;
  totalSessions : nat;
  lastActive : option Z;
  joinedAt : Z
}.

Record t := {
  _id : nat;
  email : string;
  username : string;
  password : Hashed;
  hintStyle : string;
  security : Security;
  stats : Stats;
  role : string;
  isActive : bool
}.

Definition with_security (sec : Security) (u : t) : t :=
  {| _id := _id u; email := email u; username := username u; password := password u;
     hintStyle := hintStyle u; security := sec; stats := stats u; role := role u;
     isActive := isActive u |}.

Definition with_stats (st : Stats) (u : t) : t :=
  {| _id := _id u; email := email u; username := username u; password := password u;
     hintStyle := hintStyle u; security := security u; stats := st; role := role u;
     isActive := isActive u |}.

Definition with_password (h : Hashed) (u : t) : t :=
  {| _id := _id u; email := email u; username := username u; password := h;
     hintStyle := hintStyle u; security := security u; stats := stats u; role := role u;
     isActive := isActive u |}.

(** The virtual [security.isLocked], read at time [now]. *)
Definition isLocked (now : Z) (u : t) : bool :=
  match lockUntil (security u) with
  | Some l => now <? l
  | None => false
  end.

(** The [pre('save')] hook of a document whose [password] path was
    modified to the plain text [plain]. *)
Definition pre_save_password (now : Z) (plain : string) (this : t) : t :=
  let this := with_password (bcrypt_hash plain) this in
  with_security
    {| loginAttempts := loginAttempts (security this);
       lockUntil := lockUntil (security this);
       passwordChangedAt := Some now |} this.

Definition comparePassword (candidatePassword : string) (this : t) : bool :=
  bcrypt_compare candidatePassword (password this).

(** [incrementLoginAttempts()] at time [now]: the update that
    [this.updateOne] applies to the [stored] document, chosen from the
    fields of the loaded document [this]. *)
Definition incrementLoginAttempts (cfg : Config.t) (now : Z) (this stored : t) : t :=
  let sec := security stored in
  if match lockUntil (security this) with Some l => l <? now | None => false end
  then
    (* $unset lockUntil, $set loginAttempts: 1 *)
    with_security {| loginAttempts := 1; lockUntil := None;
                     passwordChangedAt := passwordChangedAt sec |} stored
  else
    let lock :=
      (Config.maxLoginAttempts cfg <=? loginAttempts (security this) + 1)
      && negb (isLocked now this) in
    with_security
      {| loginAttempts := loginAttempts sec + 1;                       (* $inc *)
         lockUntil := if lock then Some (now + Config.lockoutTime cfg)   (* $set *)
                      else lockUntil sec;
         passwordChangedAt := passwordChangedAt sec |} stored.

(** [resetLoginAttempts()]: both paths are unset; an unset
    [loginAttempts] reads as its default [0]. *)
Definition resetLoginAttempts (stored : t) : t :=
  with_security {| loginAttempts := 0; lockUntil := None;
                   passwordChangedAt := passwordChangedAt (security stored) |} stored.

(** [updateStats(operation)] at time [now]. *)
Definition updateStats (now : Z) (operation : string) (this stored : t) : t :=
  let st := stats stored in
  let st :=
    {| hintsRequested := hintsRequested st; codeAnalyzed := codeAnalyzed st;
       totalSessions := totalSessions st; lastActive := Some now; joinedAt := joinedAt st |} in
  let st :=
    if String.eqb operation "hint" then
      {| hintsRequested := hintsRequested (stats this) + 1; codeAnalyzed := codeAnalyzed st;
         totalSessions := totalSessions st; lastActive := lastActive st; joinedAt := joinedAt st |}
    else if String.eqb operation "analyze" then
      {| hintsRequested := hintsRequested st; codeAnalyzed := codeAnalyzed (stats this) + 1;
         totalSessions := totalSessions st; lastActive := lastActive st; joinedAt := joinedAt st |}
    else if String.eqb operation "session" then
      {| hintsRequested := hintsRequested st; codeAnalyzed := codeAnalyzed st;
         totalSessions := totalSessions (stats this) + 1; lastActive := lastActive st;
         joinedAt := joinedAt st |}
    else st in
  with_stats st stored.

Definition touch (now : Z) (this : t) : t :=
  let st := stats this in
  with_stats {| hintsRequested := hintsRequested st; codeAnalyzed := codeAnalyzed st;
                totalSessions := totalSessions st; lastActive := Some now;
                joinedAt := joinedAt st |} this.

(** The collection in natural (insertion) order. *)
Abbreviation Collection := (list t).

(** [User.findByEmailOrUsername(identifier)] *)
Definition findByEmailOrUsername (identifier : string) (c : Collection) : option t :=
  List.find (fun u => String.eqb (email u) (JS.toLowerCase identifier)
                      || String.eqb (username u) identifier) c.

(** [User.findById(id)] *)
Definition findById (id : nat) (c : Collection) : option t :=
  List.find (fun u => Nat.eqb (_id u) id) c.

(** An update of the document with the given [_id]. *)
Definition updateById (id : nat) (f : t -> t) (c : Collection) : Collection :=
  List.map (fun u => if Nat.eqb (_id u) id then f u else u) c.

Definition with_identity (e u : string) (active : bool) (this : t) : t :=
  {| _id := _id this; email := e; username := u; password := password this;
     hintStyle := hintStyle this; security := security this; stats := stats this;
     role := role this; isActive := active |}.

(** Failed logins at the given times, nothing else touching the
    account in between: each loads the document and applies
    [incrementLoginAttempts] to it. *)
Definition failed_attempts (cfg : Config.t) (times : list Z) (u : t) : t :=
  fold_left (fun u now => incrementLoginAttempts cfg now u u) times u.

End User.

(** ** The server: storage, clock, logs, and code that may throw *)

Module Server.

(** Storage failures, as the driver reports them: while a fault is set,
    every operation on that collection rejects with it. *)
Record Faults := {
  analytics_fault : option Err;
  session_fault : option Err;
  user_fault : option Err
}.

Definition no_faults : Faults :=
  {| analytics_fault := None; session_fault := None; user_fault := None |}.

Record LogEntry := { level : string; message : string }.

Record World := {
  clock : Z;                               (* Date.now() *)
  next_id : nat;                           (* next ObjectId *)
  users : User.Collection;
  sessions : Session.Collection;
  events : list Analytics.t;
  ai : AIService.t;
  faults : Faults;
  logs : list LogEntry
}.

Definition with_clock (c : Z) (w : World) : World :=
  {| clock := c; next_id := next_id w; users := users w; sessions := sessions w;
     events := events w; ai := ai w; faults := faults w; logs := logs w |}.

Definition with_next_id (n : nat) (w : World) : World :=
  {| clock := clock w; next_id := n; users := users w; sessions := sessions w;
     events := events w; ai := ai w; faults := faults w; logs := logs w |}.

Definition with_users (us : User.Collection) (w : World) : World :=
  {| clock := clock w; next_id := next_id w; users := us; sessions := sessions w;
     events := events w; ai := ai w; faults := faults w; logs := logs w |}.

Definition with_sessions (ss : Session.Collection) (w : World) : World :=
  {| clock := clock w; next_id := next_id w; users := users w; sessions := ss;
     events := events w; ai := ai w; faults := faults w; logs := logs w |}.

Definition with_events (es : list Analytics.t) (w : World) : World :=
  {| clock := clock w; next_id := next_id w; users := users w; sessions := sessions w;
     events := es; ai := ai w; faults := faults w; logs := logs w |}.

Definition with_ai (a : AIService.t) (w : World) : World :=
  {| clock := clock w; next_id := next_id w; users := users w; sessions := sessions w;
     events := events w; ai := a; faults := faults w; logs := logs w |}.

Definition with_faults (f : Faults) (w : World) : World :=
  {| clock := clock w; next_id := next_id w; users := users w; sessions := sessions w;
     events := events w; ai := ai w; faults := f; logs := logs w |}.

Definition with_logs (l : list LogEntry) (w : World) : World :=
  {| clock := clock w; next_id := next_id w; users := users w; sessions := sessions w;
     events := events w; ai := ai w; faults := faults w; logs := l |}.

(** An [async] function: it changes the world and returns or throws.
    The world changes made before a throw stay. *)
Definition M (A : Type) : Type := World -> Result A * World.

Definition ret {A} (a : A) : M A := fun w => (Ok a, w).

Definition bind {A B} (m : M A) (k : A -> M B) : M B :=
  fun w =>
    match m w with
    | (Ok a, w') => k a w'
    | (Raise e, w') => (Raise e, w')
    end.

Definition throw {A} (e : Err) : M A := fun w => (Raise e, w).

(** [try { body } catch (error) { handler(error) }] *)
Definition try_catchM {A} (body : M A) (handler : Err -> M A) : M A :=
  fun w =>
    match body w with
    | (Ok a, w') => (Ok a, w')
    | (Raise e, w') => handler e w'
    end.

Definition gets {A} (f : World -> A) : M A := fun w => (Ok (f w), w).

Definition modify (f : World -> World) : M unit := fun w => (Ok tt, f w).

Definition lift {A} (r : Result A) : M A := fun w => (r, w).

Definition when (b : bool) (m : M unit) : M unit := if b then m else ret tt.

Definition log (lvl msg : string) : M unit :=
  modify (fun w => with_logs (logs w ++ [{| level := lvl; message := msg |}]) w).

(** [m] leaves the storage faults as they are. *)
Definition keeps_faults {A} (m : M A) : Prop :=
  forall w, faults (snd (m w)) = faults w.

(** [m] throws when run in [w]. *)
Definition raises {A} (m : M A) (w : World) : Prop :=
  exists e w', m w = (Raise e, w').

End Server.

Import Server.

Notation "'let*' x ':=' m 'in' k" := (Server.bind m (fun x => k))
  (at level 10, x name, m at level 100, k at level 200).

(** ** Model operations against the storage *)

Module Store.

Definition ValidationError (what : string) : Err :=
  JsError "ValidationError" (what ++ " validation failed").

Definition DuplicateKey : Err :=
  JsError "MongoServerError" "E11000 duplicate key error".

(** Reject with the collection's fault, if one is set. *)
Definition guard (fault : Faults -> option Err) : M unit :=
  let* f := gets (fun w => fault (faults w)) in
  match f with
  | Some e => throw e
  | None => ret tt
  end.

Definition now : M Z := gets clock.

Definition fresh_id : M nat :=
  let* n := gets next_id in
  let* _ := modify (with_next_id (S n)) in
  ret n.

(** [Session.findOne({ sessionId, isActive: true })] *)
Definition Session_findOne_active (sid : string) : M (option Session.t) :=
  let* _ := guard session_fault in
  gets (fun w => Session.findOne_active sid (sessions w)).

(** [Session.create({ userId, sessionId, problem, metadata })] *)
Definition Session_create (uid : option nat) (sid : string) (p : Session.Problem)
    (md : Session.Metadata) : M Session.t :=
  let* t := now in
  let* id := fresh_id in
  let doc := Session.new_doc t id uid sid p md in
  if negb (Session.validate doc) then throw (ValidationError "Session")
  else
    let* _ := guard session_fault in
    let* existing := gets (fun w => sessions w !! sid) in
    match existing with
    | Some _ => throw DuplicateKey
    | None =>
        let* _ := modify (fun w => with_sessions (<[sid := doc]> (sessions w)) w) in
        ret doc
    end.

(** [doc.save()] for a session document changed by one of its methods.
    One request at a time runs here, so the stored document is the one
    that was loaded and saving replaces it. *)
Definition Session_save (doc : Session.t) : M Session.t :=
  if negb (Session.validate doc) then throw (ValidationError "Session")
  else
    let* _ := guard session_fault in
    let* t := now in
    let doc := Session.with_updatedAt t doc in
    let* _ := modify (fun w => with_sessions (<[Session.sessionId doc := doc]> (sessions w)) w) in
    ret doc.

(** [Analytics.recordEvent(eventType, data, userId, sessionId)] *)
Definition Analytics_recordEvent (eventType : string) (data : Analytics.Data)
    (userId sessionId : option nat) : M unit :=
  let* t := now in
  let doc := {| Analytics.eventType := eventType; Analytics.userId := userId;
                Analytics.sessionId := sessionId; Analytics.data := data;
                Analytics.timestamp := t |} in
  if negb (Analytics.validate doc) then throw (ValidationError "Analytics")
  else
    let* _ := guard analytics_fault in
    modify (fun w => with_events (events w ++ [doc]) w).

(** [user.updateOne(...)]: [f] is applied to the stored document. *)
Definition User_updateOne (id : nat) (f : User.t -> User.t) : M unit :=
  let* _ := guard user_fault in
  modify (fun w => with_users (User.updateById id f (users w)) w).

Definition User_findByEmailOrUsername (identifier : string) : M (option User.t) :=
  let* _ := guard user_fault in
  gets (fun w => User.findByEmailOrUsername identifier (users w)).

Definition User_findById (id : nat) : M (option User.t) :=
  let* _ := guard user_fault in
  gets (fun w => User.findById id (users w)).

(** The singleton's methods, run against the world: they change
    [ai] and let the provider's latency pass on the clock. *)
Definition AI_generateHint (probe live : AIService.ProviderCall)
    (o : AIService.HintOptions) : M (option string) :=
  fun w =>
    let '(s, r) := AIService.generateHint (clock w) probe live o (ai w) in
    let t := snd (AIService.maybe_probe (clock w) probe (ai w)) + AIService.latency live in
    (r, with_clock t (with_ai s w)).

Definition AI_analyzeCode (probe live : AIService.ProviderCall)
    (o : AIService.AnalyzeOptions) : M string :=
  fun w =>
    let '(s, r) := AIService.analyzeCode (clock w) probe live o (ai w) in
    let t := snd (AIService.maybe_probe (clock w) probe (ai w)) + AIService.latency live in
    (r, with_clock t (with_ai s w)).

Definition AI_healthCheck (probe : AIService.ProviderCall) : M AIService.HealthReport :=
  fun w =>
    let '(s, r) := AIService.healthCheck (clock w) probe (ai w) in
    (Ok r, with_clock (clock w + AIService.latency probe) (with_ai s w)).

End Store.

(** ** HTTP requests and responses *)

Module Http.

(** A token is either one signed with the configured secret, carrying
    its payload, or anything else. *)
Record JwtPayload := { id : nat; iat : Z; exp : Z }.

Inductive Token : Type :=
| Signed (payload : JwtPayload)
| Unverifiable.

(** The [Authorization] header [scheme ++ " " ++ credentials]:
    [credentials] is [header.split(' ')[1]], absent when there is no
    second part or it is empty. *)
Record AuthHeader := { scheme : string; credentials : option Token }.

Record Headers := {
  authorization : option AuthHeader;
  x_extension_version : option string;
  x_session_id : option string;
  referer : option string;
  user_agent : option string
}.

Record ExtensionInfo := {
  version : string;
  sessionId : option string
}.

Record Request := {
  headers : Headers;
  ip : string;
  user : option User.t;                    (* req.user *)
  extensionInfo : option ExtensionInfo     (* req.extensionInfo *)
}.

Definition with_user (u : option User.t) (r : Request) : Request :=
  {| headers := headers r; ip := ip r; user := u; extensionInfo := extensionInfo r |}.

Definition with_extensionInfo (e : option ExtensionInfo) (r : Request) : Request :=
  {| headers := headers r; ip := ip r; user := user r; extensionInfo := e |}.

Record PublicUser := {
  pu_id : nat;
  pu_username : string;
  pu_email : string;
  pu_role : string
}.

Inductive Body : Type :=
| HintBody (hint : option string) (hintNumber : nat) (sessionId : string) (responseTime : Z)
| AnalysisBody (analysis : string) (sessionId : string) (responseTime : Z) (codeLanguage : string)
| TokenBody (token : Token) (user : PublicUser)
| HealthBody (aiService : AIService.HealthReport)
| MessageBody (message : string).

(** What the client gets: [res.status(s).json(body)], or the answer of
    the error handler to [next(error)]. *)
Inductive Response : Type :=
| Json (status : Z) (body : Body)
| Failed (error : Err).

(** Modelled from the spec: [catchAsync] of [middleware/errorHandler.js],
    which is not among the sources. A handler that throws, or calls
    [next(error)], ends in the error handler, which surfaces the error
    to the caller (section 7); the changes it made to the world stay. *)
Definition catchAsync (handler : M Response) (w : World) : Response * World :=
  match handler w with
  | (Ok r, w') => (r, w')
  | (Raise e, w') => (Failed e, w')
  end.

End Http.

(** ** middleware/auth.js *)

Module Auth.

Import Http.

(** [jwt.sign({ id }, secret, { expiresIn })] at time [now]: the issue
    time is in whole seconds. *)
Definition signToken (cfg : Config.t) (now : Z) (user_id : nat) : Token :=
  let iat := now / 1000 in
  Signed {| id := user_id; iat := iat; exp := iat + Config.jwt_expiresIn cfg |}.

(** [jwt.verify(token, secret)] at time [now]. *)
Definition jwt_verify (now : Z) (token : Token) : Result JwtPayload :=
  match token with
  | Unverifiable => Raise (JsError "JsonWebTokenError" "invalid token")
  | Signed p =>
      if exp p <=? now / 1000
      then Raise (JsError "TokenExpiredError" "jwt expired")
      else Ok p
  end.

Definition bearer (h : option AuthHeader) : option Token :=
  match h with
  | Some a => if JS.startsWith (scheme a) "Bearer" then credentials a else None
  | None => None
  end.

Definition NotLoggedIn : Err :=
  AppError "You are not logged in! Please log in to get access." 401.
Definition UserGone : Err :=
  AppError "The user belonging to this token does no longer exist." 401.
Definition Deactivated : Err :=
  AppError "Your account has been deactivated. Please contact support." 401.
Definition Superseded : Err :=
  AppError "User recently changed password! Please log in again." 401.

(** [verifyToken]: returns the request handed to the next middleware. *)
Definition verifyToken (req : Request) : M Request :=
  match bearer (authorization (headers req)) with
  | None => throw NotLoggedIn
  | Some token =>
      let* now := Store.now in
      let* decoded := lift (jwt_verify now token) in
      let* found := Store.User_findById (id decoded) in
      match found with
      | None => throw UserGone
      | Some currentUser =>
          if negb (User.isActive currentUser) then throw Deactivated
          else
            let superseded :=
              match User.passwordChangedAt (User.security currentUser) with
              | Some changed => iat decoded <? JS.parseInt_div changed 1000
              | None => false
              end in
            if superseded then throw Superseded
            else
              let* _ := Store.User_updateOne (User._id currentUser) (User.touch now) in
              ret (with_user (Some (User.touch now currentUser)) req)
      end
  end.

(** [optionalAuth] *)
Definition optionalAuth (req : Request) : M Request :=
  match bearer (authorization (headers req)) with
  | None => ret req
  | Some token =>
      let warn := fun (_ : Err) (r : Request) =>
        let* _ := log "warn" "Invalid optional token:" in ret r in
      try_catchM
        (let* now := Store.now in
         let* decoded := lift (jwt_verify now token) in
         let* found := Store.User_findById (id decoded) in
         match found with
         | Some currentUser =>
             if User.isActive currentUser then
               let req' := with_user (Some (User.touch now currentUser)) req in
               try_catchM
                 (let* _ := Store.User_updateOne (User._id currentUser) (User.touch now) in
                  ret req')
                 (fun e => warn e req')
             else ret req
         | None => ret req
         end)
        (fun e => warn e req)
  end.

(** The body of a login request, as parsed JSON: any of the fields
    may be missing. *)
Record LoginBody := {
  email : option string;
  username : option string;
  identifier : option string;
  password : option string
}.

Definition AccountLocked (lockTimeLeft : Z) : Err :=
  AppError ("Account temporarily locked due to too many failed login attempts. Try again in "
            ++ pretty lockTimeLeft ++ " minutes.") 423.

(** [checkAccountLock] *)
Definition checkAccountLock (body : LoginBody) : M unit :=
  match JS.or_else (email body) (JS.truthy (username body)) with
  | None => ret tt
  | Some ident =>
      let* found := Store.User_findByEmailOrUsername ident in
      let* now := Store.now in
      match found with
      | Some user =>
          match User.lockUntil (User.security user) with
          | Some lockUntil =>
              if User.isLocked now user then
                let lockTimeLeft := JS.ceil_div (lockUntil - now) 60000 in
                let* _ := log "warn" "login_attempt_locked_account" in
                throw (AccountLocked lockTimeLeft)
              else ret tt
          | None => ret tt
          end
      | None => ret tt
      end
  end.

(** [extensionAuth] *)
Definition extensionAuth (req : Request) : M Request :=
  match JS.truthy (x_extension_version (headers req)) with
  | None => throw (AppError "Extension version required" 400)
  | Some v =>
      ret (with_extensionInfo
             (Some {| version := v; sessionId := x_session_id (headers req) |}) req)
  end.

Definition publicUser (u : User.t) : PublicUser :=
  {| pu_id := User._id u; pu_username := User.username u;
     pu_email := User.email u; pu_role := User.role u |}.

(** [createSendToken(user, statusCode, res)] *)
Definition createSendToken (cfg : Config.t) (user : User.t) (statusCode : Z) : M Response :=
  let* now := Store.now in
  ret (Json statusCode (TokenBody (signToken cfg now (User._id user)) (publicUser user))).

Definition Forbidden : Err :=
  AppError "You do not have permission to perform this action" 403.

(** [restrictTo(...roles)] *)
Definition restrictTo (roles : list string) (req : Request) : M Request :=
  match user req with
  | None => throw (JsError "TypeError" "Cannot read properties of undefined (reading 'role')")
  | Some u => if bool_decide (User.role u ∈ roles) then ret req else throw Forbidden
  end.

(** [adminOnly = [verifyToken, restrictTo('admin')]] *)
Definition adminOnly (req : Request) : M Request :=
  let* req := verifyToken req in restrictTo ["admin"] req.

(** [moderatorOrAdmin = [verifyToken, restrictTo('moderator', 'admin')]] *)
Definition moderatorOrAdmin (req : Request) : M Request :=
  let* req := verifyToken req in restrictTo ["moderator"; "admin"] req.

End Auth.

(** ** routes/auth.js *)

Module AuthRoutes.

Import Http Auth.

Definition InvalidCredentials : Err :=
  AppError "Incorrect email/username or password" 401.
Definition AccountInactive : Err :=
  AppError "Your account has been deactivated" 401.

(** The handler of [POST /api/auth/login]. The results of
    [loginValidation] are never read, so a missing field reaches the
    code that uses it. *)
Definition login_handler (cfg : Config.t) (body : LoginBody) : M Response :=
  match identifier body with
  | None => throw (JsError "TypeError" "Cannot read properties of undefined (reading 'toLowerCase')")
  | Some ident =>
      let* found := Store.User_findByEmailOrUsername ident in
      match found with
      | None => throw InvalidCredentials
      | Some user =>
          match password body with
          | None => throw (JsError "Error" "Illegal arguments: undefined, string")
          | Some pw =>
              let* now := Store.now in
              if negb (User.comparePassword pw user) then
                let* _ := Store.User_updateOne (User._id user)
                            (User.incrementLoginAttempts cfg now user) in
                let* _ := log "warn" "failed_login_attempt" in
                throw InvalidCredentials
              else if negb (User.isActive user) then throw AccountInactive
              else
                let* _ := when (0 <? User.loginAttempts (User.security user))
                            (Store.User_updateOne (User._id user) User.resetLoginAttempts) in
                let* _ := Store.User_updateOne (User._id user)
                            (User.updateStats now "session" user) in
                let* _ := log "info" "User logged in:" in
                createSendToken cfg user 200
          end
      end
  end.

(** [router.post('/login', [checkAccountLock, ...loginValidation], handler)] *)
Definition login (cfg : Config.t) (body : LoginBody) : World -> Response * World :=
  catchAsync (let* _ := checkAccountLock body in login_handler cfg body).

Record PasswordBody := {
  currentPassword : option string;
  newPassword : option string
}.

(** The handler of [PUT /api/auth/password], behind [verifyToken]. *)
Definition password_handler (req : Request) (body : PasswordBody) : M Response :=
  match user req with
  | None => throw (JsError "TypeError" "Cannot read properties of undefined (reading '_id')")
  | Some me =>
      let* found := Store.User_findById (User._id me) in
      match found, currentPassword body with
      | None, _ => throw (JsError "TypeError" "Cannot read properties of null (reading 'comparePassword')")
      | Some _, None => throw (JsError "Error" "Illegal arguments: undefined, string")
      | Some user, Some current =>
          if negb (User.comparePassword current user)
          then throw (AppError "Current password is incorrect" 400)
          else
            match newPassword body with
            | None => throw (Store.ValidationError "User")
            | Some new =>
                if (String.length new <? 8)%nat then throw (Store.ValidationError "User")
                else
                  let* now := Store.now in
                  let* _ := Store.User_updateOne (User._id user)
                              (User.pre_save_password now new) in
                  let* _ := log "info" "Password updated:" in
                  ret (Json 200 (MessageBody "Password updated successfully"))
            end
      end
  end.

Definition change_password (req : Request) (body : PasswordBody) : World -> Response * World :=
  catchAsync (let* req := verifyToken req in password_handler req body).

(** [POST /api/auth/logout], behind [verifyToken]. *)
Definition logout (req : Request) : World -> Response * World :=
  catchAsync
    (let* req := verifyToken req in
     let* _ := log "info" "User logged out:" in
     ret (Json 200 (MessageBody "Logged out successfully"))).

(** The handler of [DELETE /api/auth/account], behind [verifyToken]. *)
Definition delete_account_handler (req : Request) : M Response :=
  match user req with
  | None => throw (JsError "TypeError" "Cannot read properties of undefined (reading '_id')")
  | Some me =>
      let* now := Store.now in
      let* _ := Store.User_updateOne (User._id me)
                  (User.with_identity
                     ("deleted_" ++ pretty now ++ "_" ++ User.email me)
                     ("deleted_" ++ pretty now ++ "_" ++ User.username me)
                     false) in
      let* _ := log "info" "User account deleted:" in
      ret (Json 200 (MessageBody "Account deleted successfully"))
  end.

Definition delete_account (req : Request) : World -> Response * World :=
  catchAsync (let* req := verifyToken req in delete_account_handler req).

End AuthRoutes.

(** ** routes/ai.js *)

Module AIRoutes.

Import Http.

(** What the outside contributes to one request: the provider's answers
    to a probe and to the prompt, and the identifier
    [crypto.randomUUID()] would draw. *)
Record Env := {
  probe : AIService.ProviderCall;
  live : AIService.ProviderCall;
  uuid : string
}.

Record GenerateHintBody := {
  problemTitle : string;
  problemStatement : option string;
  platform : string;
  difficulty : option string;
  previousHints : option (list string);
  userCode : option string
}.

Record AnalyzeCodeBody := {
  a_problemTitle : string;
  a_userCode : string;
  a_platform : string;
  a_problemStatement : option string
}.

Definition supported : list string := ["leetcode"; "codeforces"; "codechef"].

Definition check (ok : bool) (msg : string) : list string := if ok then [] else [msg].

Definition generateHintValidation (b : GenerateHintBody) : list string :=
  check (Session.nonempty (problemTitle b)) "Problem title is required"
  ++ check (match problemStatement b with
            | Some s => Z.of_nat (String.length s) <=? 10000 | None => true end)
       "Problem statement too long"
  ++ check (bool_decide (platform b ∈ supported)) "Invalid platform"
  ++ check (match userCode b with
            | Some s => Z.of_nat (String.length s) <=? 50000 | None => true end)
       "Code too long".

Definition analyzeCodeValidation (b : AnalyzeCodeBody) : list string :=
  check (Session.nonempty (a_problemTitle b)) "Problem title is required"
  ++ check (Session.nonempty (a_userCode b)) "Code is required"
  ++ check (bool_decide (a_platform b ∈ supported)) "Invalid platform".

Fixpoint join (sep : string) (l : list string) : string :=
  match l with
  | [] => ""
  | [x] => x
  | x :: rest => x ++ sep ++ join sep rest
  end.

(** [validateRequest] *)
Definition validateRequest (errors : list string) : M unit :=
  match errors with
  | [] => ret tt
  | _ => throw (AppError ("Validation failed: " ++ join ", " errors) 400)
  end.

Definition user_id (req : Request) : option nat := User._id <$> user req.

Definition userLevel (req : Request) : string :=
  match user req with
  | Some u => if String.eqb (User.hintStyle u) "" then "intermediate" else User.hintStyle u
  | None => "intermediate"
  end.

Definition MissingExtensionInfo : Err :=
  JsError "TypeError" "Cannot read properties of undefined (reading 'sessionId')".

(** [findOrCreateSession(req, problemData)] *)
Definition findOrCreateSession (env : Env) (req : Request) (problemData : Session.Problem)
    : M Session.t :=
  match extensionInfo req with
  | None => throw MissingExtensionInfo
  | Some ext =>
      let sessionId := JS.truthy (sessionId ext) in
      let* found :=
        match sessionId with
        | Some sid => Store.Session_findOne_active sid
        | None => ret None
        end in
      match found with
      | Some session => ret session
      | None =>
          let newSessionId := default (uuid env) sessionId in
          let* session :=
            Store.Session_create (user_id req) newSessionId problemData
              {| Session.userAgent := user_agent (headers req);
                 Session.ipAddress := Some (ip req);
                 Session.extensionVersion := Some (version ext) |} in
          let* _ :=
            Store.Analytics_recordEvent "session_started"
              {| Analytics.platform := Some (Session.platform problemData);
                 Analytics.problemTitle := Some (Session.title problemData);
                 Analytics.problemDifficulty := Session.difficulty problemData;
                 Analytics.hintNumber := None; Analytics.codeLength := None;
                 Analytics.responseTime := None; Analytics.aiProvider := None;
                 Analytics.errorMessage := None;
                 Analytics.extensionVersion := Some (version ext);
                 Analytics.userAgent := user_agent (headers req) |}
              (user_id req) (Some (Session._id session)) in
          ret session
      end
  end.

(** The event [findOrCreateSession] records for a session it creates. *)
Definition session_started_event (req : Request) (ext : ExtensionInfo)
    (pd : Session.Problem) (doc : Session.t) (now : Z) : Analytics.t :=
  {| Analytics.eventType := "session_started";
     Analytics.userId := user_id req;
     Analytics.sessionId := Some (Session._id doc);
     Analytics.data :=
       {| Analytics.platform := Some (Session.platform pd);
          Analytics.problemTitle := Some (Session.title pd);
          Analytics.problemDifficulty := Session.difficulty pd;
          Analytics.hintNumber := None; Analytics.codeLength := None;
          Analytics.responseTime := None; Analytics.aiProvider := None;
          Analytics.errorMessage := None;
          Analytics.extensionVersion := Some (version ext);
          Analytics.userAgent := user_agent (headers req) |};
     Analytics.timestamp := now |}.

Definition ext_version (req : Request) : option string := version <$> extensionInfo req.

(** The handler of [POST /api/ai/generate-hint]. *)
Definition generate_hint_handler (env : Env) (req : Request) (b : GenerateHintBody)
    : M Response :=
  let* startTime := Store.now in
  let problemStatement := default "" (problemStatement b) in
  let difficulty := default "Unknown" (difficulty b) in
  let previousHints := default [] (previousHints b) in
  let userCode := default "" (userCode b) in
  let* _ := log "info" "AI request: generate_hint" in
  try_catchM
    (let* session :=
       findOrCreateSession env req
         {| Session.title := problemTitle b; Session.platform := platform b;
            Session.url := referer (headers req); Session.difficulty := Some difficulty;
            Session.category := None;
            Session.statement := Some (JS.substring0 1000 problemStatement) |} in
     let* hint :=
       Store.AI_generateHint (probe env) (live env)
         {| AIService.problemTitle := problemTitle b;
            AIService.problemStatement := problemStatement;
            AIService.platform := platform b;
            AIService.difficulty := difficulty;
            AIService.previousHints := previousHints;
            AIService.userCode := userCode;
            AIService.userLevel := userLevel req |} in
     let* now := Store.now in
     let responseTime := now - startTime in
     let* session :=
       Store.Session_save
         (Session.addHint now
            {| Session.hd_content := hint;
               Session.hd_userCode :=
                 if (0 <? String.length userCode)%nat
                 then JS.substring0 1000 userCode else "";
               Session.hd_codeLength := String.length userCode;
               Session.hd_responseTime := responseTime |} session) in
     let* _ :=
       match user req with
       | Some u => Store.User_updateOne (User._id u) (User.updateStats now "hint" u)
       | None => ret tt
       end in
     let* _ :=
       Store.Analytics_recordEvent "hint_requested"
         {| Analytics.platform := Some (platform b);
            Analytics.problemTitle := Some (problemTitle b);
            Analytics.problemDifficulty := Some difficulty;
            Analytics.hintNumber := Some (length previousHints + 1)%nat;
            Analytics.codeLength := Some (String.length userCode);
            Analytics.responseTime := Some responseTime;
            Analytics.aiProvider := Some "gemini";
            Analytics.errorMessage := None;
            Analytics.extensionVersion := ext_version req;
            Analytics.userAgent := user_agent (headers req) |}
         (user_id req) (Some (Session._id session)) in
     let* _ := log "info" "Hint generated successfully:" in
     ret (Json 200 (HintBody hint (length previousHints + 1) (Session.sessionId session)
                      responseTime)))
    (fun error =>
       let* now := Store.now in
       let* _ :=
         Store.Analytics_recordEvent "error_occurred"
           {| Analytics.platform := Some (platform b);
              Analytics.problemTitle := Some (problemTitle b);
              Analytics.problemDifficulty := None;
              Analytics.hintNumber := None; Analytics.codeLength := None;
              Analytics.responseTime := Some (now - startTime);
              Analytics.aiProvider := None;
              Analytics.errorMessage := Some (err_message error);
              Analytics.extensionVersion := ext_version req;
              Analytics.userAgent := user_agent (headers req) |}
           (user_id req) None in
       let* _ := log "error" "Hint generation failed:" in
       throw error).

(** [app.use('/api/ai', optionalAuth, aiRoutes)] with
    [router.use(extensionAuth)] and
    [router.post('/generate-hint', generateHintValidation, validateRequest, handler)]. *)
Definition generate_hint (env : Env) (req : Request) (b : GenerateHintBody)
    : World -> Response * World :=
  catchAsync
    (let* req := Auth.optionalAuth req in
     let* req := Auth.extensionAuth req in
     let* _ := validateRequest (generateHintValidation b) in
     generate_hint_handler env req b).

(** [detectCodeLanguage(code)] of the routes file. *)
Definition detectCodeLanguage (code : string) : string :=
  if JS.includes code "def " || JS.includes code "import " || JS.includes code "print(" then "python"
  else if JS.includes code "function" || JS.includes code "const " || JS.includes code "let " then "javascript"
  else if JS.includes code "#include" || JS.includes code "int main" then "cpp"
  else if JS.includes code "public class" || JS.includes code "System.out" then "java"
  else if JS.includes code "package main" || JS.includes code "func " then "go"
  else if JS.includes code "use " || JS.includes code "fn " then "rust"
  else "unknown".

(** The handler of [POST /api/ai/analyze-code]. *)
Definition analyze_code_handler (env : Env) (req : Request) (b : AnalyzeCodeBody)
    : M Response :=
  let* startTime := Store.now in
  let problemStatement := default "" (a_problemStatement b) in
  let userCode := a_userCode b in
  let* _ := log "info" "AI request: analyze_code" in
  try_catchM
    (let* session :=
       findOrCreateSession env req
         {| Session.title := a_problemTitle b; Session.platform := a_platform b;
            Session.url := referer (headers req); Session.difficulty := None;
            Session.category := None;
            Session.statement := Some (JS.substring0 1000 problemStatement) |} in
     let* analysis :=
       Store.AI_analyzeCode (probe env) (live env)
         {| AIService.a_problemTitle := a_problemTitle b;
            AIService.a_userCode := userCode;
            AIService.a_problemStatement := problemStatement;
            AIService.a_platform := a_platform b;
            AIService.a_userLevel := userLevel req |} in
     let* now := Store.now in
     let responseTime := now - startTime in
     let* session :=
       Store.Session_save
         (Session.addCodeAnalysis now
            {| Session.ad_code := JS.substring0 5000 userCode;
               Session.ad_analysis := analysis;
               Session.ad_codeLanguage := detectCodeLanguage userCode;
               Session.ad_issues := []; Session.ad_suggestions := [] |} session) in
     let* _ :=
       match user req with
       | Some u => Store.User_updateOne (User._id u) (User.updateStats now "analyze" u)
       | None => ret tt
       end in
     let* _ :=
       Store.Analytics_recordEvent "code_analyzed"
         {| Analytics.platform := Some (a_platform b);
            Analytics.problemTitle := Some (a_problemTitle b);
            Analytics.problemDifficulty := None;
            Analytics.hintNumber := None;
            Analytics.codeLength := Some (String.length userCode);
            Analytics.responseTime := Some responseTime;
            Analytics.aiProvider := Some "gemini";
            Analytics.errorMessage := None;
            Analytics.extensionVersion := ext_version req;
            Analytics.userAgent := user_agent (headers req) |}
         (user_id req) (Some (Session._id session)) in
     let* _ := log "info" "Code analysis completed:" in
     ret (Json 200 (AnalysisBody analysis (Session.sessionId session) responseTime
                      (detectCodeLanguage userCode))))
    (fun error =>
       let* now := Store.now in
       let* _ :=
         Store.Analytics_recordEvent "error_occurred"
           {| Analytics.platform := Some (a_platform b);
              Analytics.problemTitle := Some (a_problemTitle b);
              Analytics.problemDifficulty := None;
              Analytics.hintNumber := None;
              Analytics.codeLength := Some (String.length userCode);
              Analytics.responseTime := Some (now - startTime);
              Analytics.aiProvider := None;
              Analytics.errorMessage := Some (err_message error);
              Analytics.extensionVersion := ext_version req;
              Analytics.userAgent := user_agent (headers req) |}
           (user_id req) None in
       let* _ := log "error" "Code analysis failed:" in
       throw error).

Definition analyze_code (env : Env) (req : Request) (b : AnalyzeCodeBody)
    : World -> Response * World :=
  catchAsync
    (let* req := Auth.optionalAuth req in
     let* req := Auth.extensionAuth req in
     let* _ := validateRequest (analyzeCodeValidation b) in
     analyze_code_handler env req b).

(** [GET /api/ai/health] *)
Definition health (env : Env) (req : Request) : World -> Response * World :=
  catchAsync
    (let* req := Auth.optionalAuth req in
     let* req := Auth.extensionAuth req in
     let* aiHealth := Store.AI_healthCheck (probe env) in
     ret (Json 200 (HealthBody aiHealth))).

End AIRoutes.

(** ** Requests that overlap in time

    A hint request loads its session document in [findOrCreateSession],
    then awaits the provider, then calls [session.addHint], which
    changes its own copy of the document and saves it. Other requests
    run during the awaits, so the loads and saves of several requests
    on one session interleave. *)

Module Interleaving.

(** How [save()] writes the array path [hints] after a [push]: as the
    pushed element alone, or as the whole array of the copy. *)
Inductive ArrayWrite : Type := PushDelta | SetWhole.

(** The stored document after the save of a copy [local] to which
    [addHint] has just pushed [h]: the paths marked modified, [hints]
    and [metrics], are written from the copy. *)
Definition write_addHint (mode : ArrayWrite) (now : Z) (h : Session.Hint)
    (local stored : Session.t) : Session.t :=
  let hs :=
    match mode with
    | PushDelta => (Session.hints stored ++ [h])%list
    | SetWhole => Session.hints local
    end in
  Session.with_updatedAt now
    (Session.with_metrics (Session.metrics local) (Session.with_hints hs stored)).

Inductive Step : Type :=
| Load (request : nat)                (* Session.findOne in findOrCreateSession *)
| Save (request : nat) (now : Z).     (* session.addHint(hintData) *)

Record State := {
  stored : Session.t;
  copies : gmap nat Session.t       (* the document each request holds *)
}.

Definition initial (s : Session.t) : State := {| stored := s; copies := ∅ |}.

Definition step (mode : ArrayWrite) (hintData : nat -> Session.HintData)
    (st : State) (e : Step) : State :=
  match e with
  | Load r => {| stored := stored st; copies := <[r := stored st]> (copies st) |}
  | Save r now =>
      match copies st !! r with
      | None => st
      | Some doc =>
          let doc' := Session.addHint now (hintData r) doc in
          {| stored := write_addHint mode now (Session.mkHint now (hintData r)) doc' (stored st);
             copies := <[r := doc']> (copies st) |}
      end
  end.

Definition run (mode : ArrayWrite) (hintData : nat -> Session.HintData)
    (schedule : list Step) (s : Session.t) : State :=
  fold_left (step mode hintData) schedule (initial s).

Definition is_load (r : nat) (e : Step) : bool :=
  match e with Load r' => Nat.eqb r r' | Save _ _ => false end.

Definition is_save (r : nat) (e : Step) : bool :=
  match e with Save r' _ => Nat.eqb r r' | Load _ => false end.

Definition step_request (e : Step) : nat :=
  match e with Load r => r | Save r _ => r end.

(** The position of the first step satisfying [p]. *)
Fixpoint position (p : Step -> bool) (l : list Step) : nat :=
  match l with
  | [] => 0
  | e :: rest => if p e then 0 else S (position p rest)
  end.

(** [schedule] interleaves [n] requests: each of the requests
    [0 .. n-1] loads once and then saves once, and nothing else
    happens. *)
Definition interleaves (n : nat) (schedule : list Step) : bool :=
  forallb (fun e => (step_request e <? n)%nat) schedule
  && forallb (fun r =>
       (length (List.filter (is_load r) schedule) =? 1)%nat
       && (length (List.filter (is_save r) schedule) =? 1)%nat
       && (position (is_load r) schedule <? position (is_save r) schedule)%nat)
     (seq 0 n).

(** The requests one after the other, request [r] saving at [time r]. *)
Definition sequential (time : nat -> Z) (n : nat) : list Step :=
  flat_map (fun r => [Load r; Save r (time r)]) (seq 0 n).

End Interleaving.

(** ** The browser extension: background script and [GeminiService] *)

Module Extension.

(** [response.json()]: the parsed body, an object of which the code
    reads [message] and [data], or a rejection when the body is not
    JSON. *)
Record HintData := { hint : option string }.
Record AnalysisData := { analysis : option string }.

Record ResponseJson (D : Type) := {
  rj_message : option string;
  rj_data : option D
}.
Arguments rj_message {D} _.
Arguments rj_data {D} _.

Inductive JsonOutcome (D : Type) : Type :=
| JsonRejects (message : string)
| JsonValue (value : ResponseJson D).
Arguments JsonRejects {D} message.
Arguments JsonValue {D} value.

(** [await fetch(url, init)]: a rejection, or a response with its
    [ok] flag, [status] and body. *)
Inductive FetchOutcome (D : Type) : Type :=
| FetchRejects (message : string)
| FetchResponse (ok : bool) (status : Z) (body : JsonOutcome D).
Arguments FetchRejects {D} message.
Arguments FetchResponse {D} ok status body.

Definition connection_hint : string :=
  "I'm having trouble connecting to the mentoring service. Please check your internet connection and try again!".

Definition generic_hint : string :=
  "Having trouble generating a hint right now. Try breaking down the problem into smaller steps - what are the inputs and expected outputs?".

Definition connection_analysis : string :=
  "I'm having trouble connecting to the code analysis service. Please check your internet connection and try again!".

(** The [try] block shared by [generateHint] and [analyzeCode] of the
    background script: the [data] of the response, or the message of
    the error thrown. *)
Definition request {D} (fetched : FetchOutcome D) : string + option D :=
  match fetched with
  | FetchRejects message => inl message
  | FetchResponse false status body =>
      let errorData_message :=
        match body with
        | JsonValue v => JS.truthy (rj_message v)
        | JsonRejects _ => None              (* .catch(() => ({})) *)
        end in
      inl (default ("HTTP error! status: " ++ pretty status) errorData_message)
  | FetchResponse true _ (JsonRejects message) => inl message
  | FetchResponse true _ (JsonValue v) => inr (rj_data v)
  end.

(** [generateHint(data)] of the background script. *)
Definition generateHint (fetched : FetchOutcome HintData) : option HintData :=
  match request fetched with
  | inr data => data
  | inl message =>
      if JS.includes message "fetch"
      then Some {| hint := Some connection_hint |}
      else Some {| hint := Some generic_hint |}
  end.

Definition short_code_note : string :=
  "Your code is quite short - make sure you're implementing the complete solution."
  ++ JS.nl ++ JS.nl.

Definition nested_loops_note : string :=
  "I notice nested loops - consider if there's a more efficient approach with better time complexity."
  ++ JS.nl ++ JS.nl.

Definition hash_map_note : string :=
  "Good use of hash maps for efficient lookups!" ++ JS.nl ++ JS.nl.

(** The review the background script writes itself when the request
    failed for another reason than the connection. *)
Definition quick_review (userCode : option string) : string :=
  let code := JS.truthy userCode in
  let codeLength := match code with Some c => String.length c | None => 0%nat end in
  let analysis := "**Quick Code Review:**" ++ JS.nl ++ JS.nl in
  let analysis :=
    if (codeLength <? 50)%nat then analysis ++ short_code_note else analysis in
  let analysis :=
    if match code with
       | Some c => JS.includes c "for" && JS.includes c "for"
       | None => false
       end
    then analysis ++ nested_loops_note else analysis in
  let analysis :=
    if match code with
       | Some c => JS.includes c "dict" || JS.includes c "map"
       | None => false
       end
    then analysis ++ hash_map_note else analysis in
  analysis ++ "**Next Steps:** Test your code with the provided examples and consider edge cases.".

(** [analyzeCode(data)] of the background script. *)
Definition analyzeCode (userCode : option string) (fetched : FetchOutcome AnalysisData)
    : option AnalysisData :=
  match request fetched with
  | inr data => data
  | inl message =>
      if JS.includes message "fetch"
      then Some {| analysis := Some connection_analysis |}
      else Some {| analysis := Some (quick_review userCode) |}
  end.

(** What the message listener sends back. *)
Record Reply (D : Type) := {
  success : bool;
  reply_data : option D;
  reply_error : option string
}.
Arguments success {D} _.
Arguments reply_data {D} _.
Arguments reply_error {D} _.

(** The listener's branch for [GENERATE_HINT]: [generateHint] never
    rejects, so its [catch] is not modelled as reachable. *)
Definition on_GENERATE_HINT (fetched : FetchOutcome HintData) : Reply HintData :=
  {| success := true; reply_data := generateHint fetched; reply_error := None |}.

Definition on_ANALYZE_CODE (userCode : option string) (fetched : FetchOutcome AnalysisData)
    : Reply AnalysisData :=
  {| success := true; reply_data := analyzeCode userCode fetched; reply_error := None |}.

(** [sendMessageToBackground]: the reply, or a rejection when
    [chrome.runtime.lastError] is set. *)
Inductive Delivery (D : Type) : Type :=
| RuntimeError (message : string)
| Delivered (reply : Reply D).
Arguments RuntimeError {D} message.
Arguments Delivered {D} reply.

Definition trouble_hint : string :=
  "I'm having trouble generating hints right now. Please try again!".

Definition trouble_analysis : string :=
  "I'm having trouble analyzing your code right now. Please try again!".

(** [GeminiService.generateNextHint]: what the content script gets;
    [None] is [undefined]. *)
Definition generateNextHint (delivery : Delivery HintData) : option string :=
  match delivery with
  | RuntimeError _ => Some trouble_hint
  | Delivered response =>
      if success response then
        match reply_data response with
        | Some data => hint data
        | None => Some trouble_hint          (* TypeError, caught *)
        end
      else Some trouble_hint
  end.

(** [GeminiService.analyzeCode] *)
Definition analyzeCode_service (delivery : Delivery AnalysisData) : option string :=
  match delivery with
  | RuntimeError _ => Some trouble_analysis
  | Delivered response =>
      if success response then
        match reply_data response with
        | Some data => analysis data
        | None => Some trouble_analysis
        end
      else Some trouble_analysis
  end.

(** [GeminiService.checkBackendHealth] *)
Definition checkBackendHealth {D} (delivery : Delivery D) : bool :=
  match delivery with
  | RuntimeError _ => false
  | Delivered response => success response
  end.

(** [healthCheck()] of the background script: the [data] of the
    answer, a default when it has none, or an error report. *)
Inductive Health (D : Type) : Type :=
| ServerHealth (data : D)
| DefaultHealth                                (* { status: 'ok', ... } *)
| HealthError (error : string).                (* { status: 'error', ... } *)
Arguments ServerHealth {D} data.
Arguments DefaultHealth {D}.
Arguments HealthError {D} error.

Definition healthCheck {D} (fetched : FetchOutcome D) : Health D :=
  match fetched with
  | FetchRejects message => HealthError message
  | FetchResponse false status _ => HealthError ("HTTP error! status: " ++ pretty status)
  | FetchResponse true _ (JsonRejects message) => HealthError message
  | FetchResponse true _ (JsonValue v) =>
      match rj_data v with
      | Some d => ServerHealth d
      | None => DefaultHealth
      end
  end.

Definition on_HEALTH_CHECK {D} (fetched : FetchOutcome D) : Reply (Health D) :=
  {| success := true; reply_data := Some (healthCheck fetched); reply_error := None |}.

(** The status line of the popup. *)
Definition popup_status {D} (delivery : Delivery D) : string :=
  match delivery with
  | RuntimeError _ => "Service temporarily offline"
  | Delivered response =>
      if success response then "Service online and ready!"
      else "Service temporarily offline"
  end.

End Extension.

(** ** Sample data *)

Module Sample.

Definition two_sum_options : AIService.HintOptions :=
  {| AIService.problemTitle := "Two Sum"; AIService.problemStatement := "";
     AIService.platform := "leetcode"; AIService.difficulty := "Easy";
     AIService.previousHints := ["first"; "second"]; AIService.userCode := "";
     AIService.userLevel := "intermediate" |}.

(** A provider that cannot be reached. *)
Definition unreachable : AIService.ProviderCall :=
  {| AIService.latency := 5000;
     AIService.outcome := AIService.Throws (JsError "Error" "fetch failed") |}.

(** A provider that answers. *)
Definition answers (text : string) : AIService.ProviderCall :=
  {| AIService.latency := 800; AIService.outcome := AIService.Replies text |}.

(** The service after a probe that succeeded at time [0]. *)
Definition healthy_service : AIService.t :=
  {| AIService.isHealthy := true; AIService.lastHealthCheck := Some 0 |}.

(** A server that has just started, at time [t]. *)
Definition fresh_world (t : Z) : World :=
  {| clock := t; next_id := 1; users := []; sessions := ∅; events := [];
     ai := healthy_service; faults := no_faults; logs := [] |}.

(** A request of the browser extension, with its correlation id. *)
Definition extension_request (sid : option string) : Http.Request :=
  {| Http.headers :=
       {| Http.authorization := None; Http.x_extension_version := Some "1.0.0";
          Http.x_session_id := sid; Http.referer := None;
          Http.user_agent := Some "Chrome" |};
     Http.ip := "127.0.0.1"; Http.user := None; Http.extensionInfo := None |}.

Definition two_sum : AIRoutes.GenerateHintBody :=
  {| AIRoutes.problemTitle := "Two Sum"; AIRoutes.problemStatement := None;
     AIRoutes.platform := "leetcode"; AIRoutes.difficulty := Some "Easy";
     AIRoutes.previousHints := None; AIRoutes.userCode := None |}.

Definition env (text : string) : AIRoutes.Env :=
  {| AIRoutes.probe := unreachable; AIRoutes.live := answers text;
     AIRoutes.uuid := "0b5c2c1e-0000-4000-8000-000000000001" |}.

Definition S1 : string := "0b5c2c1e-0000-4000-8000-000000000001".

(** The server after one hint request that carried no correlation id. *)
Definition after_first_hint : World :=
  snd (AIRoutes.generate_hint (env "What pairs with x?") (extension_request None)
         two_sum (fresh_world 0)).

(** The periodic sweep, run when the clock shows [t]. *)
Definition sweep_at (t : Z) (w : World) : World :=
  let w := with_clock t w in
  with_sessions (Session.cleanupAbandonedSessions (clock w) (sessions w)) w.

Definition two_sum_problem : Session.Problem :=
  {| Session.title := "Two Sum"; Session.platform := "leetcode"; Session.url := None;
     Session.difficulty := Some "Easy"; Session.category := None;
     Session.statement := Some "" |}.

Definition no_metadata : Session.Metadata :=
  {| Session.userAgent := None; Session.ipAddress := None;
     Session.extensionVersion := None |}.

(** A session created at time [0]. *)
Definition new_session : Session.t :=
  Session.new_doc 0 1 None S1 two_sum_problem no_metadata.

Definition hint_data (text : string) : Session.HintData :=
  {| Session.hd_content := Some text; Session.hd_userCode := "";
     Session.hd_codeLength := 0; Session.hd_responseTime := 800 |}.

(** The same request once [extensionAuth] has run. *)
Definition resolved_request (sid : option string) : Http.Request :=
  Http.with_extensionInfo
    (Some {| Http.version := "1.0.0"; Http.sessionId := sid |})
    (extension_request sid).

Definition storage_down : Err := JsError "MongoNetworkError" "connection timed out".

(** The server after the first hint, its analytics collection now
    rejecting writes. *)
Definition analytics_down : World :=
  with_faults {| analytics_fault := Some storage_down; session_fault := None;
                 user_fault := None |} after_first_hint.

Definition second_hint : AIRoutes.GenerateHintBody :=
  {| AIRoutes.problemTitle := "Two Sum"; AIRoutes.problemStatement := None;
     AIRoutes.platform := "leetcode"; AIRoutes.difficulty := Some "Easy";
     AIRoutes.previousHints := Some ["What pairs with x?"];
     AIRoutes.userCode := None |}.

(** alice, registered at time [0] with the password "password123". *)
Definition alice : User.t :=
  {| User._id := 1; User.email := "alice@x.com"; User.username := "alice";
     User.password := User.bcrypt_hash "password123"; User.hintStyle := "intermediate";
     User.security := {| User.loginAttempts := 0; User.lockUntil := None;
                         User.passwordChangedAt := Some 0 |};
     User.stats := {| User.hintsRequested := 0; User.codeAnalyzed := 0;
                      User.totalSessions := 0; User.lastActive := None;
                      User.joinedAt := 0 |};
     User.role := "user"; User.isActive := true |}.

Definition registered (t : Z) : World := with_users [alice] (fresh_world t).

Definition login_body (pw : string) : Auth.LoginBody :=
  {| Auth.email := None; Auth.username := None;
     Auth.identifier := Some "alice"; Auth.password := Some pw |}.

(** One login request, a second after the state [w] was reached. *)
Definition login_after (body : Auth.LoginBody) (w : World) : Http.Response * World :=
  AuthRoutes.login Config.default body (with_clock (clock w + 1000) w).

(** [n] logins with a wrong password, one per second. *)
Fixpoint wrong_logins (n : nat) (w : World) : World :=
  match n with
  | O => w
  | S k => snd (login_after (login_body "letmein") (wrong_logins k w))
  end.

Definition security_of (w : World) : option User.Security :=
  User.security <$> User.findById 1 (users w).

Definition bearer_request (token : Http.Token) : Http.Request :=
  {| Http.headers :=
       {| Http.authorization :=
            Some {| Http.scheme := "Bearer"; Http.credentials := Some token |};
          Http.x_extension_version := None; Http.x_session_id := None;
          Http.referer := None; Http.user_agent := Some "Chrome" |};
     Http.ip := "127.0.0.1"; Http.user := None; Http.extensionInfo := None |}.

(** alice logs in at 10.1 s and changes her password at 10.9 s, within
    the same second. *)
Definition token_10100 : Http.Token := Auth.signToken Config.default 10100 1.

Definition logged_in_10100 : World :=
  snd (AuthRoutes.login Config.default (login_body "password123") (registered 10100)).

Definition password_changed_10900 : Http.Response * World :=
  AuthRoutes.change_password (bearer_request token_10100)
    {| AuthRoutes.currentPassword := Some "password123";
       AuthRoutes.newPassword := Some "correct horse" |}
    (with_clock 10900 logged_in_10100).


(** Both requests load the session before either saves. *)
Definition overlapping : list Interleaving.Step :=
  [Interleaving.Load 0; Interleaving.Load 1;
   Interleaving.Save 0 100; Interleaving.Save 1 200].

(** The administrator that [seedData] creates, here with the id 2. *)
Definition admin : User.t :=
  {| User._id := 2; User.email := "admin@cpmentor.dev"; User.username := "admin";
     User.password := User.bcrypt_hash "admin123456"; User.hintStyle := "advanced";
     User.security := {| User.loginAttempts := 0; User.lockUntil := None;
                         User.passwordChangedAt := Some 0 |};
     User.stats := {| User.hintsRequested := 0; User.codeAnalyzed := 0;
                      User.totalSessions := 0; User.lastActive := None;
                      User.joinedAt := 0 |};
     User.role := "admin"; User.isActive := true |}.

Definition seeded (t : Z) : World := with_users [alice; admin] (fresh_world t).

End Sample.

(** * Properties *)

(** ** The fallback content of the AI service *)

Section Fallback.

Import AIService.

Lemma detectLanguage_cases (code : string) : In (detectLanguage code) supportedLanguages.
Proof.
  unfold detectLanguage, supportedLanguages.
  repeat match goal with
         | |- context [if ?c then _ else _] => destruct c
         end; simpl; tauto.
Qed.

Example detectLanguage_python : detectLanguage "def f(x): return 0" = "python".
Proof. reflexivity. Qed.

Example single_for_suffices :
  JS.includes (getFallbackCodeAnalysis "for x in xs: total += x" "leetcode")
    nested_loop_warning = true.
Proof. vm_compute. reflexivity. Qed.

Example no_for_no_warning :
  JS.includes (getFallbackCodeAnalysis "while True: pass" "leetcode")
    nested_loop_warning = false.
Proof. vm_compute. reflexivity. Qed.

(** C10. For every code string, [getFallbackCodeAnalysis] returns a
    non-empty string that contains the "Next Steps" section, and it
    contains the nested-loop warning exactly when the code contains the
    substring "for" (one occurrence is enough: both conjuncts of the
    guard are the same test). *)
Theorem fallback_analysis_shape (userCode platform : string) :
  getFallbackCodeAnalysis userCode platform <> ""
  /\ JS.includes (getFallbackCodeAnalysis userCode platform) "**Next Steps:**" = true
  /\ (JS.includes (getFallbackCodeAnalysis userCode platform) nested_loop_warning = true
      <-> JS.includes userCode "for" = true).
Proof.
  unfold getFallbackCodeAnalysis.
  pose proof (detectLanguage_cases userCode) as Hlang.
  generalize dependent (detectLanguage userCode). intros language Hlang.
  generalize (JS.includes userCode "return []" || JS.includes userCode "return 0"
              || JS.includes userCode "return None").
  generalize (JS.includes userCode "dict" || JS.includes userCode "{}"
              || JS.includes userCode "map" || JS.includes userCode "unordered_map").
  generalize (JS.includes userCode "for").
  generalize (String.eqb platform "codeforces").
  intros cf has_for has_map has_placeholder.
  unfold supportedLanguages in Hlang. simpl in Hlang.
  repeat (destruct Hlang as [<- | Hlang]); try contradiction;
    destruct cf, has_for, has_map, has_placeholder;
    vm_compute; (split; [discriminate | split; [reflexivity | split; congruence]]).
Qed.

Lemma fallback_analysis_shape_witness :
  JS.includes (getFallbackCodeAnalysis "for x in xs: total += x" "codeforces")
    nested_loop_warning = true.
Proof.
  apply (fallback_analysis_shape "for x in xs: total += x" "codeforces").
  reflexivity.
Defined.

Example fallback_hint_0 :
  getFallbackHint 0 false "leetcode" "Easy"
  = Some "Start by understanding what the problem is asking. What are the inputs and expected outputs?".
Proof. reflexivity. Qed.

Example fallback_hint_holds :
  getFallbackHint 5 true "leetcode" "Easy" = getFallbackHint 40 true "leetcode" "Easy".
Proof. reflexivity. Qed.

Lemma fallbackHints_length (hasCode : bool) : length (fallbackHints hasCode) = 6%nat.
Proof. reflexivity. Qed.

Lemma getFallbackHint_index (n : nat) (hasCode : bool) (p d : string) :
  getFallbackHint n hasCode p d = fallbackHints hasCode !! Nat.min n 5.
Proof. reflexivity. Qed.

Lemma fallbackHints_nonempty (hasCode : bool) (i : nat) (h : string) :
  fallbackHints hasCode !! i = Some h -> h <> "".
Proof.
  intros H.
  do 6 (destruct i as [|i]; [destruct hasCode; inversion H; discriminate |]).
  discriminate H.
Qed.

Lemma fallbackHints_total (hasCode : bool) (i : nat) :
  (i < 6)%nat -> exists h, fallbackHints hasCode !! i = Some h.
Proof.
  intros Hi. apply lookup_lt_is_Some_2. rewrite fallbackHints_length. exact Hi.
Qed.

Lemma fallbackHints_NoDup (hasCode : bool) : NoDup (fallbackHints hasCode).
Proof.
  destruct hasCode; apply (bool_decide_unpack _); vm_compute; exact I.
Qed.

(** C3. When the provider call of [generateHint] throws, the call
    returns normally with a non-empty string, the entry of the ladder at
    index [min(hintIndex, N-1)]; for the indices [0 .. N-1] the
    fallbacks are pairwise distinct, and from [N-1] on it is the last
    entry of the ladder. *)
Theorem generateHint_fallback (now : Z) (probe live : ProviderCall) (o : HintOptions)
    (s : t) (e : Err) :
  outcome live = Throws e ->
  let hasCode := (0 <? String.length (userCode o))%nat in
  let ladder := fallbackHints hasCode in
  let N := length ladder in
  let hintIndex := length (previousHints o) in
  (exists h, snd (generateHint now probe live o s) = Ok (Some h)
             /\ h <> ""
             /\ ladder !! Nat.min hintIndex (N - 1) = Some h)
  /\ (forall i j p d, (i < N)%nat -> (j < N)%nat -> i <> j ->
        getFallbackHint i hasCode p d <> getFallbackHint j hasCode p d)
  /\ ((N - 1 <= hintIndex)%nat ->
        snd (generateHint now probe live o s) = Ok (last ladder)).
Proof.
  intros Hlive hasCode ladder N hintIndex.
  assert (Hres : snd (generateHint now probe live o s)
                 = Ok (ladder !! Nat.min hintIndex 5)).
  { unfold generateHint. destruct (maybe_probe now probe s) as [s1 t1].
    rewrite Hlive. reflexivity. }
  split; [| split].
  - destruct (fallbackHints_total hasCode (Nat.min hintIndex 5)) as [h Hh]; [lia |].
    exists h. fold ladder in Hh. rewrite Hres, Hh.
    split; [reflexivity | split; [| exact Hh]].
    eapply fallbackHints_nonempty. exact Hh.
  - intros i j p d Hi Hj Hij. rewrite !getFallbackHint_index.
    unfold N, ladder in Hi, Hj. rewrite fallbackHints_length in Hi, Hj.
    rewrite !Nat.min_l by lia.
    destruct (fallbackHints_total hasCode i Hi) as [hi Hhi].
    rewrite Hhi. intros Heq. symmetry in Heq.
    pose proof (NoDup_lookup _ _ _ _ (fallbackHints_NoDup hasCode) Hhi Heq). contradiction.
  - intros Hge. rewrite Hres. unfold N, ladder in Hge.
    rewrite fallbackHints_length in Hge. rewrite Nat.min_r by lia.
    unfold ladder. destruct hasCode; reflexivity.
Qed.

Lemma generateHint_fallback_witness :
  snd (generateHint 0 Sample.unreachable Sample.unreachable Sample.two_sum_options constructed)
  = Ok (Some "Consider what data structures would be most helpful for efficient lookups or storage.").
Proof.
  destruct (generateHint_fallback 0 Sample.unreachable Sample.unreachable Sample.two_sum_options
              constructed (JsError "Error" "fetch failed") eq_refl)
    as [[h [Hres [_ Hh]]] _].
  rewrite Hres. vm_compute in Hh. rewrite <- Hh. reflexivity.
Defined.

End Fallback.

(** ** The health state of the AI service *)

Section Health.

Import AIService.

Example probe_ok :
  isHealthy (fst (healthCheck 10 (Sample.answers " OK ") constructed)) = true.
Proof. reflexivity. Qed.

Example probe_refused :
  isHealthy (fst (healthCheck 10 (Sample.answers "I cannot do that") Sample.healthy_service))
  = false.
Proof. reflexivity. Qed.

Example probe_failed :
  fst (healthCheck 10 Sample.unreachable Sample.healthy_service)
  = {| isHealthy := false; lastHealthCheck := Some 5010 |}.
Proof. reflexivity. Qed.

Lemma generateHint_state (now : Z) (probe live : ProviderCall) (o : HintOptions) (s : t) :
  fst (generateHint now probe live o s) = fst (maybe_probe now probe s).
Proof. unfold generateHint. destruct (maybe_probe now probe s). reflexivity. Qed.

Lemma analyzeCode_state (now : Z) (probe live : ProviderCall) (o : AnalyzeOptions) (s : t) :
  fst (analyzeCode now probe live o s) = fst (maybe_probe now probe s).
Proof. unfold analyzeCode. destruct (maybe_probe now probe s). reflexivity. Qed.

(** C4, against the claim: a live provider call that fails in
    [generateHint] leaves a healthy service healthy. *)
Lemma failed_live_call_keeps_healthy :
  outcome Sample.unreachable = Throws (JsError "Error" "fetch failed")
  /\ isHealthy Sample.healthy_service = true
  /\ fst (generateHint 1000 Sample.unreachable Sample.unreachable
            Sample.two_sum_options Sample.healthy_service)
     = Sample.healthy_service.
Proof. repeat split. Qed.

(** C4, as the code has it. Only a probe changes the health state: a
    probe that throws sets [isHealthy] to [false], a probe that is
    answered sets it to whether the answer contains "OK". [generateHint]
    and [analyzeCode] change the state only through the probe they run
    first when the service is unhealthy and the last check is more than
    60 s old; the outcome of their live provider call does not touch
    it, so a healthy service stays healthy when the live call fails. *)
Theorem health_changes_only_by_probe (now : Z) (probe live : ProviderCall)
    (ho : HintOptions) (ao : AnalyzeOptions) (s : t) :
  isHealthy (fst (healthCheck now probe s))
  = match outcome probe with
    | Replies text => JS.includes (JS.trim text) "OK"
    | Throws _ => false
    end
  /\ fst (generateHint now probe live ho s)
     = (if probe_due now s then fst (healthCheck now probe s) else s)
  /\ fst (analyzeCode now probe live ao s)
     = (if probe_due now s then fst (healthCheck now probe s) else s)
  /\ (isHealthy s = true ->
      fst (generateHint now probe live ho s) = s
      /\ fst (analyzeCode now probe live ao s) = s).
Proof.
  assert (Hp : fst (maybe_probe now probe s)
               = if probe_due now s then fst (healthCheck now probe s) else s).
  { unfold maybe_probe. destruct (probe_due now s); reflexivity. }
  split; [| split; [| split]].
  - unfold healthCheck. destruct (outcome probe); reflexivity.
  - rewrite generateHint_state. exact Hp.
  - rewrite analyzeCode_state. exact Hp.
  - intros Hh. rewrite generateHint_state, analyzeCode_state, Hp.
    unfold probe_due. rewrite Hh. split; reflexivity.
Qed.

Lemma health_changes_only_by_probe_witness :
  fst (generateHint 1000 Sample.unreachable Sample.unreachable
         Sample.two_sum_options Sample.healthy_service) = Sample.healthy_service.
Proof.
  apply (health_changes_only_by_probe 1000 Sample.unreachable Sample.unreachable
           Sample.two_sum_options
           {| a_problemTitle := "Two Sum"; a_userCode := "return 0";
              a_problemStatement := ""; a_platform := "leetcode";
              a_userLevel := "intermediate" |}
           Sample.healthy_service).
  reflexivity.
Defined.

End Health.

(** ** The session ledger *)

Section Ledger.

Import Session.

Example three_hints :
  let s := addHint 3 (Sample.hint_data "c")
             (addHint 2 (Sample.hint_data "b")
                (addHint 1 (Sample.hint_data "a") Sample.new_session)) in
  hintsRequested (metrics s) = 3%nat /\ length (hints s) = 3%nat.
Proof. split; reflexivity. Qed.

Example first_hint_creates_session :
  (fun s => (status s, endTime (metrics s), hintsRequested (metrics s)))
    <$> (sessions Sample.after_first_hint !! Sample.S1)
  = Some (Active, None, 1%nat).
Proof. vm_compute. reflexivity. Qed.

(** [endSession] leaves a session that is not active and has its end
    time set. *)
Lemma endSession_sets_endTime (now : Z) (c : bool) (s : t) :
  status (endSession now c s) <> Active
  /\ endTime (metrics (endSession now c s)) = Some now.
Proof. split; [destruct c; discriminate | reflexivity]. Qed.

(** The sweep changes [status], [isActive] and [updatedAt] only. *)
Lemma cleanup_keeps_metrics (now : Z) (c : Collection) (sid : string) :
  metrics <$> (cleanupAbandonedSessions now c !! sid) = metrics <$> (c !! sid).
Proof.
  unfold cleanupAbandonedSessions. rewrite lookup_fmap.
  destruct (c !! sid) as [s|]; simpl; [| reflexivity].
  destruct (bool_decide (status s = Active) && (createdAt s <? now - 2 * 60 * 60 * 1000));
    reflexivity.
Qed.

(** The methods keep the invariant, and [endSession] establishes it. *)
Lemma methods_keep_invariant (now : Z) (s : t) :
  ended_has_endTime (new_doc now (_id s) (userId s) (sessionId s) (problem s) (metadata s))
  /\ (forall c, ended_has_endTime (endSession now c s))
  /\ (ended_has_endTime s ->
      (forall d, ended_has_endTime (addHint now d s))
      /\ (forall d, ended_has_endTime (addCodeAnalysis now d s))
      /\ (forall d, ended_has_endTime (addFeedback now d s))).
Proof.
  unfold ended_has_endTime. split; [| split].
  - intros H. contradiction H. reflexivity.
  - intros c _. eexists. reflexivity.
  - intros H. repeat split; intros d; exact H.
Qed.

(** The sweep moves an active session created more than two hours ago
    to [abandoned] and leaves its metrics as they are. *)
Lemma cleanup_abandons (now : Z) (c : Collection) (sid : string) (s : t) :
  c !! sid = Some s -> status s = Active -> createdAt s < now - 2 * 60 * 60 * 1000 ->
  cleanupAbandonedSessions now c !! sid
  = Some (with_updatedAt now (with_status Abandoned false s)).
Proof.
  intros Hs Hact Hold. unfold cleanupAbandonedSessions.
  rewrite lookup_fmap, Hs. simpl.
  rewrite bool_decide_eq_true_2 by exact Hact.
  apply Z.ltb_lt in Hold. rewrite Hold. reflexivity.
Qed.

(** So the sweep breaks the invariant on every session it reaches that
    has not been ended. *)
Lemma cleanup_breaks_invariant (now : Z) (c : Collection) (sid : string) (s : t) :
  c !! sid = Some s -> status s = Active -> createdAt s < now - 2 * 60 * 60 * 1000 ->
  endTime (metrics s) = None ->
  exists s', cleanupAbandonedSessions now c !! sid = Some s' /\ ~ ended_has_endTime s'.
Proof.
  intros Hs Hact Hold Hend. eexists. split; [eapply cleanup_abandons; eassumption |].
  unfold ended_has_endTime. simpl. rewrite Hend.
  intros H. destruct H as [x Hx]; [discriminate | discriminate Hx].
Qed.

(** C6. A session created by a hint request and then reached by the
    sweep three hours later is [abandoned] and has no [endTime]:
    [cleanupAbandonedSessions] sets the status without the end time that
    [endSession] sets on the same transition. *)
Theorem sweep_abandons_without_endTime :
  (fun s => (status s, endTime (metrics s)))
    <$> (sessions (Sample.sweep_at (3 * 60 * 60 * 1000) Sample.after_first_hint)
           !! Sample.S1)
  = Some (Abandoned, None).
Proof. vm_compute. reflexivity. Qed.

(** C7, against the claim: ending a completed session again, later,
    moves its end time and duration, and with the other flag its status
    too. *)
Lemma endSession_again_changes :
  let ended := endSession 60000 true Sample.new_session in
  (status ended, endTime (metrics ended), duration (metrics ended))
  = (Completed, Some 60000, Some 60)
  /\ (let again := endSession 90000 true ended in
      (status again, endTime (metrics again), duration (metrics again))
      = (Completed, Some 90000, Some 90))
  /\ (let again := endSession 90000 false ended in
      (status again, endTime (metrics again), duration (metrics again))
      = (Abandoned, Some 90000, Some 90)).
Proof. vm_compute. repeat split. Qed.

(** C7, as the code has it. [endSession] has no guard for a session
    that has already ended: it sets [endTime] to the current time,
    [duration] to the seconds since [startTime], [completed] and
    [status] to its argument and [isActive] to [false], whatever they
    were, and leaves every other field as it is. The last call wins, so
    calling it again is without effect only at the same time and with
    the same flag. ([updatedAt] is stamped by the [save()] that
    follows.) *)
Theorem endSession_overwrites (now now' : Z) (c c' : bool) (s : t) :
  endSession now' c' (endSession now c s) = endSession now' c' s
  /\ endSession now c (endSession now c s) = endSession now c s
  /\ endTime (metrics (endSession now' c' s)) = Some now'
  /\ duration (metrics (endSession now' c' s))
     = Some (JS.round_div (now' - startTime (metrics s)) 1000)
  /\ completed (metrics (endSession now' c' s)) = c'
  /\ status (endSession now' c' s) = (if c' then Completed else Abandoned)
  /\ isActive (endSession now' c' s) = false
  /\ (let s' := endSession now' c' s in
      (_id s', userId s', sessionId s', problem s', hints s', codeAnalyses s',
       feedback s', metadata s', createdAt s')
      = (_id s, userId s, sessionId s, problem s, hints s, codeAnalyses s,
         feedback s, metadata s, createdAt s)
      /\ (startTime (metrics s'), hintsRequested (metrics s'),
          analysesRequested (metrics s'), codeSubmissions (metrics s'))
         = (startTime (metrics s), hintsRequested (metrics s),
            analysesRequested (metrics s), codeSubmissions (metrics s))).
Proof. repeat split. Qed.

End Ledger.

(** ** Finding the session of a request *)

Section FindOrCreate.

Import Http AIRoutes.

(** C8. When the correlation id [X] of a request resolves to an active
    session, [findOrCreateSession] returns that session and leaves the
    world as it is: the stored session is not changed, its problem
    descriptor is not overwritten by the one of the request, and no
    session or event is created. A second call with [X] therefore
    returns the same session as the first. *)
Theorem findOrCreate_returns_existing (env env' : Env) (req req' : Request)
    (problemData problemData' : Session.Problem) (ext ext' : ExtensionInfo)
    (X : string) (s : Session.t) (w : World) :
  extensionInfo req = Some ext -> sessionId ext = Some X ->
  extensionInfo req' = Some ext' -> sessionId ext' = Some X ->
  X <> "" ->
  session_fault (faults w) = None ->
  Session.findOne_active X (sessions w) = Some s ->
  findOrCreateSession env req problemData w = (Ok s, w)
  /\ (let* first := findOrCreateSession env req problemData in
      let* second := findOrCreateSession env' req' problemData' in
      ret (first, second)) w = (Ok (s, s), w).
Proof.
  intros Hext HX Hext' HX' Hne Hfault Hfound.
  assert (Hcall : forall env0 req0 pd0 ext0,
             extensionInfo req0 = Some ext0 -> sessionId ext0 = Some X ->
             findOrCreateSession env0 req0 pd0 w = (Ok s, w)).
  { intros env0 req0 pd0 ext0 H1 H2.
    unfold findOrCreateSession. rewrite H1, H2. unfold JS.truthy.
    destruct (String.eqb X "") eqn:E; [apply String.eqb_eq in E; contradiction |].
    cbv [Store.Session_findOne_active Store.guard bind gets ret throw].
    rewrite Hfault. cbv beta iota. rewrite Hfound. reflexivity. }
  split.
  - eapply Hcall; eassumption.
  - unfold bind at 1. rewrite (Hcall env req problemData ext Hext HX).
    unfold bind at 1. rewrite (Hcall env' req' problemData' ext' Hext' HX').
    reflexivity.
Qed.

Lemma findOrCreate_returns_existing_witness :
  exists s,
    sessions Sample.after_first_hint !! Sample.S1 = Some s
    /\ findOrCreateSession (Sample.env "unused") (Sample.resolved_request (Some Sample.S1))
         Sample.two_sum_problem Sample.after_first_hint
       = (Ok s, Sample.after_first_hint).
Proof.
  destruct (sessions Sample.after_first_hint !! Sample.S1) as [s|] eqn:Hs;
    [| vm_compute in Hs; discriminate Hs].
  exists s. split; [reflexivity |].
  apply (findOrCreate_returns_existing (Sample.env "unused") (Sample.env "unused")
           (Sample.resolved_request (Some Sample.S1))
           (Sample.resolved_request (Some Sample.S1))
           Sample.two_sum_problem Sample.two_sum_problem
           {| version := "1.0.0"; sessionId := Some Sample.S1 |}
           {| version := "1.0.0"; sessionId := Some Sample.S1 |}
           Sample.S1 s Sample.after_first_hint);
    try reflexivity.
  - discriminate.
  - unfold Session.findOne_active. rewrite Hs.
    vm_compute in Hs. injection Hs as <-. reflexivity.
Defined.

(** A new correlation id creates the session; the same id then finds it. *)
Example create_then_find :
  let w0 := Sample.fresh_world 0 in
  let req := Sample.resolved_request (Some "tab-42") in
  let '(r1, w1) := findOrCreateSession (Sample.env "unused") req Sample.two_sum_problem w0 in
  let '(r2, w2) := findOrCreateSession (Sample.env "unused") req Sample.two_sum_problem w1 in
  r1 = r2 /\ w2 = w1 /\ size (sessions w1) = 1%nat
  /\ match r1 with Ok s => Session.sessionId s = "tab-42" | Raise _ => False end.
Proof. vm_compute. repeat split. Qed.

End FindOrCreate.

(** ** Recording events from the request handlers *)

Section Recording.

Import Http AIRoutes.

Lemma keeps_ret {A} (a : A) : keeps_faults (ret a).
Proof. intros w. reflexivity. Qed.

Lemma keeps_throw {A} (e : Err) : keeps_faults (@throw A e).
Proof. intros w. reflexivity. Qed.

Lemma keeps_gets {A} (f : World -> A) : keeps_faults (gets f).
Proof. intros w. reflexivity. Qed.

Lemma keeps_lift {A} (r : Result A) : keeps_faults (lift r).
Proof. intros w. reflexivity. Qed.

Lemma keeps_modify (f : World -> World) :
  (forall w, faults (f w) = faults w) -> keeps_faults (modify f).
Proof. intros H w. apply H. Qed.

Lemma keeps_bind {A B} (m : M A) (k : A -> M B) :
  keeps_faults m -> (forall a, keeps_faults (k a)) -> keeps_faults (bind m k).
Proof.
  intros Hm Hk w. unfold bind. specialize (Hm w).
  destruct (m w) as [[a|e] w1]; simpl in *; [| exact Hm].
  rewrite Hk. exact Hm.
Qed.

Lemma keeps_try {A} (body : M A) (handler : Err -> M A) :
  keeps_faults body -> (forall e, keeps_faults (handler e)) ->
  keeps_faults (try_catchM body handler).
Proof.
  intros Hm Hk w. unfold try_catchM. specialize (Hm w).
  destruct (body w) as [[a|e] w1]; simpl in *; [exact Hm |].
  rewrite Hk. exact Hm.
Qed.

Lemma keeps_AI_generateHint probe live o : keeps_faults (Store.AI_generateHint probe live o).
Proof.
  intros w. unfold Store.AI_generateHint.
  destruct (AIService.generateHint (clock w) probe live o (ai w)). reflexivity.
Qed.

Lemma keeps_AI_analyzeCode probe live o : keeps_faults (Store.AI_analyzeCode probe live o).
Proof.
  intros w. unfold Store.AI_analyzeCode.
  destruct (AIService.analyzeCode (clock w) probe live o (ai w)). reflexivity.
Qed.

Ltac keeps :=
  repeat first
    [ apply keeps_ret | apply keeps_throw | apply keeps_gets | apply keeps_lift
    | apply keeps_AI_generateHint | apply keeps_AI_analyzeCode
    | apply keeps_modify; intros ?; reflexivity
    | apply keeps_bind; [| intros ?]
    | apply keeps_try; [| intros ?]
    | match goal with
      | |- keeps_faults (match ?x with _ => _ end) => destruct x
      | |- keeps_faults (let _ := _ in _) => cbv zeta
      end ].

Lemma keeps_log lvl msg : keeps_faults (log lvl msg).
Proof. unfold log. keeps. Qed.

Lemma keeps_guard f : keeps_faults (Store.guard f).
Proof. unfold Store.guard. keeps. Qed.

Lemma keeps_recordEvent ty d u s : keeps_faults (Store.Analytics_recordEvent ty d u s).
Proof. unfold Store.Analytics_recordEvent, Store.now, Store.guard. keeps. Qed.

Lemma keeps_Session_save doc : keeps_faults (Store.Session_save doc).
Proof. unfold Store.Session_save, Store.now, Store.guard. keeps. Qed.

Lemma keeps_User_updateOne id f : keeps_faults (Store.User_updateOne id f).
Proof. unfold Store.User_updateOne, Store.guard. keeps. Qed.

Lemma keeps_findOrCreateSession env req pd : keeps_faults (findOrCreateSession env req pd).
Proof.
  unfold findOrCreateSession, Store.Session_findOne_active, Store.Session_create,
    Store.fresh_id, Store.now, Store.guard.
  keeps; apply keeps_recordEvent.
Qed.

Lemma keeps_optionalAuth req : keeps_faults (Auth.optionalAuth req).
Proof.
  unfold Auth.optionalAuth, Store.User_findById, Store.now, Store.guard.
  keeps; first [apply keeps_log | apply keeps_User_updateOne].
Qed.

Lemma keeps_extensionAuth req : keeps_faults (Auth.extensionAuth req).
Proof. unfold Auth.extensionAuth. keeps. Qed.

Lemma keeps_validateRequest errors : keeps_faults (validateRequest errors).
Proof. unfold validateRequest. keeps. Qed.

Lemma raises_bind {A B} (m : M A) (k : A -> M B) (w : World) :
  keeps_faults m ->
  (forall a w1, faults w1 = faults w -> raises (k a) w1) ->
  raises (bind m k) w.
Proof.
  intros Hm Hk. unfold raises, bind. specialize (Hm w).
  destruct (m w) as [[a|e] w1]; simpl in *.
  - apply Hk. exact Hm.
  - eauto.
Qed.

Lemma raises_first {A B} (m : M A) (k : A -> M B) (w : World) :
  raises m w -> raises (bind m k) w.
Proof.
  intros [e [w1 Hm]]. unfold raises, bind. rewrite Hm. eauto.
Qed.

Lemma raises_try {A} (body : M A) (handler : Err -> M A) (w : World) :
  keeps_faults body -> raises body w ->
  (forall e w1, faults w1 = faults w -> raises (handler e) w1) ->
  raises (try_catchM body handler) w.
Proof.
  intros Hk [e [w1 Hb]] Hh. unfold raises, try_catchM.
  specialize (Hk w). rewrite Hb in *. simpl in Hk. apply Hh. exact Hk.
Qed.

(** While the analytics collection rejects writes, [recordEvent] throws. *)
Lemma raises_recordEvent ty d u s (w : World) (e : Err) :
  analytics_fault (faults w) = Some e ->
  raises (Store.Analytics_recordEvent ty d u s) w.
Proof.
  intros Hf. unfold raises.
  cbv [Store.Analytics_recordEvent Store.now Store.guard bind gets throw ret modify].
  match goal with |- context [if ?c then _ else _] => destruct c end.
  - eauto.
  - rewrite Hf. eauto.
Qed.

Lemma raises_generate_hint_handler env req b (w : World) (e : Err) :
  analytics_fault (faults w) = Some e ->
  raises (generate_hint_handler env req b) w.
Proof.
  intros Hf. unfold generate_hint_handler.
  apply raises_bind; [unfold Store.now; keeps |]. intros startTime w1 H1.
  apply raises_bind; [apply keeps_log |]. intros _ w2 H2.
  assert (Hf2 : analytics_fault (faults w2) = Some e) by (rewrite H2, H1; exact Hf).
  assert (Hbody_keeps : forall A (k : Session.t -> M A),
             (forall a, keeps_faults (k a)) ->
             keeps_faults (let* session := findOrCreateSession env req
               {| Session.title := problemTitle b; Session.platform := platform b;
                  Session.url := referer (headers req);
                  Session.difficulty := Some (default "Unknown" (difficulty b));
                  Session.category := None;
                  Session.statement :=
                    Some (JS.substring0 1000 (default "" (problemStatement b))) |} in
               k session)).
  { intros A k Hk. apply keeps_bind; [apply keeps_findOrCreateSession | exact Hk]. }
  apply raises_try.
  - apply Hbody_keeps. intros session. unfold Store.now.
    keeps; first [apply keeps_Session_save | apply keeps_User_updateOne
                 | apply keeps_recordEvent | apply keeps_log].
  - apply raises_bind; [apply keeps_findOrCreateSession |]. intros session w3 H3.
    apply raises_bind; [apply keeps_AI_generateHint |]. intros hint w4 H4.
    apply raises_bind; [unfold Store.now; keeps |]. intros now w5 H5.
    apply raises_bind; [apply keeps_Session_save |]. intros session' w6 H6.
    apply raises_bind; [destruct (user req); [apply keeps_User_updateOne | apply keeps_ret] |].
    intros _ w7 H7.
    apply raises_first. apply raises_recordEvent with (e := e).
    rewrite H7, H6, H5, H4, H3. exact Hf2.
  - intros error w3 H3.
    apply raises_bind; [unfold Store.now; keeps |]. intros now w4 H4.
    apply raises_first. apply raises_recordEvent with (e := e).
    rewrite H4, H3. exact Hf2.
Qed.

Lemma raises_analyze_code_handler env req b (w : World) (e : Err) :
  analytics_fault (faults w) = Some e ->
  raises (analyze_code_handler env req b) w.
Proof.
  intros Hf. unfold analyze_code_handler.
  apply raises_bind; [unfold Store.now; keeps |]. intros startTime w1 H1.
  apply raises_bind; [apply keeps_log |]. intros _ w2 H2.
  assert (Hf2 : analytics_fault (faults w2) = Some e) by (rewrite H2, H1; exact Hf).
  apply raises_try.
  - apply keeps_bind; [apply keeps_findOrCreateSession |]. intros session.
    unfold Store.now.
    keeps; first [apply keeps_Session_save | apply keeps_User_updateOne
                 | apply keeps_recordEvent | apply keeps_log].
  - apply raises_bind; [apply keeps_findOrCreateSession |]. intros session w3 H3.
    apply raises_bind; [apply keeps_AI_analyzeCode |]. intros analysis w4 H4.
    apply raises_bind; [unfold Store.now; keeps |]. intros now w5 H5.
    apply raises_bind; [apply keeps_Session_save |]. intros session' w6 H6.
    apply raises_bind; [destruct (user req); [apply keeps_User_updateOne | apply keeps_ret] |].
    intros _ w7 H7.
    apply raises_first. apply raises_recordEvent with (e := e).
    rewrite H7, H6, H5, H4, H3. exact Hf2.
  - intros error w3 H3.
    apply raises_bind; [unfold Store.now; keeps |]. intros now w4 H4.
    apply raises_first. apply raises_recordEvent with (e := e).
    rewrite H4, H3. exact Hf2.
Qed.

Lemma catchAsync_raises (handler : M Response) (w : World) :
  raises handler w -> exists e, fst (catchAsync handler w) = Failed e.
Proof.
  intros [e [w1 H]]. unfold catchAsync. rewrite H. eauto.
Qed.

Example provider_down_still_answers :
  fst (generate_hint
         {| probe := Sample.unreachable; live := Sample.unreachable; uuid := Sample.S1 |}
         (Sample.extension_request None) Sample.two_sum (Sample.fresh_world 0))
  = Json 200
      (HintBody
         (Some "Start by understanding what the problem is asking. What are the inputs and expected outputs?")
         1 Sample.S1 5000).
Proof. vm_compute. reflexivity. Qed.

Example missing_extension_version :
  fst (generate_hint (Sample.env "unused")
         (with_extensionInfo None
            {| headers := {| authorization := None; x_extension_version := None;
                             x_session_id := None; referer := None; user_agent := None |};
               ip := "127.0.0.1"; user := None; extensionInfo := None |})
         Sample.two_sum (Sample.fresh_world 0))
  = Failed (AppError "Extension version required" 400).
Proof. vm_compute. reflexivity. Qed.

Example invalid_platform :
  fst (generate_hint (Sample.env "unused") (Sample.extension_request None)
         {| problemTitle := ""; problemStatement := None; platform := "spoj";
            difficulty := None; previousHints := None; userCode := None |}
         (Sample.fresh_world 0))
  = Failed (AppError "Validation failed: Problem title is required, Invalid platform" 400).
Proof. vm_compute. reflexivity. Qed.

Example second_hint_succeeds :
  fst (generate_hint (Sample.env "Store what you have seen.")
         (Sample.extension_request (Some Sample.S1)) Sample.second_hint
         Sample.after_first_hint)
  = Json 200 (HintBody (Some "Store what you have seen.") 2 Sample.S1 800).
Proof. vm_compute. reflexivity. Qed.

(** C5, against the claim: the provider answers and the hint is
    appended to the stored session, the analytics collection rejects
    the event, and the request fails with the storage error instead of
    its success response. No event is stored and nothing is logged
    about it: the [catch] block fails on its own [recordEvent]. *)
Lemma recording_failure_fails_hint_request :
  let '(response, w) :=
    generate_hint (Sample.env "Store what you have seen.")
      (Sample.extension_request (Some Sample.S1)) Sample.second_hint
      Sample.analytics_down in
  response = Failed Sample.storage_down
  /\ (fun s => (Session.content <$> Session.hints s,
                Session.hintsRequested (Session.metrics s)))
       <$> (sessions w !! Sample.S1)
     = Some ([Some "What pairs with x?"; Some "Store what you have seen."], 2%nat)
  /\ events w = events Sample.analytics_down
  /\ logs w = (logs Sample.analytics_down
               ++ [{| level := "info"; message := "AI request: generate_hint" |}])%list.
Proof. vm_compute. repeat split. Qed.

(** C5, as the code has it. Both handlers await [Analytics.recordEvent]
    inside their [try] block and again in the [catch] block. While the
    analytics collection rejects writes, no hint or analysis request gets
    its success response: the handler throws and the request ends in the
    error handler. *)
Theorem recording_failure_fails_request (env : Env) (req : Request)
    (hb : GenerateHintBody) (ab : AnalyzeCodeBody) (w : World) (e : Err) :
  analytics_fault (faults w) = Some e ->
  (exists e', fst (generate_hint env req hb w) = Failed e')
  /\ (exists e', fst (analyze_code env req ab w) = Failed e').
Proof.
  intros Hf. split; apply catchAsync_raises.
  - apply raises_bind; [apply keeps_optionalAuth |]. intros req1 w1 H1.
    apply raises_bind; [apply keeps_extensionAuth |]. intros req2 w2 H2.
    apply raises_bind; [apply keeps_validateRequest |]. intros _ w3 H3.
    apply raises_generate_hint_handler with (e := e).
    rewrite H3, H2, H1. exact Hf.
  - apply raises_bind; [apply keeps_optionalAuth |]. intros req1 w1 H1.
    apply raises_bind; [apply keeps_extensionAuth |]. intros req2 w2 H2.
    apply raises_bind; [apply keeps_validateRequest |]. intros _ w3 H3.
    apply raises_analyze_code_handler with (e := e).
    rewrite H3, H2, H1. exact Hf.
Qed.

Lemma recording_failure_fails_request_witness :
  exists e',
    fst (generate_hint (Sample.env "Store what you have seen.")
           (Sample.extension_request (Some Sample.S1)) Sample.second_hint
           Sample.analytics_down) = Failed e'.
Proof.
  apply (recording_failure_fails_request (Sample.env "Store what you have seen.")
           (Sample.extension_request (Some Sample.S1)) Sample.second_hint
           {| a_problemTitle := "Two Sum"; a_userCode := "return 0";
              a_platform := "leetcode"; a_problemStatement := None |}
           Sample.analytics_down Sample.storage_down).
  reflexivity.
Defined.

End Recording.

(** ** Account lockout *)

Section Lockout.

Import Http Auth AuthRoutes.

(** [checkAccountLock] reads [email] and [username]; a login request
    carries [identifier], so for it the middleware does nothing. *)
Lemma checkAccountLock_ignores_identifier (body : LoginBody) (w : World) :
  email body = None -> username body = None ->
  checkAccountLock body w = (Ok tt, w).
Proof. intros He Hu. unfold checkAccountLock. rewrite He, Hu. reflexivity. Qed.

(** A login that names the account in [identifier] and carries the
    right password succeeds whatever [lockUntil] says. *)
Lemma login_ignores_lock (cfg : Config.t) (body : LoginBody) (ident pw : string)
    (u : User.t) (w : World) :
  email body = None -> username body = None ->
  identifier body = Some ident -> password body = Some pw ->
  user_fault (faults w) = None ->
  User.findByEmailOrUsername ident (users w) = Some u ->
  User.comparePassword pw u = true -> User.isActive u = true ->
  fst (login cfg body w)
  = Json 200 (TokenBody (signToken cfg (clock w) (User._id u)) (publicUser u)).
Proof.
  intros He Hu Hi Hp Hf Hfind Hpw Hact.
  unfold login, catchAsync.
  unfold bind at 1. rewrite (checkAccountLock_ignores_identifier body w He Hu).
  unfold login_handler. rewrite Hi, Hp.
  cbv [Store.User_findByEmailOrUsername Store.guard Store.now Store.User_updateOne
       bind gets throw ret modify when log createSendToken].
  rewrite Hf. cbv beta iota. rewrite Hfind. cbv beta iota. rewrite Hpw, Hact.
  cbn [negb].
  destruct (0 <? User.loginAttempts (User.security u));
    cbn -[signToken publicUser User.updateById]; rewrite ?Hf;
    cbn -[signToken publicUser User.updateById]; rewrite ?Hf; reflexivity.
Qed.

(** A failed login on an account that is not locked and has reached
    the last allowed attempt sets [lockUntil]. *)
Lemma last_attempt_locks (cfg : Config.t) (now : Z) (u : User.t) :
  User.lockUntil (User.security u) = None ->
  Config.maxLoginAttempts cfg <= User.loginAttempts (User.security u) + 1 ->
  User.security (User.incrementLoginAttempts cfg now u u)
  = {| User.loginAttempts := User.loginAttempts (User.security u) + 1;
       User.lockUntil := Some (now + Config.lockoutTime cfg);
       User.passwordChangedAt := User.passwordChangedAt (User.security u) |}.
Proof.
  intros Hnone Hmax. unfold User.incrementLoginAttempts, User.isLocked.
  rewrite Hnone. apply Z.leb_le in Hmax. rewrite Hmax. reflexivity.
Qed.

Example four_wrong_logins_do_not_lock :
  Sample.security_of (Sample.wrong_logins 4 (Sample.registered 0))
  = Some {| User.loginAttempts := 4; User.lockUntil := None;
            User.passwordChangedAt := Some 0 |}.
Proof. vm_compute. reflexivity. Qed.

(** The lock is reported when the request names the account in [email]. *)
Example locked_when_email_is_sent :
  fst (Sample.login_after
         {| email := Some "alice@x.com"; username := None;
            identifier := Some "alice"; password := Some "password123" |}
         (Sample.wrong_logins 5 (Sample.registered 0)))
  = Failed (AccountLocked 30).
Proof. vm_compute. reflexivity. Qed.

(** C1. Five logins with a wrong password lock alice's account until
    1805 s; the sixth login, a second later and with the right password,
    is not refused with [AccountLocked]: it succeeds, returns a token and
    clears the lock. *)
Theorem locked_account_logs_in :
  let locked := Sample.wrong_logins 5 (Sample.registered 0) in
  clock locked = 5000
  /\ Sample.security_of locked
     = Some {| User.loginAttempts := 5; User.lockUntil := Some 1805000;
               User.passwordChangedAt := Some 0 |}
  /\ (let '(response, w) := Sample.login_after (Sample.login_body "password123") locked in
      response
      = Json 200 (TokenBody (Signed {| id := 1; iat := 6; exp := 604806 |})
                    (publicUser Sample.alice))
      /\ Sample.security_of w
         = Some {| User.loginAttempts := 0; User.lockUntil := None;
                   User.passwordChangedAt := Some 0 |}).
Proof. vm_compute. repeat split. Qed.

End Lockout.

(** ** Tokens and password changes *)

Section Tokens.

Import Http Auth AuthRoutes.

Example no_token :
  fst (verifyToken (Sample.extension_request None) (Sample.registered 0)) = Raise NotLoggedIn.
Proof. reflexivity. Qed.

Example expired_token :
  fst (verifyToken (Sample.bearer_request Sample.token_10100)
         (Sample.registered (8 * 24 * 60 * 60 * 1000)))
  = Raise (JsError "TokenExpiredError" "jwt expired").
Proof. vm_compute. reflexivity. Qed.

Example token_of_login :
  fst (login Config.default (Sample.login_body "password123") (Sample.registered 10100))
  = Json 200 (TokenBody Sample.token_10100 (publicUser Sample.alice)).
Proof. vm_compute. reflexivity. Qed.

Example password_change_accepted :
  fst Sample.password_changed_10900 = Json 200 (MessageBody "Password updated successfully")
  /\ Sample.security_of (snd Sample.password_changed_10900)
     = Some {| User.loginAttempts := 0; User.lockUntil := None;
               User.passwordChangedAt := Some 10900 |}.
Proof. vm_compute. split; reflexivity. Qed.

(** C2, against the claim: a token issued at 10.1 s is still accepted
    after the password was changed at 10.9 s, the issue time and the
    change falling in the same second. *)
Lemma same_second_token_accepted :
  Sample.token_10100 = Signed {| id := 1; iat := 10; exp := 604810 |}
  /\ Sample.security_of (snd Sample.password_changed_10900)
     = Some {| User.loginAttempts := 0; User.lockUntil := None;
               User.passwordChangedAt := Some 10900 |}
  /\ (exists req,
         fst (verifyToken (Sample.bearer_request Sample.token_10100)
                (with_clock 11500 (snd Sample.password_changed_10900)))
         = Ok req
         /\ (User._id <$> user req) = Some 1%nat).
Proof.
  split; [reflexivity |]. split; [vm_compute; reflexivity |].
  eexists. split; vm_compute; reflexivity.
Qed.

Lemma pre_save_password_fields (t1 : Z) (plain : string) (u : User.t) :
  User.isActive (User.pre_save_password t1 plain u) = User.isActive u
  /\ User._id (User.pre_save_password t1 plain u) = User._id u
  /\ User.passwordChangedAt (User.security (User.pre_save_password t1 plain u)) = Some t1.
Proof. repeat split. Qed.

(** C2, as the code has it. The issue time of a token is in whole
    seconds and the change time is truncated to whole seconds before
    the comparison. A token issued at [t0] for an account whose password
    was changed at [t1], in a later second than [t0], is never accepted
    by [verifyToken]; the failure is [Superseded] when the token has not
    expired and the account is active. *)
Theorem verifyToken_superseded (cfg : Config.t) (t0 t1 : Z) (plain : string)
    (u : User.t) (req : Request) (a : AuthHeader) (w : World) :
  authorization (headers req) = Some a ->
  JS.startsWith (scheme a) "Bearer" = true ->
  credentials a = Some (signToken cfg t0 (User._id u)) ->
  user_fault (faults w) = None ->
  User.findById (User._id u) (users w) = Some (User.pre_save_password t1 plain u) ->
  0 <= t0 -> t0 / 1000 < t1 / 1000 ->
  (exists e, verifyToken req w = (Raise e, w))
  /\ (clock w / 1000 < t0 / 1000 + Config.jwt_expiresIn cfg ->
      User.isActive u = true ->
      verifyToken req w = (Raise Superseded, w)).
Proof.
  intros Hauth Hscheme Hcred Hfault Hfind Ht0 Hlater.
  assert (Ht1 : 0 <= t1).
  { destruct (Z.lt_ge_cases t1 0) as [Hneg|]; [| assumption].
    assert (t1 / 1000 < 0) by (apply Z.div_lt_upper_bound; lia).
    assert (0 <= t0 / 1000) by (apply Z.div_pos; lia). lia. }
  assert (Hcmp : (t0 / 1000 <? JS.parseInt_div t1 1000) = true).
  { unfold JS.parseInt_div. rewrite Z.quot_div_nonneg by lia. apply Z.ltb_lt. exact Hlater. }
  unfold verifyToken, bearer. rewrite Hauth, Hscheme, Hcred.
  cbv [signToken jwt_verify Store.now Store.User_findById Store.guard
       bind gets lift throw ret exp id iat].
  rewrite Hfault.
  destruct (t0 / 1000 + Config.jwt_expiresIn cfg <=? clock w / 1000) eqn:Hexp.
  - split; [eauto |]. intros Hfresh. apply Z.leb_le in Hexp. lia.
  - cbv beta iota. rewrite Hfind.
    destruct (pre_save_password_fields t1 plain u) as [Hact [_ Hchanged]].
    rewrite Hact, Hchanged, Hcmp.
    destruct (User.isActive u); cbn [negb].
    + split; [eauto | reflexivity].
    + split; [eauto | discriminate].
Qed.

Lemma verifyToken_superseded_witness :
  verifyToken (Sample.bearer_request Sample.token_10100)
    (with_clock 12000
       (with_users [User.pre_save_password 11000 "correct horse" Sample.alice]
          (Sample.registered 0)))
  = (Raise Superseded,
     with_clock 12000
       (with_users [User.pre_save_password 11000 "correct horse" Sample.alice]
          (Sample.registered 0))).
Proof.
  apply (verifyToken_superseded Config.default 10100 11000 "correct horse" Sample.alice
           (Sample.bearer_request Sample.token_10100)
           {| scheme := "Bearer"; credentials := Some Sample.token_10100 |});
    try reflexivity; vm_compute; congruence.
Defined.

End Tokens.

(** ** Overlapping hint requests *)

Section Appends.

Import Session Interleaving.






Ltac nat_cases :=
  repeat match goal with
         | |- context [Nat.eqb ?a ?b] => destruct (Nat.eqb_spec a b)
         | |- context [Nat.leb ?a ?b] => destruct (Nat.leb_spec a b)
         | |- context [Nat.ltb ?a ?b] => destruct (Nat.ltb_spec a b)
         end; simpl; try lia.

Lemma block_loads (time : nat -> Z) (r a n : nat) :
  length (List.filter (is_load r)
            (flat_map (fun r => [Load r; Save r (time r)]) (seq a n)))
  = (if (a <=? r)%nat && (r <? a + n)%nat then 1 else 0)%nat
  /\ position (is_load r) (flat_map (fun r => [Load r; Save r (time r)]) (seq a n))
     = (if (a <=? r)%nat && (r <? a + n)%nat then 2 * (r - a) else 2 * n)%nat.
Proof.
  revert a. induction n as [|n IH]; intros a.
  - simpl. nat_cases; split; reflexivity.
  - destruct (IH (S a)) as [IHl IHp]. simpl. rewrite IHp. split.
    + destruct (Nat.eqb_spec r a); simpl; rewrite IHl; nat_cases.
    + nat_cases.
Qed.

Lemma block_saves (time : nat -> Z) (r a n : nat) :
  length (List.filter (is_save r)
            (flat_map (fun r => [Load r; Save r (time r)]) (seq a n)))
  = (if (a <=? r)%nat && (r <? a + n)%nat then 1 else 0)%nat
  /\ position (is_save r) (flat_map (fun r => [Load r; Save r (time r)]) (seq a n))
     = (if (a <=? r)%nat && (r <? a + n)%nat then 2 * (r - a) + 1 else 2 * n)%nat.
Proof.
  revert a. induction n as [|n IH]; intros a.
  - simpl. nat_cases; split; reflexivity.
  - destruct (IH (S a)) as [IHl IHp]. simpl. rewrite IHp. split.
    + destruct (Nat.eqb_spec r a); simpl; rewrite IHl; nat_cases.
    + nat_cases.
Qed.

(** Running the requests one after the other is one of the
    interleavings. *)
Lemma sequential_interleaves (time : nat -> Z) (n : nat) :
  interleaves n (sequential time n) = true.
Proof.
  unfold interleaves, sequential. apply andb_true_intro. split.
  - apply forallb_forall. intros e He.
    apply in_flat_map in He as [r [Hr He]]. apply in_seq in Hr.
    apply Nat.ltb_lt.
    destruct He as [<- | [<- | []]]; simpl; lia.
  - apply forallb_forall. intros r Hr. apply in_seq in Hr.
    destruct (block_loads time r 0 n) as [Hl Hpl].
    destruct (block_saves time r 0 n) as [Hs Hps].
    rewrite Hl, Hs, Hpl, Hps.
    replace ((0 <=? r)%nat && (r <? 0 + n)%nat) with true
      by (symmetry; apply andb_true_intro; split;
          [apply Nat.leb_le | apply Nat.ltb_lt]; lia).
    simpl. apply Nat.ltb_lt. lia.
Qed.

Example overlapping_is_an_interleaving : interleaves 2 Sample.overlapping = true.
Proof. reflexivity. Qed.




End Appends.

(** * Further properties *)

(** ** The login counter *)

Section Counter.

Import User.

Lemma failed_attempts_app (cfg : Config.t) (ts ts' : list Z) (u : t) :
  failed_attempts cfg (ts ++ ts') u = failed_attempts cfg ts' (failed_attempts cfg ts u).
Proof. unfold failed_attempts. apply fold_left_app. Qed.

(** Below the threshold failed logins only count. *)
Lemma failed_attempts_count (cfg : Config.t) (ts : list Z) (u : t) :
  lockUntil (security u) = None ->
  loginAttempts (security u) + Z.of_nat (length ts) < Config.maxLoginAttempts cfg ->
  security (failed_attempts cfg ts u)
  = {| loginAttempts := loginAttempts (security u) + Z.of_nat (length ts);
       lockUntil := None;
       passwordChangedAt := passwordChangedAt (security u) |}.
Proof.
  revert u. induction ts as [|t ts IH]; intros u Hnone Hlt.
  - simpl. rewrite Z.add_0_r. destruct u as [? ? ? ? ? [? ? ?] ? ? ?]. simpl in *.
    subst. reflexivity.
  - change (failed_attempts cfg (t :: ts) u)
      with (failed_attempts cfg ts (incrementLoginAttempts cfg t u u)).
    simpl length in Hlt. rewrite Nat2Z.inj_succ in Hlt.
    assert (Hstep : security (incrementLoginAttempts cfg t u u)
                    = {| loginAttempts := loginAttempts (security u) + 1;
                         lockUntil := None;
                         passwordChangedAt := passwordChangedAt (security u) |}).
    { unfold incrementLoginAttempts, isLocked. rewrite Hnone.
      replace (Config.maxLoginAttempts cfg <=? loginAttempts (security u) + 1) with false
        by (symmetry; apply Z.leb_gt; lia).
      reflexivity. }
    rewrite IH; rewrite Hstep; simpl; [| reflexivity | lia].
    simpl length. rewrite Nat2Z.inj_succ. f_equal. lia.
Qed.

(** X1. On an account without a lock, failed logins below the
    configured maximum only count up; the failure that reaches the
    maximum sets [lockUntil] to its own time plus the lockout time. *)
Theorem lockout_counter (cfg : Config.t) (ts : list Z) (t : Z) (u : User.t) :
  lockUntil (security u) = None ->
  loginAttempts (security u) + Z.of_nat (length ts) + 1 = Config.maxLoginAttempts cfg ->
  security (failed_attempts cfg ts u)
  = {| loginAttempts := loginAttempts (security u) + Z.of_nat (length ts);
       lockUntil := None;
       passwordChangedAt := passwordChangedAt (security u) |}
  /\ security (failed_attempts cfg (ts ++ [t]) u)
     = {| loginAttempts := Config.maxLoginAttempts cfg;
          lockUntil := Some (t + Config.lockoutTime cfg);
          passwordChangedAt := passwordChangedAt (security u) |}.
Proof.
  intros Hnone Hmax.
  assert (Hbefore := failed_attempts_count cfg ts u Hnone ltac:(lia)).
  split; [exact Hbefore |].
  rewrite failed_attempts_app. simpl.
  unfold incrementLoginAttempts, isLocked. rewrite Hbefore. simpl.
  replace (Config.maxLoginAttempts cfg
           <=? loginAttempts (security u) + Z.of_nat (length ts) + 1) with true
    by (symmetry; apply Z.leb_le; lia).
  simpl. rewrite Hmax. reflexivity.
Qed.

Lemma lockout_counter_witness :
  security (failed_attempts Config.default [1000; 2000; 3000; 4000; 5000] Sample.alice)
  = {| loginAttempts := 5; lockUntil := Some 1805000; passwordChangedAt := Some 0 |}.
Proof.
  apply (lockout_counter Config.default [1000; 2000; 3000; 4000] 5000 Sample.alice);
    reflexivity.
Defined.

(** X2. While the lock holds, failed logins count up and leave
    [lockUntil] where it is: the lock is not extended. *)
Theorem lock_is_not_extended (cfg : Config.t) (ts : list Z) (l : Z) (u : User.t) :
  lockUntil (security u) = Some l ->
  Forall (fun t => t < l) ts ->
  security (failed_attempts cfg ts u)
  = {| loginAttempts := loginAttempts (security u) + Z.of_nat (length ts);
       lockUntil := Some l;
       passwordChangedAt := passwordChangedAt (security u) |}.
Proof.
  revert u. induction ts as [|t ts IH]; intros u Hl Hts.
  - simpl. rewrite Z.add_0_r. destruct u as [? ? ? ? ? [? ? ?] ? ? ?]. simpl in *.
    subst. reflexivity.
  - change (failed_attempts cfg (t :: ts) u)
      with (failed_attempts cfg ts (incrementLoginAttempts cfg t u u)).
    apply Forall_cons in Hts as [Ht Hts].
    assert (Hstep : security (incrementLoginAttempts cfg t u u)
                    = {| loginAttempts := loginAttempts (security u) + 1;
                         lockUntil := Some l;
                         passwordChangedAt := passwordChangedAt (security u) |}).
    { unfold incrementLoginAttempts, isLocked. rewrite Hl.
      replace (l <? t) with false by (symmetry; apply Z.ltb_ge; lia).
      replace (t <? l) with true by (symmetry; apply Z.ltb_lt; lia).
      rewrite andb_false_r. reflexivity. }
    rewrite IH; rewrite ?Hstep; simpl; [| reflexivity | exact Hts].
    simpl length. rewrite Nat2Z.inj_succ. f_equal. lia.
Qed.

Lemma lock_is_not_extended_witness :
  security (failed_attempts Config.default [6000; 7000]
              (failed_attempts Config.default [1000; 2000; 3000; 4000; 5000] Sample.alice))
  = {| loginAttempts := 7; lockUntil := Some 1805000; passwordChangedAt := Some 0 |}.
Proof.
  apply (lock_is_not_extended Config.default [6000; 7000] 1805000
           (failed_attempts Config.default [1000; 2000; 3000; 4000; 5000] Sample.alice)).
  - reflexivity.
  - repeat constructor.
Defined.

(** X3. The first failed login after the lock has run out discards
    the old count: it sets [loginAttempts] to 1 and removes
    [lockUntil], so the account locks again only after the full number
    of failures. *)
Theorem expired_lock_restarts_counter (cfg : Config.t) (t : Z) (ts : list Z) (l : Z)
    (u : User.t) :
  lockUntil (security u) = Some l -> l < t ->
  1 + Z.of_nat (length ts) < Config.maxLoginAttempts cfg ->
  security (failed_attempts cfg (t :: ts) u)
  = {| loginAttempts := 1 + Z.of_nat (length ts);
       lockUntil := None;
       passwordChangedAt := passwordChangedAt (security u) |}.
Proof.
  intros Hl Hexp Hlt.
  change (failed_attempts cfg (t :: ts) u)
    with (failed_attempts cfg ts (incrementLoginAttempts cfg t u u)).
  assert (Hstep : security (incrementLoginAttempts cfg t u u)
                  = {| loginAttempts := 1; lockUntil := None;
                       passwordChangedAt := passwordChangedAt (security u) |}).
  { unfold incrementLoginAttempts. rewrite Hl.
    replace (l <? t) with true by (symmetry; apply Z.ltb_lt; lia). reflexivity. }
  rewrite failed_attempts_count; rewrite Hstep; simpl; [reflexivity | reflexivity | lia].
Qed.

Lemma expired_lock_restarts_counter_witness :
  security (failed_attempts Config.default [2000000; 2001000]
              (failed_attempts Config.default [1000; 2000; 3000; 4000; 5000] Sample.alice))
  = {| loginAttempts := 2; lockUntil := None; passwordChangedAt := Some 0 |}.
Proof.
  apply (expired_lock_restarts_counter Config.default 2000000 [2001000] 1805000
           (failed_attempts Config.default [1000; 2000; 3000; 4000; 5000] Sample.alice));
    reflexivity.
Defined.

End Counter.

(** ** Logging in and presenting a token *)

Section Access.

Import Http Auth AuthRoutes.

Ltac run :=
  cbv [bind gets throw ret modify lift when log try_catchM catchAsync
       Store.now Store.guard Store.User_findById Store.User_findByEmailOrUsername
       Store.User_updateOne].

Ltac split_matches H :=
  repeat match type of H with
         | context [match ?x with _ => _ end] => destruct x eqn:?
         end.



(** X5. When [checkAccountLock] finds the account of the request
    locked it refuses with the minutes left, rounded up: at least one,
    and the true remaining time lies in the last of those minutes. *)
Theorem checkAccountLock_minutes (body : LoginBody) (ident : string) (u : User.t)
    (l : Z) (w : World) :
  JS.or_else (email body) (JS.truthy (username body)) = Some ident ->
  user_fault (faults w) = None ->
  User.findByEmailOrUsername ident (users w) = Some u ->
  User.lockUntil (User.security u) = Some l ->
  clock w < l ->
  exists minutes,
    checkAccountLock body w
    = (Raise (AccountLocked minutes),
       with_logs (logs w ++ [{| level := "warn";
                                message := "login_attempt_locked_account" |}]) w)
    /\ 1 <= minutes
    /\ 60000 * (minutes - 1) < l - clock w <= 60000 * minutes.
Proof.
  intros Hid Hf Hfind Hl Hlocked.
  exists (JS.ceil_div (l - clock w) 60000). split.
  - unfold checkAccountLock. rewrite Hid. run.
    rewrite Hf. cbv beta iota. rewrite Hfind. cbv beta iota. rewrite Hl.
    unfold User.isLocked. rewrite Hl.
    replace (clock w <? l) with true by (symmetry; apply Z.ltb_lt; lia).
    reflexivity.
  - unfold JS.ceil_div.
    pose proof (Z.div_mod (- (l - clock w)) 60000 ltac:(lia)) as Hdm.
    pose proof (Z.mod_pos_bound (- (l - clock w)) 60000 ltac:(lia)) as Hmod.
    lia.
Qed.

Lemma checkAccountLock_minutes_witness :
  exists minutes,
    fst (checkAccountLock
           {| email := Some "alice@x.com"; username := None; identifier := None;
              password := None |}
           (Sample.wrong_logins 5 (Sample.registered 0)))
    = Raise (AccountLocked minutes)
    /\ 1 <= minutes.
Proof.
  destruct (checkAccountLock_minutes
              {| email := Some "alice@x.com"; username := None; identifier := None;
                 password := None |}
              "alice@x.com"
              (User.failed_attempts Config.default [1000; 2000; 3000; 4000; 5000]
                 Sample.alice)
              1805000 (Sample.wrong_logins 5 (Sample.registered 0)))
    as [m [Hrun [Hm _]]]; try (vm_compute; congruence).
  exists m. rewrite Hrun. split; [reflexivity | exact Hm].
Defined.

(** An account that is not locked passes [checkAccountLock]. *)
Lemma checkAccountLock_passes (body : LoginBody) (ident : string) (u : User.t) (w : World) :
  JS.or_else (email body) (JS.truthy (username body)) = Some ident ->
  user_fault (faults w) = None ->
  User.findByEmailOrUsername ident (users w) = Some u ->
  User.isLocked (clock w) u = false ->
  checkAccountLock body w = (Ok tt, w).
Proof.
  intros Hid Hf Hfind Hfree.
  unfold checkAccountLock. rewrite Hid. run.
  rewrite Hf. cbv beta iota. rewrite Hfind. cbv beta iota.
  destruct (User.lockUntil (User.security u)); [rewrite Hfree |]; reflexivity.
Qed.

Lemma touch_fields (now : Z) (u : User.t) :
  User._id (User.touch now u) = User._id u
  /\ User.role (User.touch now u) = User.role u
  /\ User.isActive (User.touch now u) = User.isActive u
  /\ User.security (User.touch now u) = User.security u
  /\ User.lastActive (User.stats (User.touch now u)) = Some now.
Proof. repeat split. Qed.

(** X6. A token signed for an active account is accepted from its
    issue until [expiresIn] seconds after it, as long as the password
    was not changed in a later second than the issue: the request goes
    on with the account as [req.user] and the account's [lastActive] is
    set to the current time. From the expiry second on the token is
    refused as expired. *)
Theorem token_lifetime (cfg : Config.t) (t0 : Z) (u : User.t) (req : Request)
    (a : AuthHeader) (w : World) :
  authorization (headers req) = Some a ->
  JS.startsWith (scheme a) "Bearer" = true ->
  credentials a = Some (signToken cfg t0 (User._id u)) ->
  user_fault (faults w) = None ->
  User.findById (User._id u) (users w) = Some u ->
  User.isActive u = true ->
  match User.passwordChangedAt (User.security u) with
  | Some changed => JS.parseInt_div changed 1000 <= t0 / 1000
  | None => True
  end ->
  (clock w / 1000 < t0 / 1000 + Config.jwt_expiresIn cfg ->
   verifyToken req w
   = (Ok (with_user (Some (User.touch (clock w) u)) req),
      with_users (User.updateById (User._id u) (User.touch (clock w)) (users w)) w))
  /\ (t0 / 1000 + Config.jwt_expiresIn cfg <= clock w / 1000 ->
      verifyToken req w = (Raise (JsError "TokenExpiredError" "jwt expired"), w)).
Proof.
  intros Hauth Hscheme Hcred Hf Hfind Hact Hpw.
  unfold verifyToken, bearer. rewrite Hauth, Hscheme, Hcred.
  cbv [signToken jwt_verify exp id iat]. run.
  split; intros Htime.
  - replace (t0 / 1000 + Config.jwt_expiresIn cfg <=? clock w / 1000) with false
      by (symmetry; apply Z.leb_gt; lia).
    rewrite Hf. cbv beta iota. rewrite Hfind. cbv beta iota. rewrite Hact. cbn [negb].
    destruct (User.passwordChangedAt (User.security u)) as [changed|].
    + replace (t0 / 1000 <? JS.parseInt_div changed 1000) with false
        by (symmetry; apply Z.ltb_ge; lia).
      cbn -[User.updateById User.touch]. rewrite Hf. reflexivity.
    + cbn -[User.updateById User.touch]. rewrite Hf. reflexivity.
  - replace (t0 / 1000 + Config.jwt_expiresIn cfg <=? clock w / 1000) with true
      by (symmetry; apply Z.leb_le; lia).
    reflexivity.
Qed.

Lemma token_lifetime_witness :
  fst (verifyToken (Sample.bearer_request Sample.token_10100)
         (Sample.registered (3 * 24 * 60 * 60 * 1000)))
  = Ok (with_user (Some (User.touch (3 * 24 * 60 * 60 * 1000) Sample.alice))
          (Sample.bearer_request Sample.token_10100)).
Proof.
  assert (Hpw : match User.passwordChangedAt (User.security Sample.alice) with
                | Some changed => JS.parseInt_div changed 1000 <= 10100 / 1000
                | None => True
                end) by (vm_compute; congruence).
  pose proof (token_lifetime Config.default 10100 Sample.alice
                (Sample.bearer_request Sample.token_10100)
                {| scheme := "Bearer"; credentials := Some Sample.token_10100 |}
                (Sample.registered (3 * 24 * 60 * 60 * 1000))
                eq_refl eq_refl eq_refl eq_refl eq_refl eq_refl Hpw) as [Hok _].
  rewrite Hok; [reflexivity | vm_compute; reflexivity].
Defined.

End Access.

(** ** What the token middlewares let through *)

Section Guards.

Import Http Auth.

Ltac run :=
  cbv [bind gets throw ret modify lift when log try_catchM
       Store.now Store.guard Store.User_findById Store.User_updateOne].

(** X7. [verifyToken] lets a request through only with a token signed
    for a stored, active account that has not expired and is not older
    than the last password change; it then attaches that account and
    changes nothing in the world but the account's [lastActive]. When
    it refuses, the world is unchanged. *)
Theorem verifyToken_sound (req : Request) (w : World) :
  match verifyToken req w with
  | (Ok req', w') =>
      exists p u,
        bearer (authorization (headers req)) = Some (Signed p)
        /\ clock w / 1000 < exp p
        /\ User.findById (id p) (users w) = Some u
        /\ User.isActive u = true
        /\ match User.passwordChangedAt (User.security u) with
           | Some changed => JS.parseInt_div changed 1000 <= iat p
           | None => True
           end
        /\ req' = with_user (Some (User.touch (clock w) u)) req
        /\ w' = with_users (User.updateById (User._id u) (User.touch (clock w)) (users w)) w
  | (Raise _, w') => w' = w
  end.
Proof.
  unfold verifyToken.
  destruct (bearer (authorization (headers req))) as [[p|]|]; try reflexivity.
  cbv [jwt_verify]. run.
  destruct (exp p <=? clock w / 1000) eqn:Hexp; [reflexivity |].
  destruct (user_fault (faults w)) eqn:Hf; [reflexivity |].
  cbv beta iota.
  destruct (User.findById (id p) (users w)) as [u|] eqn:Hfind; [| reflexivity].
  cbv beta iota.
  destruct (User.isActive u) eqn:Hact; [| reflexivity]. cbn [negb].
  assert (Hok : forall changed_ok : match User.passwordChangedAt (User.security u) with
                                    | Some changed => JS.parseInt_div changed 1000 <= iat p
                                    | None => True
                                    end,
             exists p0 u0,
               Some (Signed p) = Some (Signed p0)
               /\ clock w / 1000 < exp p0
               /\ User.findById (id p0) (users w) = Some u0
               /\ User.isActive u0 = true
               /\ match User.passwordChangedAt (User.security u0) with
                  | Some changed => JS.parseInt_div changed 1000 <= iat p0
                  | None => True
                  end
               /\ with_user (Some (User.touch (clock w) u)) req
                  = with_user (Some (User.touch (clock w) u0)) req
               /\ with_users (User.updateById (User._id u) (User.touch (clock w)) (users w)) w
                  = with_users (User.updateById (User._id u0) (User.touch (clock w)) (users w)) w).
  { intros Hc. exists p, u. apply Z.leb_gt in Hexp. repeat split; try assumption; lia. }
  destruct (User.passwordChangedAt (User.security u)) as [changed|] eqn:Hchanged.
  - destruct (iat p <? JS.parseInt_div changed 1000) eqn:Hcmp; [reflexivity |].
    cbn -[User.updateById User.touch]. rewrite Hf.
    apply Hok. apply Z.ltb_ge in Hcmp. exact Hcmp.
  - cbn -[User.updateById User.touch]. rewrite Hf. apply Hok. exact I.
Qed.

(** X8. [optionalAuth] never refuses a request and never changes its
    headers; and it does not look at [passwordChangedAt]: a token of an
    active account that has not expired attaches the account even when
    the password was changed after the token was issued. *)
Theorem optionalAuth_never_refuses (cfg : Config.t) (req : Request) (w : World) :
  (exists req' w', optionalAuth req w = (Ok req', w') /\ headers req' = headers req)
  /\ (forall t0 u a,
        authorization (headers req) = Some a ->
        JS.startsWith (scheme a) "Bearer" = true ->
        credentials a = Some (signToken cfg t0 (User._id u)) ->
        user_fault (faults w) = None ->
        User.findById (User._id u) (users w) = Some u ->
        User.isActive u = true ->
        clock w / 1000 < t0 / 1000 + Config.jwt_expiresIn cfg ->
        fst (optionalAuth req w) = Ok (with_user (Some (User.touch (clock w) u)) req)).
Proof.
  split.
  - unfold optionalAuth.
    destruct (bearer (authorization (headers req))) as [tok|]; [| eauto].
    cbv [jwt_verify]. run.
    destruct tok as [p|]; [| eauto].
    destruct (exp p <=? clock w / 1000); [eauto |].
    destruct (user_fault (faults w)) eqn:Hf; [eauto |].
    cbv beta iota.
    destruct (User.findById (id p) (users w)) as [u|]; [| eauto].
    cbv beta iota.
    destruct (User.isActive u); [| eauto].
    rewrite Hf. cbv beta iota. eauto.
  - intros t0 u a Hauth Hscheme Hcred Hf Hfind Hact Htime.
    unfold optionalAuth, bearer. rewrite Hauth, Hscheme, Hcred.
    cbv [signToken jwt_verify exp id iat]. run.
    replace (t0 / 1000 + Config.jwt_expiresIn cfg <=? clock w / 1000) with false
      by (symmetry; apply Z.leb_gt; lia).
    rewrite Hf. cbv beta iota. rewrite Hfind. cbv beta iota. rewrite Hact.
    rewrite Hf. reflexivity.
Qed.

Lemma optionalAuth_never_refuses_witness :
  fst (optionalAuth (Sample.bearer_request Sample.token_10100)
         (with_clock 11500 (snd Sample.password_changed_10900)))
  = Ok (with_user
          (Some (User.touch 11500
                   (User.pre_save_password 10900 "correct horse"
                      (User.touch 10900
                         (User.updateStats 10100 "session" Sample.alice Sample.alice)))))
          (Sample.bearer_request Sample.token_10100)).
Proof.
  apply (proj2 (optionalAuth_never_refuses Config.default
                  (Sample.bearer_request Sample.token_10100)
                  (with_clock 11500 (snd Sample.password_changed_10900)))
           10100
           (User.pre_save_password 10900 "correct horse"
              (User.touch 10900
                 (User.updateStats 10100 "session" Sample.alice Sample.alice)))
           {| scheme := "Bearer"; credentials := Some Sample.token_10100 |});
    vm_compute; congruence.
Defined.

(** A request that [verifyToken] lets through carries a stored
    account. *)
Lemma verifyToken_attaches (req req' : Request) (w w' : World) :
  verifyToken req w = (Ok req', w') ->
  exists u, req' = with_user (Some (User.touch (clock w) u)) req.
Proof.
  unfold verifyToken.
  destruct (bearer (authorization (headers req))) as [[p|]|]; try discriminate.
  cbv [jwt_verify]. run.
  destruct (exp p <=? clock w / 1000); [discriminate |].
  destruct (user_fault (faults w)) eqn:Hf; [discriminate |].
  cbv beta iota.
  destruct (User.findById (id p) (users w)) as [u|]; [| discriminate].
  cbv beta iota.
  destruct (User.isActive u); [| discriminate]. cbn [negb].
  destruct (User.passwordChangedAt (User.security u)) as [changed|].
  - destruct (iat p <? JS.parseInt_div changed 1000); [discriminate |].
    cbn -[User.updateById User.touch]. rewrite Hf.
    intros H. injection H as <- _. eauto.
  - cbn -[User.updateById User.touch]. rewrite Hf.
    intros H. injection H as <- _. eauto.
Qed.

(** X9. The admin chain lets a request through only for an account
    whose role is [admin], and the moderator chain only for a moderator
    or an admin; either attaches that account to the request. *)
Theorem role_chains_sound (req : Request) (w : World) :
  (forall req' w', adminOnly req w = (Ok req', w') ->
     exists u, user req' = Some u /\ User.role u = "admin")
  /\ (forall req' w', moderatorOrAdmin req w = (Ok req', w') ->
        exists u, user req' = Some u
                  /\ (User.role u = "moderator" \/ User.role u = "admin")).
Proof.
  split; intros req' w' H.
  - unfold adminOnly, bind in H.
    destruct (verifyToken req w) as [[req1|e] w1] eqn:Hv; [| discriminate H].
    destruct (verifyToken_attaches req req1 w w1 Hv) as [u ->].
    unfold restrictTo in H. cbn [user with_user] in H.
    destruct (bool_decide (User.role (User.touch (clock w) u) ∈ ["admin"])) eqn:Hrole;
      [| discriminate H].
    injection H as <- _. eexists. split; [reflexivity |].
    apply bool_decide_eq_true_1, list_elem_of_In in Hrole.
    destruct Hrole as [Hr | []]. symmetry. exact Hr.
  - unfold moderatorOrAdmin, bind in H.
    destruct (verifyToken req w) as [[req1|e] w1] eqn:Hv; [| discriminate H].
    destruct (verifyToken_attaches req req1 w w1 Hv) as [u ->].
    unfold restrictTo in H. cbn [user with_user] in H.
    destruct (bool_decide (User.role (User.touch (clock w) u) ∈ ["moderator"; "admin"]))
      eqn:Hrole; [| discriminate H].
    injection H as <- _. eexists. split; [reflexivity |].
    apply bool_decide_eq_true_1, list_elem_of_In in Hrole.
    destruct Hrole as [Hr | [Hr | []]]; [left | right]; symmetry; exact Hr.
Qed.

Lemma role_chains_sound_witness :
  exists req' w' u,
    adminOnly (Sample.bearer_request (signToken Config.default 10100 2))
      (Sample.seeded 20000) = (Ok req', w')
    /\ user req' = Some u /\ User.role u = "admin".
Proof.
  destruct (adminOnly (Sample.bearer_request (signToken Config.default 10100 2))
              (Sample.seeded 20000)) as [[req'|e] w'] eqn:H;
    [| vm_compute in H; discriminate H].
  destruct (proj1 (role_chains_sound (Sample.bearer_request (signToken Config.default 10100 2))
                     (Sample.seeded 20000)) req' w' H) as [u [Hu Hrole]].
  exists req', w', u. repeat split; assumption.
Defined.

Example user_is_not_admin :
  fst (adminOnly (Sample.bearer_request Sample.token_10100) (Sample.seeded 20000))
  = Raise Forbidden.
Proof. vm_compute. reflexivity. Qed.

End Guards.

(** ** Sessions: their methods and the sweep *)

Section Sessions.

Import Session.

Lemma call_step (s : t) (c : Z * Method) :
  (exists k, hints (call s c) = (hints s ++ k)%list
             /\ length k = if is_AddHint c then 1%nat else 0%nat)
  /\ (exists k, codeAnalyses (call s c) = (codeAnalyses s ++ k)%list
                /\ length k = if is_AddCodeAnalysis c then 1%nat else 0%nat)
  /\ (hintsRequested (metrics s) = length (hints s) ->
      hintsRequested (metrics (call s c)) = length (hints (call s c)))
  /\ (analysesRequested (metrics s) = length (codeAnalyses s) ->
      analysesRequested (metrics (call s c)) = length (codeAnalyses (call s c)))
  /\ (_id (call s c), userId (call s c), sessionId (call s c), problem (call s c),
      createdAt (call s c), startTime (metrics (call s c)))
     = (_id s, userId s, sessionId s, problem s, createdAt s, startTime (metrics s)).
Proof.
  destruct c as [now [d|d|b|d]]; unfold call, is_AddHint, is_AddCodeAnalysis; simpl.
  - repeat split; try (eexists; split; [reflexivity | reflexivity]); try tauto.
    exists []. rewrite app_nil_r. split; reflexivity.
  - repeat split; try (eexists; split; [reflexivity | reflexivity]); try tauto.
    exists []. rewrite app_nil_r. split; reflexivity.
  - repeat split; try tauto; exists []; rewrite app_nil_r; split; reflexivity.
  - repeat split; try tauto; exists []; rewrite app_nil_r; split; reflexivity.
Qed.

(** X10. Whatever methods are called on a session, in whatever order,
    the hints and analyses it had stay in place as a prefix of the ones
    it has afterwards, each [addHint] adds exactly one hint and each
    [addCodeAnalysis] one analysis, the two counters stay equal to the
    lengths of their arrays, and the identity, problem and start of the
    session do not change. *)
Theorem methods_append_only (l : list (Z * Method)) (s : t) :
  (exists k, hints (calls l s) = (hints s ++ k)%list
             /\ length k = length (List.filter is_AddHint l))
  /\ (exists k, codeAnalyses (calls l s) = (codeAnalyses s ++ k)%list
                /\ length k = length (List.filter is_AddCodeAnalysis l))
  /\ (hintsRequested (metrics s) = length (hints s) ->
      hintsRequested (metrics (calls l s)) = length (hints (calls l s)))
  /\ (analysesRequested (metrics s) = length (codeAnalyses s) ->
      analysesRequested (metrics (calls l s)) = length (codeAnalyses (calls l s)))
  /\ (_id (calls l s), userId (calls l s), sessionId (calls l s), problem (calls l s),
      createdAt (calls l s), startTime (metrics (calls l s)))
     = (_id s, userId s, sessionId s, problem s, createdAt s, startTime (metrics s)).
Proof.
  revert s. induction l as [|c l IH]; intros s.
  - simpl. repeat split; try tauto; exists []; rewrite app_nil_r; split; reflexivity.
  - change (calls (c :: l) s) with (calls l (call s c)).
    destruct (call_step s c) as ((k1 & Hh1 & Hl1) & (k2 & Ha1 & Hl2) & Hc1 & Hc2 & Hid1).
    destruct (IH (call s c)) as ((k3 & Hh & Hl3) & (k4 & Ha & Hl4) & Hc3 & Hc4 & Hid).
    split; [| split; [| split; [| split]]].
    + exists (k1 ++ k3)%list. rewrite Hh, Hh1, app_assoc. split; [reflexivity |].
      rewrite length_app, Hl1, Hl3. simpl. destruct (is_AddHint c); reflexivity.
    + exists (k2 ++ k4)%list. rewrite Ha, Ha1, app_assoc. split; [reflexivity |].
      rewrite length_app, Hl2, Hl4. simpl. destruct (is_AddCodeAnalysis c); reflexivity.
    + intros H. apply Hc3, Hc1, H.
    + intros H. apply Hc4, Hc2, H.
    + rewrite Hid. exact Hid1.
Qed.

Lemma methods_append_only_witness :
  let s := calls [(1000, AddHint (Sample.hint_data "a"));
                  (2000, AddFeedback {| fd_rating := Some 4; fd_comment := None;
                                        fd_helpful := Some true |});
                  (3000, AddHint (Sample.hint_data "b"));
                  (4000, EndSession true)] Sample.new_session in
  hintsRequested (metrics s) = length (hints s).
Proof.
  apply (methods_append_only
           [(1000, AddHint (Sample.hint_data "a"));
            (2000, AddFeedback {| fd_rating := Some 4; fd_comment := None;
                                  fd_helpful := Some true |});
            (3000, AddHint (Sample.hint_data "b"));
            (4000, EndSession true)] Sample.new_session).
  reflexivity.
Defined.

(** X11. Once [endSession] has run, the duration of the session is
    fixed: [sessionDuration] gives the stored [duration] whenever it is
    read, and that is the elapsed time rounded to the nearest second,
    within half a second of it. *)
Theorem ended_duration_is_fixed (now later : Z) (c : bool) (s : t) :
  sessionDuration later (endSession now c s)
  = JS.round_div (now - startTime (metrics s)) 1000
  /\ duration (metrics (endSession now c s))
     = Some (sessionDuration later (endSession now c s))
  /\ (let d := sessionDuration later (endSession now c s) in
      1000 * d - 500 <= now - startTime (metrics s) < 1000 * d + 500).
Proof.
  split; [reflexivity | split; [reflexivity |]].
  cbv zeta. change (sessionDuration later (endSession now c s))
    with (JS.round_div (now - startTime (metrics s)) 1000).
  unfold JS.round_div. generalize (now - startTime (metrics s)). intros e.
  pose proof (Z.div_mod (2 * e + 1000) (2 * 1000) ltac:(lia)) as Hdm.
  pose proof (Z.mod_pos_bound (2 * e + 1000) (2 * 1000) ltac:(lia)) as Hmod.
  lia.
Qed.

Example unended_duration_grows :
  sessionDuration 60000 Sample.new_session = 60
  /\ sessionDuration 7200000 Sample.new_session = 7200.
Proof. split; reflexivity. Qed.

(** X12. After the sweep no session created more than two hours
    before it is active; a session that is not active, or was created
    within the two hours, is left exactly as it was; the sweep neither
    adds nor removes a session, and running it twice at the same time
    is running it once. It goes by the creation time alone: a session
    is swept however recently a hint was added to it. *)
Theorem sweep_postcondition (now : Z) (c : Collection) :
  (forall sid s, cleanupAbandonedSessions now c !! sid = Some s ->
     status s = Active -> now - 2 * 60 * 60 * 1000 <= createdAt s)
  /\ (forall sid s, c !! sid = Some s ->
        status s <> Active \/ now - 2 * 60 * 60 * 1000 <= createdAt s ->
        cleanupAbandonedSessions now c !! sid = Some s)
  /\ (forall sid s, c !! sid = Some s ->
        status s = Active -> createdAt s < now - 2 * 60 * 60 * 1000 ->
        exists s', cleanupAbandonedSessions now c !! sid = Some s'
                   /\ status s' = Abandoned /\ isActive s' = false
                   /\ hints s' = hints s /\ metrics s' = metrics s)
  /\ dom (cleanupAbandonedSessions now c) = dom c
  /\ cleanupAbandonedSessions now (cleanupAbandonedSessions now c)
     = cleanupAbandonedSessions now c.
Proof.
  split; [| split; [| split; [| split]]].
  - intros sid s Hs Hact. unfold cleanupAbandonedSessions in Hs.
    rewrite lookup_fmap in Hs. destruct (c !! sid) as [s0|]; [| discriminate Hs].
    simpl in Hs. injection Hs as Hs.
    destruct (bool_decide (status s0 = Active)
              && (createdAt s0 <? now - 2 * 60 * 60 * 1000)) eqn:Hcond.
    + subst s. discriminate Hact.
    + subst s0. rewrite bool_decide_eq_true_2 in Hcond by exact Hact.
      simpl in Hcond. apply Z.ltb_ge in Hcond. exact Hcond.
  - intros sid s Hs Hkeep. unfold cleanupAbandonedSessions.
    rewrite lookup_fmap, Hs. simpl. f_equal.
    destruct Hkeep as [Hna | Hyoung].
    + rewrite bool_decide_eq_false_2 by exact Hna. reflexivity.
    + replace (createdAt s <? now - 2 * 60 * 60 * 1000) with false
        by (symmetry; apply Z.ltb_ge; exact Hyoung).
      rewrite andb_false_r. reflexivity.
  - intros sid s Hs Hact Hold. eexists. split.
    + eapply cleanup_abandons; eassumption.
    + repeat split.
  - unfold cleanupAbandonedSessions. apply dom_fmap_L.
  - unfold cleanupAbandonedSessions. rewrite <- map_fmap_compose.
    apply map_fmap_ext. intros sid s _. unfold compose.
    destruct (bool_decide (status s = Active)
              && (createdAt s <? now - 2 * 60 * 60 * 1000)) eqn:Hcond;
      [| rewrite Hcond; reflexivity].
    reflexivity.
Qed.

Lemma sweep_postcondition_witness :
  exists s',
    cleanupAbandonedSessions (3 * 60 * 60 * 1000)
      {[ Sample.S1 := addHint (3 * 60 * 60 * 1000 - 1) (Sample.hint_data "a")
                        Sample.new_session ]} !! Sample.S1 = Some s'
    /\ status s' = Abandoned.
Proof.
  destruct (proj1 (proj2 (proj2 (sweep_postcondition (3 * 60 * 60 * 1000)
              {[ Sample.S1 := addHint (3 * 60 * 60 * 1000 - 1) (Sample.hint_data "a")
                                Sample.new_session ]})))
              Sample.S1
              (addHint (3 * 60 * 60 * 1000 - 1) (Sample.hint_data "a") Sample.new_session))
    as [s' [Hs' [Hst _]]].
  - apply lookup_singleton_eq.
  - reflexivity.
  - reflexivity.
  - exists s'. split; assumption.
Defined.

End Sessions.

(** ** Resolving the session of a request *)

Section Resolve.

Import Http AIRoutes.

Ltac run :=
  cbv [bind gets throw ret modify lift when log try_catchM
       Store.now Store.guard Store.fresh_id Store.Session_findOne_active
       Store.Session_create Store.Analytics_recordEvent].

Lemma new_doc_valid (now : Z) (id : nat) (uid : option nat) (sid : string)
    (pd : Session.Problem) (md : Session.Metadata) :
  sid <> "" -> Session.title pd <> "" -> Session.platform pd ∈ Session.platforms ->
  Session.validate (Session.new_doc now id uid sid pd md) = true.
Proof.
  intros Hsid Htitle Hp. unfold Session.validate, Session.nonempty. simpl.
  rewrite (proj2 (String.eqb_neq sid "") Hsid).
  rewrite (proj2 (String.eqb_neq (Session.title pd) "") Htitle).
  rewrite bool_decide_eq_true_2 by exact Hp. reflexivity.
Qed.

Lemma resolve_existing (env : Env) (req : Request) (pd : Session.Problem)
    (ext : ExtensionInfo) (X : string) (s : Session.t) (w : World) :
  extensionInfo req = Some ext -> sessionId ext = Some X -> X <> "" ->
  session_fault (faults w) = None ->
  sessions w !! X = Some s -> Session.isActive s = true ->
  findOrCreateSession env req pd w = (Ok s, w).
Proof.
  intros Hext HX Hne Hf Hs Hact.
  unfold findOrCreateSession. rewrite Hext, HX. unfold JS.truthy.
  rewrite (proj2 (String.eqb_neq X "") Hne). run.
  rewrite Hf. cbv beta iota. unfold Session.findOne_active. rewrite Hs, Hact.
  reflexivity.
Qed.

(** X13. A request whose correlation id is new to the store (or that
    carries none, the drawn identifier being new) gets a session
    created for it: active, without hints, with the problem of the
    request, stored under that id, and announced by one
    [session_started] event. The next request with that id finds this
    session and changes nothing. *)
Theorem findOrCreate_creates (env : Env) (req req' : Request)
    (pd pd' : Session.Problem) (ext ext' : ExtensionInfo) (w : World) :
  let sid := default (uuid env) (JS.truthy (sessionId ext)) in
  let doc := Session.new_doc (clock w) (next_id w) (user_id req) sid pd
               {| Session.userAgent := user_agent (headers req);
                  Session.ipAddress := Some (ip req);
                  Session.extensionVersion := Some (version ext) |} in
  let w1 := with_events (events w ++ [session_started_event req ext pd doc (clock w)])
              (with_sessions (<[sid := doc]> (sessions w))
                 (with_next_id (S (next_id w)) w)) in
  extensionInfo req = Some ext ->
  sid <> "" -> Session.title pd <> "" -> Session.platform pd ∈ Session.platforms ->
  session_fault (faults w) = None -> analytics_fault (faults w) = None ->
  sessions w !! sid = None ->
  extensionInfo req' = Some ext' -> sessionId ext' = Some sid ->
  findOrCreateSession env req pd w = (Ok doc, w1)
  /\ findOrCreateSession env req' pd' w1 = (Ok doc, w1).
Proof.
  intros sid doc w1 Hext Hsid Htitle Hp Hsf Haf Hfree Hext' Hsid'.
  split.
  - unfold findOrCreateSession. rewrite Hext.
    assert (Hlookup :
      (match JS.truthy (sessionId ext) with
       | Some x => Store.Session_findOne_active x
       | None => ret None
       end) w = (Ok None, w)).
    { unfold sid in Hfree. destruct (JS.truthy (sessionId ext)) as [x|]; [| reflexivity].
      simpl in Hfree. run. rewrite Hsf. cbv beta iota.
      unfold Session.findOne_active. rewrite Hfree. reflexivity. }
    unfold bind at 1. rewrite Hlookup. cbv beta iota.
    fold sid. run.
    rewrite (new_doc_valid (clock w) (next_id w) (user_id req) sid pd
               {| Session.userAgent := user_agent (headers req);
                  Session.ipAddress := Some (ip req);
                  Session.extensionVersion := Some (version ext) |} Hsid Htitle Hp).
    cbn [negb]. cbn [faults with_next_id sessions clock]. rewrite Hsf. cbv beta iota.
    cbn [sessions with_next_id]. rewrite Hfree. cbv beta iota.
    unfold Analytics.validate.
    cbn [Analytics.eventType Analytics.data Analytics.platform].
    change Analytics.platforms with Session.platforms.
    rewrite (bool_decide_eq_true_2 _ Hp).
    replace (bool_decide ("session_started" ∈ Analytics.eventTypes)) with true
      by (symmetry; apply bool_decide_eq_true_2, list_elem_of_In; simpl; tauto).
    cbn [negb andb]. cbn [faults with_sessions with_next_id]. rewrite Haf.
    reflexivity.
  - apply (resolve_existing env req' pd' ext' sid doc w1 Hext' Hsid' Hsid).
    + exact Hsf.
    + unfold w1. cbn [sessions with_events with_sessions]. apply lookup_insert_eq.
    + reflexivity.
Qed.

Lemma findOrCreate_creates_witness :
  fst (findOrCreateSession (Sample.env "unused") (Sample.resolved_request None)
         Sample.two_sum_problem (Sample.fresh_world 0))
  = Ok (Session.new_doc 0 1 None Sample.S1 Sample.two_sum_problem
          {| Session.userAgent := Some "Chrome"; Session.ipAddress := Some "127.0.0.1";
             Session.extensionVersion := Some "1.0.0" |}).
Proof.
  assert (Hp : Session.platform Sample.two_sum_problem ∈ Session.platforms)
    by (apply list_elem_of_In; simpl; tauto).
  pose proof (findOrCreate_creates (Sample.env "unused") (Sample.resolved_request None)
                (Sample.resolved_request (Some Sample.S1))
                Sample.two_sum_problem Sample.two_sum_problem
                {| version := "1.0.0"; sessionId := None |}
                {| version := "1.0.0"; sessionId := Some Sample.S1 |}
                (Sample.fresh_world 0)
                eq_refl ltac:(discriminate) ltac:(discriminate) Hp
                eq_refl eq_refl ltac:(reflexivity) eq_refl eq_refl) as [Hfirst _].
  rewrite Hfirst. reflexivity.
Defined.



Example hint_on_swept_session_fails :
  fst (generate_hint (Sample.env "Store what you have seen.")
         (Sample.extension_request (Some Sample.S1)) Sample.second_hint
         (Sample.sweep_at (3 * 60 * 60 * 1000) Sample.after_first_hint))
  = Failed Store.DuplicateKey.
Proof. vm_compute. reflexivity. Qed.

End Resolve.

(** ** Events, language detection and batches *)

Section Service.

Import AIService.

Ltac run :=
  cbv [bind gets throw ret modify lift when log try_catchM
       Store.now Store.guard Store.Analytics_recordEvent].

(** X15. [recordEvent] stores one event, stamped with the current
    time, when its type and its platform (if it has one) are among the
    values the schema enumerates; otherwise it rejects with a validation
    error and stores nothing. The platform ['extension'], which the
    register route passes, is not among them. *)
Theorem recordEvent_checks_enums (eventType : string) (data : Analytics.Data)
    (userId sessionId : option nat) (w : World) :
  analytics_fault (faults w) = None ->
  (eventType ∈ Analytics.eventTypes ->
   match Analytics.platform data with
   | Some p => p ∈ Analytics.platforms
   | None => True
   end ->
   Store.Analytics_recordEvent eventType data userId sessionId w
   = (Ok tt,
      with_events
        (events w ++ [{| Analytics.eventType := eventType; Analytics.userId := userId;
                         Analytics.sessionId := sessionId; Analytics.data := data;
                         Analytics.timestamp := clock w |}]) w))
  /\ (eventType ∉ Analytics.eventTypes
      \/ (exists p, Analytics.platform data = Some p /\ p ∉ Analytics.platforms) ->
      Store.Analytics_recordEvent eventType data userId sessionId w
      = (Raise (Store.ValidationError "Analytics"), w))
  /\ "extension" ∉ Analytics.platforms.
Proof.
  intros Hf. split; [| split].
  - intros Hty Hp. run. unfold Analytics.validate.
    cbn [Analytics.eventType Analytics.data].
    rewrite (bool_decide_eq_true_2 _ Hty).
    destruct (Analytics.platform data) as [p|].
    + rewrite (bool_decide_eq_true_2 _ Hp). cbn [negb andb]. rewrite Hf. reflexivity.
    + cbn [negb andb]. rewrite Hf. reflexivity.
  - intros Hbad. run. unfold Analytics.validate.
    cbn [Analytics.eventType Analytics.data].
    destruct Hbad as [Hty | [p [Hp Hnot]]].
    + rewrite (bool_decide_eq_false_2 _ Hty). reflexivity.
    + rewrite Hp, (bool_decide_eq_false_2 _ Hnot), andb_false_r. reflexivity.
  - intros H. apply list_elem_of_In in H. simpl in H.
    repeat (destruct H as [H | H]; [discriminate H |]). exact H.
Qed.

Lemma recordEvent_checks_enums_witness :
  Store.Analytics_recordEvent "user_registered"
    {| Analytics.platform := Some "extension"; Analytics.problemTitle := None;
       Analytics.problemDifficulty := None; Analytics.hintNumber := None;
       Analytics.codeLength := None; Analytics.responseTime := None;
       Analytics.aiProvider := None; Analytics.errorMessage := None;
       Analytics.extensionVersion := None; Analytics.userAgent := Some "Chrome" |}
    (Some 1%nat) None (Sample.registered 0)
  = (Raise (Store.ValidationError "Analytics"), Sample.registered 0).
Proof.
  pose proof (recordEvent_checks_enums "user_registered"
                {| Analytics.platform := Some "extension"; Analytics.problemTitle := None;
                   Analytics.problemDifficulty := None; Analytics.hintNumber := None;
                   Analytics.codeLength := None; Analytics.responseTime := None;
                   Analytics.aiProvider := None; Analytics.errorMessage := None;
                   Analytics.extensionVersion := None; Analytics.userAgent := Some "Chrome" |}
                (Some 1%nat) None (Sample.registered 0) eq_refl) as [_ [Hbad Hext]].
  apply Hbad. right. exists "extension". split; [reflexivity | exact Hext].
Defined.

(** X16. The language detector of the routes and the one of the AI
    service give the same answer for every code, except that only the
    service takes [cout] as a sign of C++: when they differ, the
    service says [cpp] because of a [cout]. *)
Theorem detectors_agree (code : string) :
  AIRoutes.detectCodeLanguage code = detectLanguage code
  \/ (detectLanguage code = "cpp" /\ JS.includes code "cout" = true
      /\ JS.includes code "#include" = false /\ JS.includes code "int main" = false).
Proof.
  unfold AIRoutes.detectCodeLanguage, detectLanguage.
  repeat match goal with
         | |- context [JS.includes code ?p] =>
             destruct (JS.includes code p) eqn:?; cbn [orb];
             try (left; reflexivity)
         end.
  all: right; repeat split; reflexivity.
Qed.

Example detectors_differ :
  detectLanguage "cout << x;" = "cpp" /\ AIRoutes.detectCodeLanguage "cout << x;" = "unknown".
Proof. split; reflexivity. Qed.




End Service.

(** ** Changing the password and deleting the account *)

Section Account.

Import Http Auth AuthRoutes.

Ltac run :=
  cbv [bind gets throw ret modify lift when log try_catchM catchAsync
       Store.now Store.guard Store.User_findById Store.User_updateOne].

Lemma findById_id (id0 : nat) (c : User.Collection) (u : User.t) :
  User.findById id0 c = Some u -> User._id u = id0.
Proof.
  unfold User.findById. intros H. apply find_some in H as [_ H].
  apply Nat.eqb_eq in H. exact H.
Qed.

(** Reading an account back after an update of it. *)
Lemma findById_updateById (id0 : nat) (f : User.t -> User.t) (c : User.Collection) :
  (forall x, User._id (f x) = User._id x) ->
  User.findById id0 (User.updateById id0 f c) = f <$> User.findById id0 c.
Proof.
  intros Hf. unfold User.findById, User.updateById.
  induction c as [|x c IH]; [reflexivity |].
  simpl. destruct (Nat.eqb (User._id x) id0) eqn:Hx.
  - simpl. rewrite Hf, Hx. reflexivity.
  - simpl. rewrite Hx. exact IH.
Qed.

Lemma verifyToken_accepts (cfg : Config.t) (t0 : Z) (u : User.t) (req : Request)
    (a : AuthHeader) (w : World) :
  authorization (headers req) = Some a ->
  JS.startsWith (scheme a) "Bearer" = true ->
  credentials a = Some (signToken cfg t0 (User._id u)) ->
  user_fault (faults w) = None ->
  User.findById (User._id u) (users w) = Some u ->
  User.isActive u = true ->
  match User.passwordChangedAt (User.security u) with
  | Some changed => JS.parseInt_div changed 1000 <= t0 / 1000
  | None => True
  end ->
  clock w / 1000 < t0 / 1000 + Config.jwt_expiresIn cfg ->
  verifyToken req w
  = (Ok (with_user (Some (User.touch (clock w) u)) req),
     with_users (User.updateById (User._id u) (User.touch (clock w)) (users w)) w).
Proof.
  intros Hauth Hscheme Hcred Hf Hfind Hact Hpw Htime.
  unfold verifyToken, bearer. rewrite Hauth, Hscheme, Hcred.
  cbv [signToken jwt_verify exp id iat]. run.
  replace (t0 / 1000 + Config.jwt_expiresIn cfg <=? clock w / 1000) with false
    by (symmetry; apply Z.leb_gt; lia).
  rewrite Hf. cbv beta iota. rewrite Hfind. cbv beta iota. rewrite Hact. cbn [negb].
  destruct (User.passwordChangedAt (User.security u)) as [changed|].
  - replace (t0 / 1000 <? JS.parseInt_div changed 1000) with false
      by (symmetry; apply Z.ltb_ge; lia).
    cbn -[User.updateById User.touch]. rewrite Hf. reflexivity.
  - cbn -[User.updateById User.touch]. rewrite Hf. reflexivity.
Qed.



(** X19. Deleting the account answers 200, keeps the document, marks
    it inactive and renames its email and username with the prefix
    [deleted_<time>_]. From then on the token of the account is refused
    by [verifyToken] as deactivated, and [optionalAuth] lets the request
    pass without attaching the account. *)
Theorem deleted_account_is_shut_out (cfg : Config.t) (t0 : Z) (u : User.t) (req : Request)
    (a : AuthHeader) (w : World) :
  authorization (headers req) = Some a ->
  JS.startsWith (scheme a) "Bearer" = true ->
  credentials a = Some (signToken cfg t0 (User._id u)) ->
  user_fault (faults w) = None ->
  User.findById (User._id u) (users w) = Some u ->
  User.isActive u = true ->
  match User.passwordChangedAt (User.security u) with
  | Some changed => JS.parseInt_div changed 1000 <= t0 / 1000
  | None => True
  end ->
  clock w / 1000 < t0 / 1000 + Config.jwt_expiresIn cfg ->
  let result := delete_account req w in
  fst result = Json 200 (MessageBody "Account deleted successfully")
  /\ User.findById (User._id u) (users (snd result))
     = Some (User.with_identity
               ("deleted_" ++ pretty (clock w) ++ "_" ++ User.email u)
               ("deleted_" ++ pretty (clock w) ++ "_" ++ User.username u)
               false (User.touch (clock w) u))
  /\ (forall later, later / 1000 < t0 / 1000 + Config.jwt_expiresIn cfg ->
        verifyToken req (with_clock later (snd result))
        = (Raise Deactivated, with_clock later (snd result)))
  /\ (forall later, later / 1000 < t0 / 1000 + Config.jwt_expiresIn cfg ->
        optionalAuth req (with_clock later (snd result))
        = (Ok req, with_clock later (snd result))).
Proof.
  intros Hauth Hscheme Hcred Hf Hfind Hact Hpw Htime result.
  pose proof (verifyToken_accepts cfg t0 u req a w Hauth Hscheme Hcred Hf Hfind Hact
                Hpw Htime) as Hv.
  assert (Hresult : result
    = (Json 200 (MessageBody "Account deleted successfully"),
       with_logs (logs w ++ [{| level := "info"; message := "User account deleted:" |}])
         (with_users
            (User.updateById (User._id u)
               (User.with_identity
                  ("deleted_" ++ pretty (clock w) ++ "_" ++ User.email u)
                  ("deleted_" ++ pretty (clock w) ++ "_" ++ User.username u) false)
               (User.updateById (User._id u) (User.touch (clock w)) (users w))) w))).
  { unfold result, delete_account, catchAsync. unfold bind at 1. rewrite Hv.
    unfold delete_account_handler. cbn [user with_user]. run.
    cbn [faults with_users clock]. rewrite Hf. reflexivity. }
  clearbody result. subst result. cbn [fst snd].
  assert (Hstored :
    User.findById (User._id u)
      (User.updateById (User._id u)
         (User.with_identity
            ("deleted_" ++ pretty (clock w) ++ "_" ++ User.email u)
            ("deleted_" ++ pretty (clock w) ++ "_" ++ User.username u) false)
         (User.updateById (User._id u) (User.touch (clock w)) (users w)))
    = Some (User.with_identity
              ("deleted_" ++ pretty (clock w) ++ "_" ++ User.email u)
              ("deleted_" ++ pretty (clock w) ++ "_" ++ User.username u)
              false (User.touch (clock w) u))).
  { rewrite !findById_updateById by reflexivity. rewrite Hfind. reflexivity. }
  split; [reflexivity | split; [exact Hstored | split]].
  - intros later Hlater. unfold verifyToken, bearer. rewrite Hauth, Hscheme, Hcred.
    cbv [signToken jwt_verify exp id iat]. run.
    cbn [clock with_clock with_logs with_users faults users].
    replace (t0 / 1000 + Config.jwt_expiresIn cfg <=? later / 1000) with false
      by (symmetry; apply Z.leb_gt; lia).
    rewrite Hf. cbv beta iota.
    cbn [clock with_clock with_logs with_users faults users].
    rewrite Hstored. reflexivity.
  - intros later Hlater. unfold optionalAuth, bearer. rewrite Hauth, Hscheme, Hcred.
    cbv [signToken jwt_verify exp id iat]. run.
    cbn [clock with_clock with_logs with_users faults users].
    replace (t0 / 1000 + Config.jwt_expiresIn cfg <=? later / 1000) with false
      by (symmetry; apply Z.leb_gt; lia).
    rewrite Hf. cbv beta iota.
    cbn [clock with_clock with_logs with_users faults users].
    rewrite Hstored. reflexivity.
Qed.

Lemma deleted_account_is_shut_out_witness :
  fst (delete_account (Sample.bearer_request Sample.token_10100) (Sample.registered 20000))
  = Json 200 (MessageBody "Account deleted successfully").
Proof.
  assert (Hpw : match User.passwordChangedAt (User.security Sample.alice) with
                | Some changed => JS.parseInt_div changed 1000 <= 10100 / 1000
                | None => True
                end) by (vm_compute; congruence).
  apply (deleted_account_is_shut_out Config.default 10100 Sample.alice
           (Sample.bearer_request Sample.token_10100)
           {| scheme := "Bearer"; credentials := Some Sample.token_10100 |}
           (Sample.registered 20000)
           eq_refl eq_refl eq_refl eq_refl eq_refl eq_refl Hpw
           ltac:(vm_compute; reflexivity)).
Defined.

Example deleted_account_cannot_log_in :
  fst (login Config.default (Sample.login_body "password123")
         (snd (delete_account (Sample.bearer_request Sample.token_10100)
                 (Sample.registered 20000))))
  = Failed InvalidCredentials.
Proof. vm_compute. reflexivity. Qed.

End Account.

(** ** A hint request while the provider is down *)

Section Degraded.

Import Http AIRoutes.

Lemma bind_ok {A B} (m : M A) (k : A -> M B) (w w1 : World) (a : A) :
  m w = (Ok a, w1) -> bind m k w = k a w1.
Proof. intros H. unfold bind. rewrite H. reflexivity. Qed.

Lemma try_ok {A} (body : M A) (handler : Err -> M A) (w w1 : World) (a : A) :
  body w = (Ok a, w1) -> try_catchM body handler w = (Ok a, w1).
Proof. intros H. unfold try_catchM. rewrite H. reflexivity. Qed.

Lemma Session_save_ok (doc : Session.t) (w : World) :
  Session.validate doc = true -> session_fault (faults w) = None ->
  Store.Session_save doc w
  = (Ok (Session.with_updatedAt (clock w) doc),
     with_sessions
       (<[Session.sessionId doc := Session.with_updatedAt (clock w) doc]> (sessions w)) w).
Proof.
  intros Hv Hf. unfold Store.Session_save. rewrite Hv. cbn [negb].
  cbv [bind Store.guard Store.now gets ret throw modify]. rewrite Hf. reflexivity.
Qed.

Lemma validate_addHint (now : Z) (d : Session.HintData) (s : Session.t) :
  Session.validate s = true -> Session.required (Session.hd_content d) = true ->
  Session.validate (Session.addHint now d s) = true.
Proof.
  unfold Session.validate. intros Hv Hc.
  repeat (apply andb_prop in Hv as [Hv ?]).
  cbn [Session.addHint Session.with_hints Session.with_metrics Session.sessionId
       Session.problem Session.hints Session.codeAnalyses Session.feedback].
  rewrite forallb_app. cbn [forallb Session.mkHint Session.content].
  repeat (apply andb_true_intro; split); try assumption. reflexivity.
Qed.

Lemma recordEvent_ok (eventType : string) (data : Analytics.Data)
    (userId sessionId : option nat) (w : World) :
  Analytics.validate {| Analytics.eventType := eventType; Analytics.userId := userId;
                        Analytics.sessionId := sessionId; Analytics.data := data;
                        Analytics.timestamp := clock w |} = true ->
  analytics_fault (faults w) = None ->
  Store.Analytics_recordEvent eventType data userId sessionId w
  = (Ok tt,
     with_events
       (events w ++ [{| Analytics.eventType := eventType; Analytics.userId := userId;
                        Analytics.sessionId := sessionId; Analytics.data := data;
                        Analytics.timestamp := clock w |}]) w).
Proof.
  intros Hv Hf.
  cbv [Store.Analytics_recordEvent bind Store.guard Store.now gets ret throw modify].
  rewrite Hv. cbn [negb]. rewrite Hf. reflexivity.
Qed.

Lemma AI_generateHint_down (probe live : AIService.ProviderCall)
    (o : AIService.HintOptions) (w : World) (e : Err) :
  AIService.outcome live = AIService.Throws e ->
  Store.AI_generateHint probe live o w
  = (Ok (AIService.getFallbackHint (length (AIService.previousHints o))
           (0 <? String.length (AIService.userCode o))%nat
           (AIService.platform o) (AIService.difficulty o)),
     with_clock (snd (AIService.maybe_probe (clock w) probe (ai w))
                 + AIService.latency live)
       (with_ai (fst (AIService.maybe_probe (clock w) probe (ai w))) w)).
Proof.
  intros Hlive. unfold Store.AI_generateHint, AIService.generateHint.
  destruct (AIService.maybe_probe (clock w) probe (ai w)) as [s1 t1].
  rewrite Hlive. reflexivity.
Qed.

Lemma User_updateOne_ok (id0 : nat) (f : User.t -> User.t) (w : World) :
  user_fault (faults w) = None ->
  Store.User_updateOne id0 f w = (Ok tt, with_users (User.updateById id0 f (users w)) w).
Proof.
  intros Hf. cbv [Store.User_updateOne bind Store.guard gets ret throw modify].
  rewrite Hf. reflexivity.
Qed.

(** X20. A hint request for an active session is answered with
    status 200 also when the provider call fails: the hint is the entry
    of the fallback ladder for the number of previous hints the request
    lists, the hint number is that number plus one, and the fallback is
    appended to the stored session like any other hint. *)
Theorem hint_request_survives_provider_outage (env : Env) (req : Request)
    (b : GenerateHintBody) (ext : ExtensionInfo) (X : string) (s : Session.t)
    (w : World) (e : Err) :
  extensionInfo req = Some ext -> sessionId ext = Some X -> X <> "" ->
  session_fault (faults w) = None -> analytics_fault (faults w) = None ->
  user_fault (faults w) = None ->
  sessions w !! X = Some s -> Session.isActive s = true -> Session.validate s = true ->
  platform b ∈ supported ->
  AIService.outcome (live env) = AIService.Throws e ->
  exists h responseTime w',
    generate_hint_handler env req b w
    = (Ok (Json 200 (HintBody (Some h) (length (default [] (previousHints b)) + 1)
                       (Session.sessionId s) responseTime)), w')
    /\ AIService.getFallbackHint (length (default [] (previousHints b)))
         (0 <? String.length (default "" (userCode b)))%nat
         (platform b) (default "Unknown" (difficulty b)) = Some h
    /\ h <> ""
    /\ (exists s', sessions w' !! Session.sessionId s = Some s'
                   /\ (Session.content <$> Session.hints s')
                      = ((Session.content <$> Session.hints s) ++ [Some h])%list
                   /\ Session.hintsRequested (Session.metrics s')
                      = S (length (Session.hints s))).
Proof.
  intros Hext HX Hne Hsf Haf Huf Hs Hact Hvalid Hp Hlive.
  destruct (fallbackHints_total
              (0 <? String.length (default "" (userCode b)))%nat
              (Nat.min (length (default [] (previousHints b))) 5)) as [h Hh]; [lia |].
  assert (Hget : AIService.getFallbackHint (length (default [] (previousHints b)))
                   (0 <? String.length (default "" (userCode b)))%nat
                   (platform b) (default "Unknown" (difficulty b)) = Some h).
  { rewrite getFallbackHint_index. exact Hh. }
  assert (Hnonempty : h <> "") by (eapply fallbackHints_nonempty; exact Hh).
  assert (Hplatform : bool_decide (platform b ∈ Analytics.platforms) = true).
  { apply bool_decide_eq_true_2. apply list_elem_of_In in Hp. apply list_elem_of_In.
    simpl in Hp |- *. tauto. }
  assert (Hsaved : Session.validate
             (Session.addHint
                (snd (AIService.maybe_probe (clock w) (probe env) (ai w))
                 + AIService.latency (live env))
                {| Session.hd_content := Some h;
                   Session.hd_userCode :=
                     if (0 <? String.length (default "" (userCode b)))%nat
                     then JS.substring0 1000 (default "" (userCode b)) else "";
                   Session.hd_codeLength := String.length (default "" (userCode b));
                   Session.hd_responseTime :=
                     snd (AIService.maybe_probe (clock w) (probe env) (ai w))
                     + AIService.latency (live env) - clock w |} s) = true).
  { apply validate_addHint; [exact Hvalid |].
    cbn [Session.hd_content Session.required]. unfold Session.nonempty.
    rewrite (proj2 (String.eqb_neq h "") Hnonempty). reflexivity. }
  destruct (user req) as [u|] eqn:Huser.
  - exists h. eexists. eexists.
    split; [| split; [exact Hget | split; [exact Hnonempty |]]].
    + unfold generate_hint_handler.
      erewrite bind_ok by reflexivity.
      erewrite bind_ok by reflexivity.
      apply try_ok.
      erewrite bind_ok by (eapply resolve_existing; eassumption).
      erewrite bind_ok by (apply AI_generateHint_down with (e := e); exact Hlive).
      cbn [AIService.previousHints AIService.userCode AIService.platform
           AIService.difficulty].
      rewrite Hget.
      erewrite bind_ok by reflexivity.
      erewrite bind_ok by (apply Session_save_ok; [exact Hsaved | exact Hsf]).
      rewrite Huser.
      erewrite bind_ok by (apply User_updateOne_ok; exact Huf).
      erewrite bind_ok.
      2: { apply recordEvent_ok; [| exact Haf].
           unfold Analytics.validate.
           cbn [Analytics.eventType Analytics.data Analytics.platform].
           rewrite Hplatform. reflexivity. }
      erewrite bind_ok by reflexivity.
      reflexivity.
    + eexists. split.
      * cbn [sessions with_logs with_events with_users with_sessions].
        apply lookup_insert_eq.
      * split.
        -- cbn [Session.hints Session.with_updatedAt Session.addHint Session.with_metrics
                Session.with_hints].
           rewrite fmap_app. reflexivity.
        -- cbn [Session.hintsRequested Session.metrics Session.with_updatedAt
                Session.addHint Session.with_metrics Session.set_hintsRequested
                Session.hints Session.with_hints].
           rewrite length_app. simpl. lia.
  - exists h. eexists. eexists.
    split; [| split; [exact Hget | split; [exact Hnonempty |]]].
    + unfold generate_hint_handler.
      erewrite bind_ok by reflexivity.
      erewrite bind_ok by reflexivity.
      apply try_ok.
      erewrite bind_ok by (eapply resolve_existing; eassumption).
      erewrite bind_ok by (apply AI_generateHint_down with (e := e); exact Hlive).
      cbn [AIService.previousHints AIService.userCode AIService.platform
           AIService.difficulty].
      rewrite Hget.
      erewrite bind_ok by reflexivity.
      erewrite bind_ok by (apply Session_save_ok; [exact Hsaved | exact Hsf]).
      rewrite Huser.
      erewrite bind_ok by reflexivity.
      erewrite bind_ok.
      2: { apply recordEvent_ok; [| exact Haf].
           unfold Analytics.validate.
           cbn [Analytics.eventType Analytics.data Analytics.platform].
           rewrite Hplatform. reflexivity. }
      erewrite bind_ok by reflexivity.
      reflexivity.
    + eexists. split.
      * cbn [sessions with_logs with_events with_users with_sessions].
        apply lookup_insert_eq.
      * split.
        -- cbn [Session.hints Session.with_updatedAt Session.addHint Session.with_metrics
                Session.with_hints].
           rewrite fmap_app. reflexivity.
        -- cbn [Session.hintsRequested Session.metrics Session.with_updatedAt
                Session.addHint Session.with_metrics Session.set_hintsRequested
                Session.hints Session.with_hints].
           rewrite length_app. simpl. lia.
Qed.

Lemma hint_request_survives_provider_outage_witness :
  exists responseTime,
    fst (generate_hint_handler
           {| probe := Sample.unreachable; live := Sample.unreachable; uuid := "unused" |}
           (Sample.resolved_request (Some Sample.S1)) Sample.second_hint
           Sample.after_first_hint)
    = Ok (Json 200
            (HintBody
               (Some "Think about the constraints. What do they tell you about the expected time complexity?")
               2 Sample.S1 responseTime)).
Proof.
  destruct (sessions Sample.after_first_hint !! Sample.S1) as [s|] eqn:Hs;
    [| vm_compute in Hs; discriminate Hs].
  assert (Hp : platform Sample.second_hint ∈ supported)
    by (apply list_elem_of_In; simpl; tauto).
  assert (Hfields : Session.isActive s = true /\ Session.validate s = true
                    /\ Session.sessionId s = Sample.S1).
  { vm_compute in Hs. injection Hs as <-. vm_compute. repeat split. }
  destruct Hfields as [Hact [Hvalid Hsid]].
  destruct (hint_request_survives_provider_outage
              {| probe := Sample.unreachable; live := Sample.unreachable; uuid := "unused" |}
              (Sample.resolved_request (Some Sample.S1)) Sample.second_hint
              {| version := "1.0.0"; sessionId := Some Sample.S1 |} Sample.S1 s
              Sample.after_first_hint (JsError "Error" "fetch failed")
              eq_refl eq_refl ltac:(discriminate) eq_refl eq_refl eq_refl Hs Hact Hvalid
              Hp eq_refl) as (h & rt & w' & Hrun & Hget & _).
  exists rt. rewrite Hrun. cbn [fst]. rewrite Hsid.
  vm_compute in Hget. injection Hget as <-. reflexivity.
Defined.

End Degraded.

(** ** The browser extension *)

Section Client.

Import Extension.

Example server_error_mentioning_fetch :
  generateNextHint
    (Delivered (on_GENERATE_HINT
                  (FetchResponse false 500
                     (JsonValue {| rj_message := Some "fetch failed"; rj_data := None |}))))
  = Some connection_hint.
Proof. reflexivity. Qed.

Example http_error_without_body :
  request (D := HintData) (FetchResponse false 429 (JsonRejects "Unexpected token"))
  = inl "HTTP error! status: 429".
Proof. reflexivity. Qed.

(** X21. Whatever the request to the backend does, the content script
    gets a hint from [generateNextHint] through the background script
    without an exception: the hint of the server when the response is
    ok and carries data; and when the request fails, the connection
    message if the message of the error contains "fetch" and the
    generic hint otherwise. The background script never reports a
    failure, so the only other text, the one for trouble, appears when
    an ok response has no data. *)
Theorem client_hint_outcomes (fetched : FetchOutcome HintData) :
  success (on_GENERATE_HINT fetched) = true
  /\ generateNextHint (Delivered (on_GENERATE_HINT fetched))
     = match request fetched with
       | inr (Some data) => hint data
       | inr None => Some trouble_hint
       | inl message =>
           if JS.includes message "fetch" then Some connection_hint
           else Some generic_hint
       end
  /\ (forall message, request fetched = inl message ->
        generateNextHint (Delivered (on_GENERATE_HINT fetched)) = Some connection_hint
        <-> JS.includes message "fetch" = true).
Proof.
  split; [reflexivity |]. split.
  - unfold generateNextHint, on_GENERATE_HINT, generateHint. cbn [success reply_data].
    destruct (request fetched) as [message | [data|]]; try reflexivity.
    destruct (JS.includes message "fetch"); reflexivity.
  - intros message Hm.
    unfold generateNextHint, on_GENERATE_HINT, generateHint. cbn [success reply_data].
    rewrite Hm. destruct (JS.includes message "fetch"); cbn [hint].
    + split; reflexivity.
    + split; intros H; discriminate H.
Qed.

Lemma client_hint_outcomes_witness :
  generateNextHint (Delivered (on_GENERATE_HINT (FetchRejects "Failed to fetch")))
  = Some connection_hint.
Proof.
  apply (proj2 (proj2 (client_hint_outcomes (FetchRejects "Failed to fetch")))
           "Failed to fetch" eq_refl).
  reflexivity.
Defined.


(** X23. The popup reports the service online whenever the background
    script answers its health check, whatever happened to the request
    to the backend: [healthCheck] turns every failure into an error
    report, which the listener sends with [success: true]. *)
Theorem popup_online_whatever_backend {D} (fetched : FetchOutcome D) :
  popup_status (Delivered (on_HEALTH_CHECK fetched)) = "Service online and ready!"
  /\ checkBackendHealth (Delivered (on_HEALTH_CHECK fetched)) = true
  /\ (forall message, fetched = FetchRejects message ->
        reply_data (on_HEALTH_CHECK fetched) = Some (HealthError message)).
Proof.
  repeat split. intros message ->. reflexivity.
Qed.

Lemma popup_online_whatever_backend_witness :
  reply_data (on_HEALTH_CHECK (D := unit) (FetchRejects "Failed to fetch"))
  = Some (HealthError "Failed to fetch").
Proof.
  apply (proj2 (proj2 (popup_online_whatever_backend (D := unit)
                         (FetchRejects "Failed to fetch"))) "Failed to fetch" eq_refl).
Defined.

End Client.

(** ** A successful login, and the probe of the provider *)

Section Recovery.

Import Http Auth AuthRoutes.

(** X24. A login with the right password on an active account clears
    the record of failed attempts - the count goes to zero and
    [lockUntil] is removed - when there was any, adds one to
    [totalSessions] and sets [lastActive] to the time of the login. *)
Theorem successful_login_resets (cfg : Config.t) (body : LoginBody) (ident pw : string)
    (u : User.t) (w : World) :
  email body = None -> username body = None ->
  identifier body = Some ident -> password body = Some pw ->
  user_fault (faults w) = None ->
  User.findByEmailOrUsername ident (users w) = Some u ->
  User.findById (User._id u) (users w) = Some u ->
  User.comparePassword pw u = true -> User.isActive u = true ->
  exists s,
    User.findById (User._id u) (users (snd (login cfg body w))) = Some s
    /\ User.security s
       = (if 0 <? User.loginAttempts (User.security u)
          then {| User.loginAttempts := 0; User.lockUntil := None;
                  User.passwordChangedAt := User.passwordChangedAt (User.security u) |}
          else User.security u)
    /\ User.totalSessions (User.stats s) = S (User.totalSessions (User.stats u))
    /\ User.lastActive (User.stats s) = Some (clock w).
Proof.
  intros He Hu Hi Hp Hf Hfind Hid Hpw Hact.
  assert (Hworld : users (snd (login cfg body w))
    = User.updateById (User._id u) (User.updateStats (clock w) "session" u)
        (if 0 <? User.loginAttempts (User.security u)
         then User.updateById (User._id u) User.resetLoginAttempts (users w)
         else users w)).
  { unfold login, catchAsync.
    unfold bind at 1. rewrite (checkAccountLock_ignores_identifier body w He Hu).
    unfold login_handler. rewrite Hi, Hp.
    cbv [Store.User_findByEmailOrUsername Store.guard Store.now Store.User_updateOne
         bind gets throw ret modify when log createSendToken].
    rewrite Hf. cbv beta iota. rewrite Hfind. cbv beta iota. rewrite Hpw, Hact.
    cbn [negb].
    destruct (0 <? User.loginAttempts (User.security u));
      cbn -[signToken publicUser User.updateById User.updateStats User.resetLoginAttempts];
      rewrite ?Hf;
      cbn -[signToken publicUser User.updateById User.updateStats User.resetLoginAttempts];
      rewrite ?Hf; reflexivity. }
  rewrite Hworld.
  rewrite findById_updateById by reflexivity.
  destruct (0 <? User.loginAttempts (User.security u)).
  - rewrite findById_updateById by reflexivity. rewrite Hid.
    eexists. split; [reflexivity |]. cbn. repeat split. lia.
  - rewrite Hid. eexists. split; [reflexivity |]. cbn. repeat split. lia.
Qed.

Lemma successful_login_resets_witness :
  exists s,
    User.findById 1
      (users (snd (AuthRoutes.login Config.default (Sample.login_body "password123")
                     (Sample.wrong_logins 3 (Sample.registered 0))))) = Some s
    /\ User.loginAttempts (User.security s) = 0.
Proof.
  destruct (successful_login_resets Config.default (Sample.login_body "password123")
              "alice" "password123"
              (User.failed_attempts Config.default [1000; 2000; 3000] Sample.alice)
              (Sample.wrong_logins 3 (Sample.registered 0)))
    as [s [Hs [Hsec _]]]; try (vm_compute; congruence).
  exists s. split; [exact Hs |]. rewrite Hsec. reflexivity.
Defined.

Import AIService.

(** X25. After a probe, [generateHint] leaves the service alone for a
    minute: within 60 s of the last check it does not probe, whatever
    the health; later than that an unhealthy service is probed again
    first, and the answer to that probe decides the health. A service
    whose first probe has not finished is never probed by
    [generateHint]. *)
Theorem reprobe_waits_a_minute (now now' : Z) (call probe live : ProviderCall)
    (o : HintOptions) (s : AIService.t) :
  let s1 := fst (healthCheck now call s) in
  (now' - (now + latency call) <= 60000 ->
   fst (generateHint now' probe live o s1) = s1)
  /\ (isHealthy s1 = false -> 60000 < now' - (now + latency call) ->
      fst (generateHint now' probe live o s1) = fst (healthCheck now' probe s1)
      /\ isHealthy (fst (generateHint now' probe live o s1))
         = match outcome probe with
           | Replies text => JS.includes (JS.trim text) "OK"
           | Throws _ => false
           end)
  /\ fst (generateHint now' probe live o constructed) = constructed.
Proof.
  intros s1.
  assert (Hlast : lastHealthCheck s1 = Some (now + latency call)).
  { unfold s1, healthCheck. destruct (outcome call); reflexivity. }
  split; [| split].
  - intros Hsoon. rewrite generateHint_state. unfold maybe_probe, probe_due.
    rewrite Hlast.
    replace (60000 <? now' - (now + latency call)) with false
      by (symmetry; apply Z.ltb_ge; lia).
    rewrite andb_false_r. reflexivity.
  - intros Hdown Hlate. rewrite generateHint_state. unfold maybe_probe, probe_due.
    rewrite Hlast, Hdown.
    replace (60000 <? now' - (now + latency call)) with true
      by (symmetry; apply Z.ltb_lt; lia).
    cbn [negb andb fst]. split; [reflexivity |].
    unfold healthCheck. destruct (outcome probe); reflexivity.
  - rewrite generateHint_state. reflexivity.
Qed.

Lemma reprobe_waits_a_minute_witness :
  fst (generateHint 30000 Sample.unreachable Sample.unreachable Sample.two_sum_options
         (fst (healthCheck 0 Sample.unreachable constructed)))
  = fst (healthCheck 0 Sample.unreachable constructed).
Proof.
  apply (reprobe_waits_a_minute 0 30000 Sample.unreachable Sample.unreachable
           Sample.unreachable Sample.two_sum_options constructed).
  vm_compute. congruence.
Defined.

End Recovery.
